(** * Purchase-approval workflow of the ERP's financial module

    A shallow embedding of [financiero.states.js], [financiero.schema.js],
    [financiero.repository.js], [financiero.service.js], the approval route
    and [withTransaction], of the reads of the module (listings, history,
    what is pending for a role) and of the range check of
    [operaciones.service.js], followed by the properties of the approval
    chain, of histories of calls and of the reads.

    Conventions of the embedding:
    - a finite JavaScript number and a stored [NUMERIC] value are rationals
      ([Q]), compared exactly; the sum and the product of the engine (IEEE
      754) and the value a NUMERIC(16,2) column takes for a number are left
      open ([Numeros]): every statement holds whatever they are. [NaN] and
      the infinities are outside the model;
    - a string is the UTF-8 encoding of the JavaScript string, which holds
      no U+0000, the one character a text column refuses;
    - a request's stage is the enumeration [ESTADOS_COMPRA] (the table's CHECK
      admits nothing else); roles, action tags and comments are strings;
    - the CHECK and NOT NULL constraints of the three tables are enforced
      when a row is written, and so is the refusal of a value for a
      generated column; foreign keys are taken to hold, so that the users
      and areas referred to exist; the keys of the stored rows are INTEGER
      values, and a key beyond that range given to a statement is refused;
    - the data base is a record of three tables; every asynchronous function
      is a computation over a world made of the committed tables, the
      request sequence and a plan of storage faults. *)

From Stdlib Require Import List String Ascii Bool ZArith QArith Qround Lia Lqa
  Permutation Sorted.
Import ListNotations.

(* ================================================================== *)
(** * financiero.states.js *)
(* ================================================================== *)

Module States.

(** [UMBRALES_APROBACION]: read from the environment when the process
    starts, with the defaults below. *)
Record Umbrales : Type := {
  JEFE_AREA : Q;
  GERENCIA  : Q
}.

Definition UMBRALES_POR_DEFECTO : Umbrales :=
  {| JEFE_AREA := 5000000; GERENCIA := 20000000 |}.

Inductive Estado : Type :=
| BORRADOR
| PENDIENTE_JEFE
| PENDIENTE_GERENCIA
| PENDIENTE_TESORERIA
| APROBADA
| RECHAZADA
| ANULADA
| EN_PROCESO
| COMPLETADA.

(** The string each key of [ESTADOS_COMPRA] stands for. *)
Definition ESTADOS_COMPRA (e : Estado) : string :=
  match e with
  | BORRADOR            => "borrador"
  | PENDIENTE_JEFE      => "pendiente_jefe"
  | PENDIENTE_GERENCIA  => "pendiente_gerencia"
  | PENDIENTE_TESORERIA => "pendiente_tesoreria"
  | APROBADA            => "aprobada"
  | RECHAZADA           => "rechazada"
  | ANULADA             => "anulada"
  | EN_PROCESO          => "en_proceso"
  | COMPLETADA          => "completada"
  end.

Definition Estado_eq_dec (a b : Estado) : {a = b} + {a <> b}.
Proof. decide equality. Defined.

(** [a === b] on stages. *)
Definition Estado_eqb (a b : Estado) : bool :=
  if Estado_eq_dec a b then true else false.

(** [x >= y] on numbers. *)
Definition mayor_igual (x y : Q) : bool := Qle_bool y x.

(** [Array.prototype.indexOf]: position of the first occurrence, -1 when
    there is none. *)
Fixpoint indexOf_desde (l : list Estado) (x : Estado) (i : Z) : Z :=
  match l with
  | [] => (-1)%Z
  | y :: l' => if Estado_eqb y x then i else indexOf_desde l' x (i + 1)%Z
  end.

Definition indexOf (l : list Estado) (x : Estado) : Z := indexOf_desde l x 0%Z.

(** [l[i]]: [None] stands for [undefined]. *)
Definition elemento (l : list Estado) (i : Z) : option Estado :=
  if (i <? 0)%Z then None else nth_error l (Z.to_nat i).

(** [Array.prototype.includes] on strings. *)
Definition includes (l : list string) (x : string) : bool :=
  existsb (String.eqb x) l.

Section Flujo.

Variable UMBRALES_APROBACION : Umbrales.

Definition calcularFlujoAprobacion (monto : Q) : list Estado :=
  let flujo := [PENDIENTE_JEFE] in
  let flujo :=
    if mayor_igual monto (JEFE_AREA UMBRALES_APROBACION)
    then flujo ++ [PENDIENTE_GERENCIA] else flujo in
  let flujo :=
    if mayor_igual monto (GERENCIA UMBRALES_APROBACION)
    then flujo ++ [PENDIENTE_TESORERIA] else flujo in
  flujo ++ [APROBADA].

(** [flujo[indexActual + 1] || null]: every entry is a non-empty string,
    so only [undefined] turns into [null] ([None]). *)
Definition siguienteEstado (estadoActual : Estado) (monto : Q) : option Estado :=
  let flujo := calcularFlujoAprobacion monto in
  let indexActual := indexOf flujo estadoActual in
  elemento flujo (indexActual + 1)%Z.

End Flujo.

(** [ROLES_POR_ESTADO]: a stage that is not a key yields [undefined]. *)
Definition ROLES_POR_ESTADO (e : Estado) : option (list string) :=
  match e with
  | PENDIENTE_JEFE      => Some ["jefe_area"; "gerente"; "admin"]%string
  | PENDIENTE_GERENCIA  => Some ["gerente"; "admin"]%string
  | PENDIENTE_TESORERIA => Some ["tesorero"; "admin"]%string
  | _ => None
  end.

Definition puedeAprobar (rol : string) (estadoActual : Estado) : bool :=
  let rolesPermitidos :=
    match ROLES_POR_ESTADO estadoActual with
    | Some roles => roles
    | None => []
    end in
  includes rolesPermitidos rol.

End States.

Import States.

(* ================================================================== *)
(** * shared/errors/AppError.js *)
(* ================================================================== *)

Module Errors.

(** What an operation throws: one of the operational [AppError] classes
    the module uses, or an error raised by the data base driver (not
    operational: the handler answers 500 for it). The text an [ErrorBD]
    carries names the refusal; it is not the message of the engine. *)
Inductive Excepcion : Type :=
| NotFoundError (resource : string)
| ValidationError (message : string)
| ForbiddenError (message : string)
| ErrorBD (detalle : string).

Definition statusCode (e : Excepcion) : Z :=
  match e with
  | NotFoundError _   => 404
  | ValidationError _ => 400
  | ForbiddenError _  => 403
  | ErrorBD _         => 500
  end.

Definition message (e : Excepcion) : string :=
  match e with
  | NotFoundError resource => resource ++ " no encontrado"
  | ValidationError m => m
  | ForbiddenError m => m
  | ErrorBD d => d
  end.

End Errors.

Import Errors.

(* ================================================================== *)
(** * The data base (DDL Financiero) and shared/database/pool.js *)
(* ================================================================== *)

Module Pool.

(** A row of [solicitudes_compra], as the program reads it; the two
    timestamps set by [NOW()] are left out. [sc_monto_total] is the number
    the program compares with the thresholds: the one the text the driver
    gives for the NUMERIC column stands for. *)
Record Solicitud : Type := {
  sc_id              : Z;
  sc_titulo          : string;
  sc_justificacion   : string;
  sc_proyecto_id     : option Z;
  sc_area_id         : Z;
  sc_estado          : Estado;
  sc_urgente         : bool;
  sc_monto_total     : Q;
  sc_fecha_requerida : option string;
  sc_solicitante_id  : Z;
  sc_updated_by      : option Z;
  sc_deleted_at      : option Z
}.

(** A row of [solicitud_compra_items], kept in the order of its serial
    key. *)
Record Item : Type := {
  sci_solicitud_id    : Z;
  sci_descripcion     : string;
  sci_cantidad        : Q;
  sci_precio_unitario : Q;
  sci_subtotal        : Q
}.

(** A row of [aprobaciones_compra], kept in the order of creation. *)
Record Aprobacion : Type := {
  ac_solicitud_id      : Z;
  ac_nivel_aprobacion  : Z;
  ac_accion            : string;
  ac_comentario        : option string;
  ac_aprobador_id      : Z;
  ac_estado_resultante : Estado
}.

Record BD : Type := {
  solicitudes_compra     : list Solicitud;
  solicitud_compra_items : list Item;
  aprobaciones_compra    : list Aprobacion
}.

(** The world an operation runs in: the tables, the next value of the
    serial key of [solicitudes_compra] (a sequence is not rolled back) and
    the plan of storage faults: the n-th statement sent to the data base
    is refused when the n-th entry is [true]; an exhausted plan refuses
    nothing. *)
Record Mundo : Type := {
  bd           : BD;
  siguiente_id : Z;
  fallos       : list bool
}.

(** What the model leaves to the engine and to the driver: the sum and the
    product of two numbers (IEEE 754 doubles, rounded to nearest), and the
    value a NUMERIC(16,2) column takes for a number bound to it, [None] when
    the data base refuses the number as out of range. Nothing is assumed of
    them. *)
Record Numeros : Type := {
  mas          : Q -> Q -> Q;
  por          : Q -> Q -> Q;
  numeric_16_2 : Q -> option Q
}.

(** The values of an INTEGER column or parameter. *)
Definition es_integer (i : Z) : bool :=
  (- 2147483648 <=? i)%Z && (i <=? 2147483647)%Z.

(** The values of a BIGINT parameter, the type of LIMIT and OFFSET. *)
Definition es_bigint (i : Z) : bool :=
  (- 9223372036854775808 <=? i)%Z && (i <=? 9223372036854775807)%Z.

(** [Number.MAX_SAFE_INTEGER]: up to it the integers are numbers of the
    engine and their sums and products, when within it, are exact. *)
Definition max_seguro : Z := 9007199254740991.

Definition sin_fallos (b : BD) (n : Z) : Mundo :=
  {| bd := b; siguiente_id := n; fallos := [] |}.

Definition con_bd (w : Mundo) (b : BD) : Mundo :=
  {| bd := b; siguiente_id := siguiente_id w; fallos := fallos w |}.

Definition con_fallos (w : Mundo) (plan : list bool) : Mundo :=
  {| bd := bd w; siguiente_id := siguiente_id w; fallos := plan |}.

(** An [async] function: it either throws or returns, and leaves a world. *)
Definition Async (A : Type) : Type := Mundo -> (Excepcion + A) * Mundo.

Definition ret {A : Type} (a : A) : Async A := fun w => (inr a, w).

Definition throw {A : Type} (e : Excepcion) : Async A := fun w => (inl e, w).

Definition bind {A B : Type} (m : Async A) (k : A -> Async B) : Async B :=
  fun w =>
    match m w with
    | (inr a, w') => k a w'
    | (inl e, w') => (inl e, w')
    end.

(** [pool.query] and [client.query]: the statement [sql] runs unless the
    plan refuses it. *)
Definition query {A : Type} (sql : Async A) : Async A :=
  fun w =>
    match fallos w with
    | true :: plan  => (inl (ErrorBD "la base de datos rechaza la consulta"), con_fallos w plan)
    | false :: plan => sql (con_fallos w plan)
    | []            => sql w
    end.

End Pool.

Import Pool.

Declare Scope async_scope.
Delimit Scope async_scope with async.
Notation "x <- m ;; k" := (bind m (fun x => k))
  (at level 61, m at next level, right associativity) : async_scope.
Notation "m ;;; k" := (bind m (fun _ => k))
  (at level 61, right associativity) : async_scope.

Module Transaccion.

Local Open Scope async_scope.

(** [withTransaction]: BEGIN, the callback, COMMIT; whatever is thrown on
    the way is answered by ROLLBACK, which restores the tables as they were
    at BEGIN, and thrown again. Acquiring the client and ROLLBACK itself
    are taken to succeed. *)
Definition withTransaction {A : Type} (callback : Async A) : Async A :=
  fun w =>
    let al_comenzar := bd w in
    match (query (ret tt) ;;; result <- callback ;; query (ret tt) ;;; ret result) w with
    | (inr result, w') => (inr result, w')
    | (inl error, w')  => (inl error, con_bd w' al_comenzar)
    end.

End Transaccion.

Import Transaccion.

(* ================================================================== *)
(** * financiero.schema.js and middlewares/validate.middleware.js *)
(* ================================================================== *)

Module Schema.

(** A field of a JSON body that is expected to hold a string. *)
Inductive Campo : Type :=
| indefinido
| nulo
| texto (s : string).

(** The fields of the body the approval schema keeps ([stripUnknown]). *)
Record CuerpoAprobacion : Type := {
  accion     : Campo;
  comentario : Campo
}.

(** The white space [String.prototype.trim] removes (WhiteSpace and
    LineTerminator of ECMAScript), by its UTF-8 encoding, of one, two or
    three bytes: U+0009 to U+000D and U+0020; U+00A0; U+1680, U+2000 to
    U+200A, U+2028, U+2029, U+202F, U+205F, U+3000 and U+FEFF. *)
Definition espacio1 (a : ascii) : bool :=
  let n := N_of_ascii a in
  ((9 <=? n) && (n <=? 13) || (n =? 32))%N.

Definition espacio2 (a b : ascii) : bool :=
  ((N_of_ascii a =? 194) && (N_of_ascii b =? 160))%N.

Definition espacio3 (a b c : ascii) : bool :=
  let x := N_of_ascii a in
  let y := N_of_ascii b in
  let z := N_of_ascii c in
  ((x =? 225) && (y =? 154) && (z =? 128)
   || (x =? 226) && (y =? 128)
      && ((128 <=? z) && (z <=? 138) || (z =? 168) || (z =? 169) || (z =? 175))
   || (x =? 226) && (y =? 129) && (z =? 159)
   || (x =? 227) && (y =? 128) && (z =? 128)
   || (x =? 239) && (y =? 187) && (z =? 191))%N.

(** The list without the white space it starts with, for tests [e1], [e2],
    [e3] of what one, two or three bytes encode. *)
Fixpoint quitar (e1 : ascii -> bool) (e2 : ascii -> ascii -> bool)
         (e3 : ascii -> ascii -> ascii -> bool) (l : list ascii) : list ascii :=
  match l with
  | [] => []
  | a :: l1 =>
      if e1 a then quitar e1 e2 e3 l1
      else match l1 with
           | [] => l
           | b :: l2 =>
               if e2 a b then quitar e1 e2 e3 l2
               else match l2 with
                    | [] => l
                    | c :: l3 => if e3 a b c then quitar e1 e2 e3 l3 else l
                    end
           end
  end.

(** From the front of the string, and from its end on the string read
    backwards. *)
Definition quitar_delante : list ascii -> list ascii :=
  quitar espacio1 espacio2 espacio3.

Definition quitar_detras : list ascii -> list ascii :=
  quitar espacio1 (fun a b => espacio2 b a) (fun a b c => espacio3 c b a).

Definition trim (s : string) : string :=
  string_of_list_ascii
    (rev (quitar_detras (rev (quitar_delante (list_ascii_of_string s))))).

(** The UTF-16 code units a byte of the encoding stands for: one for the
    first byte of a character of one, two or three bytes, two for the first
    byte of a character of four (a surrogate pair), none for a continuation
    byte. *)
Definition unidades (a : ascii) : nat :=
  let n := N_of_ascii a in
  if (n <? 128)%N then 1%nat
  else if (n <? 192)%N then 0%nat
  else if (n <? 240)%N then 1%nat
  else 2%nat.

(** [s.length] *)
Definition longitud (s : string) : nat :=
  list_sum (map unidades (list_ascii_of_string s)).

(** [Joi.string().valid('aprobar', 'rechazar').required()]; an error is
    recorded by its Joi code. With [abortEarly: false] a value outside the
    two tags is also examined as a string. *)
Definition validar_accion (v : Campo) : list string + Campo :=
  match v with
  | indefinido => inl ["any.required"]%string
  | nulo => inl ["any.only"; "string.base"]%string
  | texto a =>
      if (a =? "aprobar")%string || (a =? "rechazar")%string then inr v
      else if (a =? "")%string then inl ["any.only"; "string.empty"]%string
      else inl ["any.only"]%string
  end.

(** [Joi.string().trim().max(1000)] with the [when] on [accion]: required
    when [accion] is ['rechazar'] (that requirement has the message of the
    schema), optional and open to [''] and [null] otherwise. The value is
    trimmed before it is examined, and the trimmed value is what the
    handler receives. *)
Definition validar_comentario (accion_ : Campo) (v : Campo) : list string + Campo :=
  let es_rechazar :=
    match accion_ with
    | texto a => (a =? "rechazar")%string
    | _ => false
    end in
  match v with
  | indefinido =>
      if es_rechazar then inl ["El comentario es obligatorio al rechazar"]%string
      else inr indefinido
  | nulo => if es_rechazar then inl ["string.base"]%string else inr nulo
  | texto c =>
      let c' := trim c in
      if (c' =? "")%string
      then (if es_rechazar then inl ["string.empty"]%string else inr (texto c'))
      else if (longitud c' <=? 1000)%nat then inr (texto c')
      else inl ["string.max"]%string
  end.

Definition mensajes {A : Type} (r : list string + A) : list string :=
  match r with
  | inl ms => ms
  | inr _ => []
  end.

(** [accionAprobacionSchema.validate(body, { abortEarly: false })]. *)
Definition accionAprobacionSchema (body : CuerpoAprobacion)
  : list string + CuerpoAprobacion :=
  let ra := validar_accion (accion body) in
  let rc := validar_comentario (accion body) (comentario body) in
  match ra, rc with
  | inr a, inr c => inr {| accion := a; comentario := c |}
  | _, _ => inl (mensajes ra ++ mensajes rc)%list
  end.

(** [validate(schema)]: either the error goes to [next] and the handler is
    not run, or the handler runs on the converted body. *)
Definition validate {A B : Type} (schema : A -> list string + A)
           (handler : A -> Async B) (body : A) : Async B :=
  match schema body with
  | inl details => throw (ValidationError (String.concat "; "%string details))
  | inr value => handler value
  end.

End Schema.

Import Schema.

(* ================================================================== *)
(** * financiero.repository.js *)
(* ================================================================== *)

Module Repo.

(** One element of [datos.items]; the supplier and budget code are not
    written by the module. *)
Record DatosItem : Type := {
  descripcion     : string;
  cantidad        : Q;
  precio_unitario : Q
}.

(** The body of a creation request. Its title and its date are values
    the columns take (VARCHAR(200), DATE). *)
Record DatosSolicitud : Type := {
  titulo          : string;
  justificacion   : string;
  proyecto_id     : option Z;
  area_id         : Z;
  items           : list DatosItem;
  urgente         : bool;
  fecha_requerida : option string
}.

Definition con_solicitudes (b : BD) (l : list Solicitud) : BD :=
  {| solicitudes_compra := l;
     solicitud_compra_items := solicitud_compra_items b;
     aprobaciones_compra := aprobaciones_compra b |}.

Definition con_items (b : BD) (l : list Item) : BD :=
  {| solicitudes_compra := solicitudes_compra b;
     solicitud_compra_items := l;
     aprobaciones_compra := aprobaciones_compra b |}.

Definition con_aprobaciones (b : BD) (l : list Aprobacion) : BD :=
  {| solicitudes_compra := solicitudes_compra b;
     solicitud_compra_items := solicitud_compra_items b;
     aprobaciones_compra := l |}.

(** INSERT INTO solicitudes_compra ... 'borrador' ... RETURNING *. A total
    that does not fit NUMERIC(16,2) is refused when the statement is
    planned with the value bound, before the serial key is drawn; otherwise
    the key is drawn, and the row is refused when, as stored, it breaks
    [CHECK (monto_total >= 0)]. *)
Definition crearSolicitud (N : Numeros) (datos : DatosSolicitud) (solicitanteId : Z)
           (montoTotal : Q) : Async Solicitud :=
  query (fun w =>
    let w1 := {| bd := bd w; siguiente_id := (siguiente_id w + 1)%Z;
                 fallos := fallos w |} in
    match numeric_16_2 N montoTotal with
    | None => (inl (ErrorBD "solicitudes_compra: numeric field overflow"), w)
    | Some monto =>
        let fila :=
          {| sc_id := siguiente_id w;
             sc_titulo := titulo datos;
             sc_justificacion := justificacion datos;
             sc_proyecto_id := proyecto_id datos;
             sc_area_id := area_id datos;
             sc_estado := BORRADOR;
             sc_urgente := urgente datos;
             sc_monto_total := monto;
             sc_fecha_requerida := fecha_requerida datos;
             sc_solicitante_id := solicitanteId;
             sc_updated_by := None;
             sc_deleted_at := None |} in
        if mayor_igual monto 0
        then (inr fila,
              con_bd w1 (con_solicitudes (bd w) (solicitudes_compra (bd w) ++ [fila])))
        else (inl (ErrorBD "solicitudes_compra: CHECK (monto_total >= 0)"), w1)
    end).

(** INSERT INTO solicitud_compra_items (solicitud_id, descripcion, cantidad,
    precio_unitario, subtotal) VALUES ... RETURNING *. The statement gives a
    value for [subtotal], which the table declares GENERATED ALWAYS ...
    STORED: the data base refuses it for every row (428C9), and with no
    item the VALUES list is empty and the statement is not SQL (42601). No
    row is written. *)
Definition crearItemsSolicitud (solicitudId : Z) (its : list DatosItem)
  : Async (list Item) :=
  query (fun w =>
    match its with
    | [] => (inl (ErrorBD "solicitud_compra_items: VALUES sin filas"), w)
    | _ :: _ =>
        (inl (ErrorBD "solicitud_compra_items: subtotal es una columna generada"), w)
    end).

Definition visible (id_ : Z) (s : Solicitud) : bool :=
  (sc_id s =? id_)%Z && (match sc_deleted_at s with None => true | Some _ => false end).

(** An element of the [items] aggregate: the columns of an item, or, for a
    request without items, the one element the LEFT JOIN gives, whose
    fields are all null. *)
Inductive ElementoItems : Type :=
| item_de (r : Item)
| item_nulo.

Definition agregado (l : list Item) : list ElementoItems :=
  match l with
  | [] => [item_nulo]
  | _ :: _ => map item_de l
  end.

(** What [obtenerSolicitudCompleta] returns: the row and its [items], in
    key order (the names joined from other tables are left out). *)
Record SolicitudCompleta : Type := {
  fila     : Solicitud;
  sc_items : list ElementoItems
}.

(** SELECT ... WHERE sc.id = $1 AND sc.deleted_at IS NULL, through the
    pool; [rows[0] || null]. The user and the area the row refers to exist
    (foreign keys), so the inner joins drop nothing. [$1] is an INTEGER
    parameter: a key beyond the range is refused by the data base (22003);
    the keys of the table are INTEGER values, so such a key is the key of
    no row. *)
Definition obtenerSolicitudCompleta (id_ : Z) : Async (option SolicitudCompleta) :=
  query (fun w =>
    match find (visible id_) (solicitudes_compra (bd w)) with
    | Some s =>
        (inr (Some {| fila := s;
                      sc_items :=
                        agregado (filter (fun r => (sci_solicitud_id r =? sc_id s)%Z)
                                         (solicitud_compra_items (bd w))) |}), w)
    | None =>
        if es_integer id_ then (inr None, w)
        else (inl (ErrorBD "value out of range for type integer"), w)
    end).

Definition poner_estado (estado_ : Estado) (usuarioId : Z) (s : Solicitud) : Solicitud :=
  {| sc_id := sc_id s;
     sc_titulo := sc_titulo s;
     sc_justificacion := sc_justificacion s;
     sc_proyecto_id := sc_proyecto_id s;
     sc_area_id := sc_area_id s;
     sc_estado := estado_;
     sc_urgente := sc_urgente s;
     sc_monto_total := sc_monto_total s;
     sc_fecha_requerida := sc_fecha_requerida s;
     sc_solicitante_id := sc_solicitante_id s;
     sc_updated_by := Some usuarioId;
     sc_deleted_at := sc_deleted_at s |}.

Definition actualizar (id_ : Z) (estado_ : Estado) (usuarioId : Z)
           (l : list Solicitud) : list Solicitud :=
  map (fun s => if (sc_id s =? id_)%Z then poner_estado estado_ usuarioId s else s) l.

(** UPDATE solicitudes_compra SET estado = $1, updated_by = $2 WHERE
    id = $3 RETURNING *; [rows[0]]. *)
Definition actualizarEstadoSolicitud (id_ : Z) (estado_ : Estado) (usuarioId : Z)
  : Async (option Solicitud) :=
  query (fun w =>
    let tabla := actualizar id_ estado_ usuarioId (solicitudes_compra (bd w)) in
    (inr (find (fun s => (sc_id s =? id_)%Z) tabla),
     con_bd w (con_solicitudes (bd w) tabla))).

(** The parameters of [registrarAprobacion]; [nivel] is [None] when the
    caller passes [undefined]. *)
Record DatosAprobacion : Type := {
  da_solicitudId      : Z;
  da_nivel            : option Z;
  da_accion           : Campo;
  da_comentario       : Campo;
  da_usuarioId        : Z;
  da_estadoResultante : Estado
}.

(** A parameter bound to a nullable text column. *)
Definition parametro (c : Campo) : option string :=
  match c with
  | texto s => Some s
  | _ => None
  end.

Definition accion_admitida (a : string) : bool :=
  ((a =? "envio") || (a =? "aprobar") || (a =? "rechazar"))%string.

(** INSERT INTO aprobaciones_compra. The row is refused when
    [nivel_aprobacion] or [accion] is NULL, or when [accion] breaks
    [CHECK (accion IN ('envio','aprobar','rechazar'))]. *)
Definition registrarAprobacion (d : DatosAprobacion) : Async unit :=
  query (fun w =>
    match da_nivel d, parametro (da_accion d) with
    | Some nivel, Some a =>
        if accion_admitida a
        then (inr tt,
              con_bd w (con_aprobaciones (bd w)
                (aprobaciones_compra (bd w) ++
                 [ {| ac_solicitud_id := da_solicitudId d;
                      ac_nivel_aprobacion := nivel;
                      ac_accion := a;
                      ac_comentario := parametro (da_comentario d);
                      ac_aprobador_id := da_usuarioId d;
                      ac_estado_resultante := da_estadoResultante d |} ])))
        else (inl (ErrorBD "aprobaciones_compra: CHECK (accion)"), w)
    | _, _ => (inl (ErrorBD "aprobaciones_compra: NOT NULL"), w)
    end).

End Repo.

(* ================================================================== *)
(** * financiero.service.js *)
(* ================================================================== *)

Module Service.

Local Open Scope async_scope.

(** What [crearSolicitud] returns: [{ ...solicitud, items }]. *)
Record SolicitudCreada : Type := {
  solicitud     : Solicitud;
  items_creados : list Item
}.

(** What [procesarAprobacion] returns. *)
Record Transicion : Type := {
  solicitudId    : Z;
  estadoAnterior : Estado;
  estadoNuevo    : Estado
}.

(** The argument of [procesarAprobacion]. *)
Record Decision : Type := {
  de_solicitudId : Z;
  de_accion      : Campo;
  de_comentario  : Campo;
  de_usuarioId   : Z;
  de_rol         : string
}.

(** [datos.items.reduce((acc, it) => acc + it.cantidad * it.precio_unitario, 0)],
    with the sum and the product of the engine. *)
Definition montoTotal (N : Numeros) (its : list Repo.DatosItem) : Q :=
  fold_left (fun acc it => mas N acc (por N (Repo.cantidad it) (Repo.precio_unitario it)))
            its 0%Q.

Definition estadosAprobables : list Estado :=
  [PENDIENTE_JEFE; PENDIENTE_GERENCIA; PENDIENTE_TESORERIA].

Definition nivelMap (e : Estado) : option Z :=
  match e with
  | PENDIENTE_JEFE      => Some 1%Z
  | PENDIENTE_GERENCIA  => Some 2%Z
  | PENDIENTE_TESORERIA => Some 3%Z
  | _ => None
  end.

(** [accion === 'rechazar'] *)
Definition es_rechazar (a : Campo) : bool :=
  match a with
  | texto s => (s =? "rechazar")%string
  | _ => false
  end.

Definition crearSolicitud (N : Numeros) (datos : Repo.DatosSolicitud)
           (solicitanteId : Z) : Async SolicitudCreada :=
  let montoTotal := montoTotal N (Repo.items datos) in
  withTransaction (
    solicitud <- Repo.crearSolicitud N datos solicitanteId montoTotal ;;
    items <- Repo.crearItemsSolicitud (sc_id solicitud) (Repo.items datos) ;;
    ret {| solicitud := solicitud; items_creados := items |}).

Definition enviarSolicitud (solicitudId : Z) (usuarioId : Z) : Async (option Solicitud) :=
  leida <- Repo.obtenerSolicitudCompleta solicitudId ;;
  match leida with
  | None => throw (NotFoundError "Solicitud de compra")
  | Some c =>
      let solicitud := Repo.fila c in
      if negb (sc_solicitante_id solicitud =? usuarioId)%Z
      then throw (ForbiddenError "Solo el solicitante puede enviar esta solicitud")
      else if negb (Estado_eqb (sc_estado solicitud) BORRADOR)
      then throw (ValidationError "Solo se pueden enviar solicitudes en estado borrador")
      else
        withTransaction (
          updated <- Repo.actualizarEstadoSolicitud solicitudId PENDIENTE_JEFE usuarioId ;;
          Repo.registrarAprobacion
            {| Repo.da_solicitudId := solicitudId;
               Repo.da_nivel := Some 0%Z;
               Repo.da_accion := texto "envio";
               Repo.da_comentario := texto "Solicitud enviada para aprobación";
               Repo.da_usuarioId := usuarioId;
               Repo.da_estadoResultante := PENDIENTE_JEFE |} ;;;
          ret updated)
  end.

Section Aprobacion.

Variable UMBRALES_APROBACION : Umbrales.

(** The first part of [procesarAprobacion]: the request is read through
    the pool, outside any transaction, and the stage and the role are
    checked. *)
Definition procesarAprobacion_lectura (d : Decision) : Async Solicitud :=
  leida <- Repo.obtenerSolicitudCompleta (de_solicitudId d) ;;
  match leida with
  | None => throw (NotFoundError "Solicitud de compra")
  | Some c =>
      let solicitud := Repo.fila c in
      let estadoActual := sc_estado solicitud in
      if negb (existsb (Estado_eqb estadoActual) estadosAprobables)
      then throw (ValidationError
                    ("No se puede procesar una solicitud en estado: "
                       ++ ESTADOS_COMPRA estadoActual))
      else if negb (puedeAprobar (de_rol d) estadoActual)
      then throw (ForbiddenError
                    ("El rol '" ++ de_rol d
                       ++ "' no puede aprobar en el nivel actual: "
                       ++ ESTADOS_COMPRA estadoActual))
      else ret solicitud
  end.

(** The second part: the transaction, on the request as it was read. *)
Definition procesarAprobacion_transaccion (d : Decision) (solicitud : Solicitud)
  : Async Transicion :=
  let estadoActual := sc_estado solicitud in
  withTransaction (
    estadoResultante <-
      (if es_rechazar (de_accion d) then ret RECHAZADA
       else
         match siguienteEstado UMBRALES_APROBACION estadoActual
                               (sc_monto_total solicitud) with
         | Some e => ret e
         | None => throw (ValidationError "No hay siguiente estado en el flujo")
         end) ;;
    Repo.actualizarEstadoSolicitud (de_solicitudId d) estadoResultante (de_usuarioId d) ;;;
    Repo.registrarAprobacion
      {| Repo.da_solicitudId := de_solicitudId d;
         Repo.da_nivel := nivelMap estadoActual;
         Repo.da_accion := de_accion d;
         Repo.da_comentario := de_comentario d;
         Repo.da_usuarioId := de_usuarioId d;
         Repo.da_estadoResultante := estadoResultante |} ;;;
    ret {| solicitudId := de_solicitudId d;
           estadoAnterior := estadoActual;
           estadoNuevo := estadoResultante |}).

Definition procesarAprobacion (d : Decision) : Async Transicion :=
  solicitud <- procesarAprobacion_lectura d ;;
  procesarAprobacion_transaccion d solicitud.

End Aprobacion.

End Service.

(* ================================================================== *)
(** * financiero.controller.js and financiero.routes.js *)
(* ================================================================== *)

Module Routes.

(** [req.user], as left by the authentication middleware. *)
Record Usuario : Type := {
  sub : Z;
  rol : string
}.

Section Rutas.

Variable UMBRALES_APROBACION : Umbrales.

(** [ctrl.aprobar] *)
Definition aprobar (id_ : Z) (user : Usuario) (body : CuerpoAprobacion)
  : Async Service.Transicion :=
  Service.procesarAprobacion UMBRALES_APROBACION
    {| Service.de_solicitudId := id_;
       Service.de_accion := accion body;
       Service.de_comentario := comentario body;
       Service.de_usuarioId := sub user;
       Service.de_rol := rol user |}.

(** PATCH /:id/aprobacion: [validate(accionAprobacionSchema)], then
    [ctrl.aprobar]. *)
Definition patch_aprobacion (id_ : Z) (user : Usuario) (body : CuerpoAprobacion)
  : Async Service.Transicion :=
  validate accionAprobacionSchema (aprobar id_ user) body.

End Rutas.

End Routes.

(* ================================================================== *)
(** * Two calls in flight *)
(* ================================================================== *)

Module Concurrencia.

(** Two calls of [procesarAprobacion] served at the same time. A call gives
    way at each [await]; its read goes through the pool on its own, before
    [withTransaction] is entered, and the UPDATE names the row by [id] alone.
    The two schedules below are among those the event loop and the data base
    allow: the transactions themselves run one after the other, as they do
    when the second UPDATE waits for the first COMMIT. *)

Section Planes.

Variable UMBRALES_APROBACION : Umbrales.

(** The rest of a call whose first part has returned [leida]. *)
Definition continuar(d : Service.Decision) (leida : Excepcion + Solicitud)
  : Async Service.Transicion :=
  match leida with
  | inl e => throw e
  | inr s => Service.procesarAprobacion_transaccion UMBRALES_APROBACION d s
  end.

(** Both calls have read the request before either transaction starts:
    each [await] of the first part has returned, then the transaction of
    the first call runs, then that of the second. *)
Definition lecturas_antes (d1 d2 : Service.Decision) (w : Mundo)
  : (Excepcion + Service.Transicion) * (Excepcion + Service.Transicion) * Mundo :=
  let '(l1, w1) := Service.procesarAprobacion_lectura d1 w in
  let '(l2, w2) := Service.procesarAprobacion_lectura d2 w1 in
  let '(r1, w3) := continuar d1 l1 w2 in
  let '(r2, w4) := continuar d2 l2 w3 in
  (r1, r2, w4).

(** The second call starts after the first has finished. *)
Definition una_tras_otra (d1 d2 : Service.Decision) (w : Mundo)
  : (Excepcion + Service.Transicion) * (Excepcion + Service.Transicion) * Mundo :=
  let '(r1, w1) := Service.procesarAprobacion UMBRALES_APROBACION d1 w in
  let '(r2, w2) := Service.procesarAprobacion UMBRALES_APROBACION d2 w1 in
  (r1, r2, w2).

End Planes.

End Concurrencia.

(* ================================================================== *)
(** * Reads of financiero.repository.js and financiero.service.js *)
(* ================================================================== *)

Module Lectura.

Local Open Scope async_scope.

(** [Promise.all([a, b])]: both are started, in this order, before either
    is awaited; when one fails the whole fails (with the error of the first
    of the two, where both fail). *)
Definition Promise_all2 {A B : Type} (a : Async A) (b : Async B) : Async (A * B) :=
  fun w =>
    let '(ra, w1) := a w in
    let '(rb, w2) := b w1 in
    match ra, rb with
    | inr x, inr y => (inr (x, y), w2)
    | inl e, _ => (inl e, w2)
    | inr _, inl e => (inl e, w2)
    end.

(** [Promise.all(l.map(f))] *)
Fixpoint Promise_all {A : Type} (l : list (Async A)) : Async (list A) :=
  match l with
  | [] => ret []
  | a :: l' =>
      fun w =>
        match Promise_all2 a (Promise_all l') w with
        | (inr (x, xs), w') => (inr (x :: xs), w')
        | (inl e, w') => (inl e, w')
        end
  end.

(** SELECT ac.*, u.nombre ... WHERE ac.solicitud_id = $1 ORDER BY
    ac.created_at ASC. The ledger is kept in order of creation, and the
    approver of every event exists (foreign key). [$1] is an INTEGER
    parameter. *)
Definition obtenerHistorialAprobaciones (solicitudId : Z) : Async (list Aprobacion) :=
  query (fun w =>
    if es_integer solicitudId
    then (inr (filter (fun ev => (ac_solicitud_id ev =? solicitudId)%Z)
                      (aprobaciones_compra (bd w))), w)
    else (inl (ErrorBD "value out of range for type integer"), w)).

(** What [obtenerSolicitudConHistorial] returns:
    [{ ...solicitud, historial_aprobaciones }]. *)
Record SolicitudConHistorial : Type := {
  completa               : Repo.SolicitudCompleta;
  historial_aprobaciones : list Aprobacion
}.

Definition obtenerSolicitudConHistorial (id_ : Z) : Async SolicitudConHistorial :=
  par <- Promise_all2 (Repo.obtenerSolicitudCompleta id_)
                      (obtenerHistorialAprobaciones id_) ;;
  match fst par with
  | None => throw (NotFoundError "Solicitud de compra")
  | Some solicitud =>
      ret {| completa := solicitud; historial_aprobaciones := snd par |}
  end.

(** The [urgente] filter of [listarSolicitudes]: absent, null, or a
    boolean. *)
Inductive FiltroUrgente : Type :=
| urgente_indefinido
| urgente_nulo
| urgente_es (b : bool).

(** The argument of [listarSolicitudes]. A date filter is given by its time
    value; [None] is an absent one. *)
Record Filtros : Type := {
  f_estado     : Campo;
  f_areaId     : option Z;
  f_urgente    : FiltroUrgente;
  f_fechaDesde : option Z;
  f_fechaHasta : option Z;
  f_pagina     : Z;
  f_limite     : Z
}.

(** What [listarSolicitudes] returns; [paginas] is [None] when
    [Math.ceil(count / limite)] is not finite, that is when [limite] is 0. *)
Record Pagina : Type := {
  data    : list Solicitud;
  total   : Z;
  pagina  : Z;
  paginas : option Z
}.

(** What [obtenerFlujoPendiente] returns. *)
Record Pendientes : Type := {
  pe_data  : list Solicitud;
  pe_total : Z
}.

(** [if (estado)]: a string is truthy when it is not empty. *)
Definition condicion_estado (f : Campo) (s : Solicitud) : bool :=
  match f with
  | texto e => if (e =? "")%string then true
               else (ESTADOS_COMPRA (sc_estado s) =? e)%string
  | _ => true
  end.

(** [if (areaId)]: a number is truthy when it is not 0. *)
Definition condicion_area (f : option Z) (s : Solicitud) : bool :=
  match f with
  | Some a => if (a =? 0)%Z then true else (sc_area_id s =? a)%Z
  | None => true
  end.

(** [if (urgente !== undefined)]; a comparison with NULL holds for no row. *)
Definition condicion_urgente (f : FiltroUrgente) (s : Solicitud) : bool :=
  match f with
  | urgente_indefinido => true
  | urgente_nulo => false
  | urgente_es b => Bool.eqb (sc_urgente s) b
  end.

Section Listados.

(** The column [created_at] of [solicitudes_compra], which the rows of the
    model leave out, as a function of the row. *)
Variable created_at : Solicitud -> Z.

Definition condicion_desde (f : option Z) (s : Solicitud) : bool :=
  match f with
  | Some t => (t <=? created_at s)%Z
  | None => true
  end.

Definition condicion_hasta (f : option Z) (s : Solicitud) : bool :=
  match f with
  | Some t => (created_at s <=? t)%Z
  | None => true
  end.

(** The WHERE clause: [sc.deleted_at IS NULL] and the conditions pushed. *)
Definition where_ (f : Filtros) (s : Solicitud) : bool :=
  (match sc_deleted_at s with None => true | Some _ => false end)
  && condicion_estado (f_estado f) s
  && condicion_area (f_areaId f) s
  && condicion_urgente (f_urgente f) s
  && condicion_desde (f_fechaDesde f) s
  && condicion_hasta (f_fechaHasta f) s.

(** [b.urgente - a.urgente || new Date(b.created_at) - new Date(a.created_at)]:
    negative when [a] goes first. It is also the order of
    ORDER BY sc.urgente DESC, sc.created_at DESC. *)
Definition comparar (a b : Solicitud) : Z :=
  let du := (Z.b2z (sc_urgente b) - Z.b2z (sc_urgente a))%Z in
  if (du =? 0)%Z then (created_at b - created_at a)%Z else du.

(** A stable sort by [comparar]: rows that compare equal keep their order
    (for ORDER BY, the order of the table). *)
Fixpoint insertar (x : Solicitud) (l : list Solicitud) : list Solicitud :=
  match l with
  | [] => [x]
  | y :: l' => if (comparar x y <=? 0)%Z then x :: l else y :: insertar x l'
  end.

Fixpoint ordenar (l : list Solicitud) : list Solicitud :=
  match l with
  | [] => []
  | x :: l' => insertar x (ordenar l')
  end.

(** The parameter pushed for [areaId], when one is pushed, is an INTEGER
    parameter. *)
Definition area_admitida (f : option Z) : bool :=
  match f with
  | Some a => if (a =? 0)%Z then true else es_integer a
  | None => true
  end.

(** The two statements of [listarSolicitudes], started together: the page
    and the count. Both are refused when the area is beyond INTEGER; the
    page is refused when LIMIT or OFFSET, which are BIGINT parameters, is
    beyond BIGINT or negative. [offset] is the product the engine computes,
    which is [(pagina - 1) * limite] where that is at most
    [Number.MAX_SAFE_INTEGER] in size. *)
Definition consulta_pagina (f : Filtros) : Async (list Solicitud) :=
  query (fun w =>
    let offset := ((f_pagina f - 1) * f_limite f)%Z in
    if negb (area_admitida (f_areaId f))
    then (inl (ErrorBD "value out of range for type integer"), w)
    else if negb (es_bigint (f_limite f)) || negb (es_bigint offset)
    then (inl (ErrorBD "value out of range for type bigint"), w)
    else if (f_limite f <? 0)%Z
    then (inl (ErrorBD "LIMIT must not be negative"), w)
    else if (offset <? 0)%Z
    then (inl (ErrorBD "OFFSET must not be negative"), w)
    else (inr (firstn (Z.to_nat (f_limite f))
                 (skipn (Z.to_nat offset)
                    (ordenar (filter (where_ f) (solicitudes_compra (bd w)))))), w)).

Definition consulta_cuenta (f : Filtros) : Async Z :=
  query (fun w =>
    if negb (area_admitida (f_areaId f))
    then (inl (ErrorBD "value out of range for type integer"), w)
    else (inr (Z.of_nat (List.length (filter (where_ f) (solicitudes_compra (bd w))))),
          w)).

(** [Math.ceil(count / limite)] for a count that is not negative. *)
Definition techo (count limite : Z) : option Z :=
  if (limite =? 0)%Z then None else Some (- ((- count) / limite))%Z.

Definition listarSolicitudes (f : Filtros) : Async Pagina :=
  par <- Promise_all2 (consulta_pagina f) (consulta_cuenta f) ;;
  ret {| data := fst par;
         total := snd par;
         pagina := f_pagina f;
         paginas := techo (snd par) (f_limite f) |}.

(** [e.startsWith(p)] *)
Fixpoint startsWith (e p : string) : bool :=
  match p, e with
  | EmptyString, _ => true
  | String c p', String d e' => Ascii.eqb c d && startsWith e' p'
  | String _ _, EmptyString => false
  end.

(** [Object.values(ESTADOS_COMPRA)], in the order of the keys. *)
Definition valores_ESTADOS_COMPRA : list Estado :=
  [BORRADOR; PENDIENTE_JEFE; PENDIENTE_GERENCIA; PENDIENTE_TESORERIA;
   APROBADA; RECHAZADA; ANULADA; EN_PROCESO; COMPLETADA].

(** What reading a property of an object literal gives: a value of its own,
    a function inherited from [Object.prototype] (of which only [length]
    matters here), the prototype itself for [__proto__], or [undefined]. *)
Inductive Propiedad : Type :=
| propia (estados : list Estado)
| funcion_heredada (longitud : Z)
| objeto_heredado
| ausente.

(** [estadosPorRol[rol]] *)
Definition estadosPorRol (rol_ : string) : Propiedad :=
  if (rol_ =? "jefe_area")%string then propia [PENDIENTE_JEFE]
  else if (rol_ =? "gerente")%string then propia [PENDIENTE_JEFE; PENDIENTE_GERENCIA]
  else if (rol_ =? "tesorero")%string then propia [PENDIENTE_TESORERIA]
  else if (rol_ =? "admin")%string
  then propia (filter (fun e => startsWith (ESTADOS_COMPRA e) "pendiente")
                      valores_ESTADOS_COMPRA)
  else if ((rol_ =? "toString") || (rol_ =? "valueOf")
           || (rol_ =? "toLocaleString"))%string
  then funcion_heredada 0
  else if ((rol_ =? "constructor") || (rol_ =? "hasOwnProperty")
           || (rol_ =? "isPrototypeOf") || (rol_ =? "propertyIsEnumerable")
           || (rol_ =? "__lookupGetter__") || (rol_ =? "__lookupSetter__"))%string
  then funcion_heredada 1
  else if ((rol_ =? "__defineGetter__") || (rol_ =? "__defineSetter__"))%string
  then funcion_heredada 2
  else if (rol_ =? "__proto__")%string then objeto_heredado
  else ausente.

Definition filtro_de_estado (e : Estado) : Filtros :=
  {| f_estado := texto (ESTADOS_COMPRA e);
     f_areaId := None;
     f_urgente := urgente_indefinido;
     f_fechaDesde := None;
     f_fechaHasta := None;
     f_pagina := 1;
     f_limite := 100 |}.

(** The part of [obtenerFlujoPendiente] that follows the test on
    [estados.length], for an array of stages. *)
Definition listar_pendientes (estados : list Estado) : Async Pendientes :=
  resultados <- Promise_all (map (fun e => listarSolicitudes (filtro_de_estado e)) estados) ;;
  let data_ := ordenar (flat_map data resultados) in
  ret {| pe_data := data_; pe_total := Z.of_nat (List.length data_) |}.

(** [obtenerFlujoPendiente]. A [TypeError] is not one of the errors of
    [Excepcion]: the call that ends in one returns [inl] of its message. An
    inherited function of length 0 passes for an empty array; any other
    inherited value has no [map]. *)
Definition obtenerFlujoPendiente (rol_ : string) : Async (string + Pendientes) :=
  match estadosPorRol rol_ with
  | ausente => ret (inr {| pe_data := []; pe_total := 0 |})
  | propia [] => ret (inr {| pe_data := []; pe_total := 0 |})
  | propia estados => r <- listar_pendientes estados ;; ret (inr r)
  | funcion_heredada n =>
      if (n =? 0)%Z then ret (inr {| pe_data := []; pe_total := 0 |})
      else ret (inl "estados.map is not a function"%string)
  | objeto_heredado => ret (inl "estados.map is not a function"%string)
  end.

End Listados.

End Lectura.

(* ================================================================== *)
(** * operaciones.service.js *)
(* ================================================================== *)

Module Operaciones.

(** The query of GET /matriz. *)
Record ConsultaMatriz : Type := {
  semanaInicio : Campo;
  semanaFin    : Campo;
  areaId       : Campo
}.

(** [Math.round] on a rational: halves go up. *)
Definition Math_round (x : Q) : Z := Qfloor (x + (1 # 2))%Q.

Section Matriz.

(** [new Date(v)] as its time value in milliseconds, [None] for an invalid
    date. *)
Variable Date_ : Campo -> option Z.

(** What the repository returns for the matrix, and the repository call. *)
Variable Matriz : Type.
Variable obtenerMatrizAsignacion : ConsultaMatriz -> Async Matriz.

Definition getMatriz (q : ConsultaMatriz) : Async Matriz :=
  match Date_ (semanaInicio q), Date_ (semanaFin q) with
  | Some inicio, Some fin =>
      let diffSemanas :=
        Math_round (inject_Z (fin - inicio) / inject_Z (7 * 24 * 60 * 60 * 1000))%Q in
      if (26 <? diffSemanas)%Z
      then throw (ValidationError "El rango máximo para la matriz es de 26 semanas")
      else obtenerMatrizAsignacion q
  | _, _ => throw (ValidationError "Fechas inválidas para la matriz")
  end.

End Matriz.

End Operaciones.

(* ================================================================== *)
(** * Vocabulary of the statements *)
(* ================================================================== *)

Import Service Routes Concurrencia.

(** The tables once request [id_] has been moved to stage [nuevo] by
    [usuarioId] and [ev] has been appended to the ledger. *)
Definition tras_transicion (b : BD) (id_ : Z) (nuevo : Estado) (usuarioId : Z)
           (ev : Aprobacion) : BD :=
  {| solicitudes_compra := Repo.actualizar id_ nuevo usuarioId (solicitudes_compra b);
     solicitud_compra_items := solicitud_compra_items b;
     aprobaciones_compra := aprobaciones_compra b ++ [ev] |}.

(** The ledger row [enviarSolicitud] writes. *)
Definition evento_envio (id_ usuarioId : Z) : Aprobacion :=
  {| ac_solicitud_id := id_;
     ac_nivel_aprobacion := 0;
     ac_accion := "envio";
     ac_comentario := Some "Solicitud enviada para aprobación"%string;
     ac_aprobador_id := usuarioId;
     ac_estado_resultante := PENDIENTE_JEFE |}.

(** The ledger row [procesarAprobacion] writes for decision [d]. *)
Definition evento (d : Decision) (nivel : Z) (a : string) (resultante : Estado)
  : Aprobacion :=
  {| ac_solicitud_id := de_solicitudId d;
     ac_nivel_aprobacion := nivel;
     ac_accion := a;
     ac_comentario := Repo.parametro (de_comentario d);
     ac_aprobador_id := de_usuarioId d;
     ac_estado_resultante := resultante |}.

(** The stage the transaction of [procesarAprobacion] computes, [None] when
    it throws for want of a next stage. *)
Definition estado_resultante (U : Umbrales) (d : Decision) (s : Solicitud)
  : option Estado :=
  if es_rechazar (de_accion d) then Some RECHAZADA
  else siguienteEstado U (sc_estado s) (sc_monto_total s).

(** The stage stored for the live request [id_], if there is one. *)
Definition estado_almacenado (id_ : Z) (b : BD) : option Estado :=
  option_map sc_estado (find (Repo.visible id_) (solicitudes_compra b)).

Module Ejemplos.

(** Request 1, of user 7, at stage [e] with total [monto]. *)
Definition solicitud_1 (e : Estado) (monto : Q) : Solicitud :=
  {| sc_id := 1;
     sc_titulo := "Equipos de campo";
     sc_justificacion := "Reposicion de equipos";
     sc_proyecto_id := None;
     sc_area_id := 3;
     sc_estado := e;
     sc_urgente := false;
     sc_monto_total := monto;
     sc_fecha_requerida := None;
     sc_solicitante_id := 7;
     sc_updated_by := None;
     sc_deleted_at := None |}.

Definition bd_1 (e : Estado) (monto : Q) : BD :=
  {| solicitudes_compra := [solicitud_1 e monto];
     solicitud_compra_items := [];
     aprobaciones_compra := [] |}.

(** A decision on request 1. *)
Definition decision_1 (a c : Campo) (usuarioId : Z) (rol_ : string) : Decision :=
  {| de_solicitudId := 1;
     de_accion := a;
     de_comentario := c;
     de_usuarioId := usuarioId;
     de_rol := rol_ |}.

Definition datos_2_items : Repo.DatosSolicitud :=
  {| Repo.titulo := "Equipos de campo";
     Repo.justificacion := "Reposicion de equipos";
     Repo.proyecto_id := None;
     Repo.area_id := 3;
     Repo.items :=
       [ {| Repo.descripcion := "Nivel topografico";
            Repo.cantidad := 2;
            Repo.precio_unitario := 1500000 |};
         {| Repo.descripcion := "Cinta metrica";
            Repo.cantidad := 0.5;
            Repo.precio_unitario := 30000 |} ];
     Repo.urgente := false;
     Repo.fecha_requerida := None |}.

(** An arithmetic for the examples: exact, as the engine is on the numbers
    of the examples, and a column that takes them as they are. *)
Definition numeros_exactos : Numeros :=
  {| mas := Qplus; por := Qmult; numeric_16_2 := fun x => Some x |}.

End Ejemplos.

Import Ejemplos.

(* ================================================================== *)
(** * Histories of calls and what they keep *)
(* ================================================================== *)

Import Lectura Operaciones.

(** A call of one of the three operations of the service that write. *)
Inductive Llamada : Type :=
| CrearSolicitud (datos : Repo.DatosSolicitud) (solicitanteId : Z)
| EnviarSolicitud (solicitudId usuarioId : Z)
| ProcesarAprobacion (d : Decision).

(** The world a call leaves, whether it returns or throws. *)
Definition atender (U : Umbrales) (N : Numeros) (c : Llamada) (w : Mundo) : Mundo :=
  match c with
  | CrearSolicitud datos u => snd (crearSolicitud N datos u w)
  | EnviarSolicitud i u => snd (enviarSolicitud i u w)
  | ProcesarAprobacion d => snd (procesarAprobacion U d w)
  end.

(** The world after a list of calls, served one after the other. *)
Definition atender_todas (U : Umbrales) (N : Numeros) (cs : list Llamada) (w : Mundo)
  : Mundo :=
  fold_left (fun w' c => atender U N c w') cs w.

(** The data base before the first request, with any plan of faults. *)
Definition mundo_inicial (plan : list bool) : Mundo :=
  {| bd := {| solicitudes_compra := [];
              solicitud_compra_items := [];
              aprobaciones_compra := [] |};
     siguiente_id := 1;
     fallos := plan |}.

(** Keys and references: the keys of the requests are distinct and behind
    the sequence, and every item and every event refers to a stored
    request. *)
Definition claves_integras (w : Mundo) : Prop :=
  NoDup (map sc_id (solicitudes_compra (bd w))) /\
  (forall s, In s (solicitudes_compra (bd w)) -> (sc_id s < siguiente_id w)%Z) /\
  (forall r, In r (solicitud_compra_items (bd w)) ->
     In (sci_solicitud_id r) (map sc_id (solicitudes_compra (bd w)))) /\
  (forall ev, In ev (aprobaciones_compra (bd w)) ->
     In (ac_solicitud_id ev) (map sc_id (solicitudes_compra (bd w)))).

(** The last event of the ledger about request [i]. *)
Definition ultimo_evento (i : Z) (libro : list Aprobacion) : option Aprobacion :=
  find (fun ev => (ac_solicitud_id ev =? i)%Z) (rev libro).

(** The ledger tells the stage: a request without event is a draft, and the
    stage of any other is the resulting stage of its last event. *)
Definition libro_al_dia (b : BD) : Prop :=
  forall s, In s (solicitudes_compra b) ->
    sc_estado s = match ultimo_evento (sc_id s) (aprobaciones_compra b) with
                  | Some ev => ac_estado_resultante ev
                  | None => BORRADOR
                  end.

(** The items of request [i]. *)
Definition items_de (i : Z) (b : BD) : list Item :=
  filter (fun r => (sci_solicitud_id r =? i)%Z) (solicitud_compra_items b).

(** The stages from which no operation of the service leads anywhere. *)
Definition estado_final (e : Estado) : bool :=
  match e with
  | APROBADA | RECHAZADA | ANULADA | EN_PROCESO | COMPLETADA => true
  | _ => false
  end.

(** The errors [procesarAprobacion] can end in. *)
Definition error_de_aprobacion (e : Excepcion) : bool :=
  match e with
  | NotFoundError r => (r =? "Solicitud de compra")%string
  | ValidationError m =>
      existsb (fun est =>
                 (m =? "No se puede procesar una solicitud en estado: "
                         ++ ESTADOS_COMPRA est)%string)
              [BORRADOR; APROBADA; RECHAZADA; ANULADA; EN_PROCESO; COMPLETADA]
  | ForbiddenError _ => true
  | ErrorBD _ => true
  end.

(** What one call does to the tables: nothing; or one transition, of a
    live request that was at a stage that is not final, with its event. *)
Inductive paso (w w' : Mundo) : Prop :=
| paso_nada :
    bd w' = bd w -> paso w w'
| paso_transicion (i : Z) (e' : Estado) (u : Z) (ev : Aprobacion) (s : Solicitud) :
    find (Repo.visible i) (solicitudes_compra (bd w)) = Some s ->
    estado_final (sc_estado s) = false ->
    ac_solicitud_id ev = i ->
    ac_estado_resultante ev = e' ->
    bd w' = tras_transicion (bd w) i e' u ev ->
    paso w w'.

(** The life of a draft with total [monto] from its submission: submitted
    by [usuarioId], then decided by [d] as many times as its path has
    steps. *)
Definition ciclo (U : Umbrales) (monto : Q) (i usuarioId : Z) (d : Decision)
  : list Llamada :=
  EnviarSolicitud i usuarioId ::
  repeat (ProcesarAprobacion d)
         (List.length (calcularFlujoAprobacion U monto) - 1).

(** The resulting stages the ledger records for request [i], oldest
    first. *)
Definition etapas_registradas (i : Z) (b : BD) : list Estado :=
  map ac_estado_resultante
      (filter (fun ev => (ac_solicitud_id ev =? i)%Z) (aprobaciones_compra b)).

(** A computation that reads only: whatever it returns or throws, the
    tables and the sequence are as before. *)
Definition solo_lee {A : Type} (m : Async A) : Prop :=
  forall w, bd (snd (m w)) = bd w /\ siguiente_id (snd (m w)) = siguiente_id w.

(** [a] is not placed after [b] by the order of the listings. *)
Definition va_antes (created_at : Solicitud -> Z) (a b : Solicitud) : Prop :=
  (comparar created_at a b <= 0)%Z.

(** The complete listing for a filter: the rows of the WHERE clause in the
    order of ORDER BY. *)
Definition listado (created_at : Solicitud -> Z) (f : Filtros) (b : BD)
  : list Solicitud :=
  ordenar created_at (filter (where_ created_at f) (solicitudes_compra b)).

(** No two rows of [l] tie in the order of the listings, so that ORDER BY
    leaves nothing to the data base. *)
Definition sin_empates (created_at : Solicitud -> Z) (l : list Solicitud) : Prop :=
  forall a b, In a l -> In b l -> comparar created_at a b = 0%Z -> a = b.

(** Integers the engine holds exactly. *)
Definition seguro (x : Z) : Prop := (- max_seguro <= x <= max_seguro)%Z.

(** A list [quitar] leaves as it is: it starts with no white space, as far
    as the bytes it has tell. *)
Definition libre (e1 : ascii -> bool) (e2 : ascii -> ascii -> bool)
           (e3 : ascii -> ascii -> ascii -> bool) (l : list ascii) : Prop :=
  match l with
  | [] => True
  | a :: l1 =>
      e1 a = false /\
      match l1 with
      | [] => True
      | b :: l2 =>
          e2 a b = false /\
          match l2 with
          | [] => True
          | c :: _ => e3 a b c = false
          end
      end
  end.

(** U+00A0, the no-break space, and U+2028, the line separator. *)
Definition NBSP : string := String (ascii_of_nat 194) (String (ascii_of_nat 160) "").

Definition LS : string :=
  String (ascii_of_nat 226) (String (ascii_of_nat 128) (String (ascii_of_nat 168) "")).

(** U+00F1, a letter of two bytes, [k] times. *)
Definition enyes (k : nat) : string :=
  String.concat "" (repeat (String (ascii_of_nat 195) (String (ascii_of_nat 177) "")) k).

Definition con_pagina (f : Filtros) (k : Z) : Filtros :=
  {| f_estado := f_estado f;
     f_areaId := f_areaId f;
     f_urgente := f_urgente f;
     f_fechaDesde := f_fechaDesde f;
     f_fechaHasta := f_fechaHasta f;
     f_pagina := k;
     f_limite := f_limite f |}.

(** The rows [listarSolicitudes] returns for page [k] of a filter, none
    when it throws. *)
Definition datos_de_pagina (created_at : Solicitud -> Z) (f : Filtros) (w : Mundo)
           (k : Z) : list Solicitud :=
  match fst (listarSolicitudes created_at (con_pagina f k) w) with
  | inr p => data p
  | inl _ => []
  end.

(** The roles that are keys of [estadosPorRol]. *)
Definition roles_con_pendientes : list string :=
  ["jefe_area"; "gerente"; "tesorero"; "admin"]%string.

(** The names an object literal inherits with a value that has no [map]
    and is not of length 0. *)
Definition nombres_sin_map : list string :=
  ["constructor"; "hasOwnProperty"; "isPrototypeOf"; "propertyIsEnumerable";
   "__lookupGetter__"; "__lookupSetter__"; "__defineGetter__";
   "__defineSetter__"; "__proto__"]%string.

(** A computation that never takes the sequence back. *)
Definition no_retrocede {A : Type} (m : Async A) : Prop :=
  forall w r w', m w = (r, w') -> (siguiente_id w <= siguiente_id w')%Z.

(** One list is the other with some entries left out, in the same order. *)
Inductive sublista {A : Type} : list A -> list A -> Prop :=
| sublista_nil : sublista [] []
| sublista_toma x l1 l2 : sublista l1 l2 -> sublista (x :: l1) (x :: l2)
| sublista_salta x l1 l2 : sublista l1 l2 -> sublista l1 (x :: l2).

Module Ejemplos2.

(** A created_at column for examples: the key of the row. *)
Definition creado_en (s : Solicitud) : Z := sc_id s.

(** Request [i] of user 7, live, at stage [e], urgent or not. *)
Definition solicitud_n (i : Z) (e : Estado) (u : bool) : Solicitud :=
  {| sc_id := i;
     sc_titulo := "Equipos de campo";
     sc_justificacion := "Reposicion de equipos";
     sc_proyecto_id := None;
     sc_area_id := 3;
     sc_estado := e;
     sc_urgente := u;
     sc_monto_total := 1000;
     sc_fecha_requerida := None;
     sc_solicitante_id := 7;
     sc_updated_by := None;
     sc_deleted_at := None |}.

Definition bd_4 : BD :=
  {| solicitudes_compra :=
       [solicitud_n 1 PENDIENTE_JEFE false; solicitud_n 2 PENDIENTE_GERENCIA true;
        solicitud_n 3 PENDIENTE_TESORERIA false; solicitud_n 4 PENDIENTE_JEFE true];
     solicitud_compra_items := [];
     aprobaciones_compra := [] |}.

(** A history for request 1 as a draft: a creation, which is refused, the
    submission of the draft, its approval by the area lead, and two calls
    that are refused. *)
Definition historia_1 : list Llamada :=
  [CrearSolicitud datos_2_items 7;
   EnviarSolicitud 1 7;
   ProcesarAprobacion (decision_1 (texto "aprobar") indefinido 8 "jefe_area");
   ProcesarAprobacion
     (decision_1 (texto "rechazar") (texto "Sin presupuesto") 9 "gerente");
   EnviarSolicitud 1 7].

(** The filter that asks for every live row, [limite] rows a page. *)
Definition filtros_todas (limite : Z) : Filtros :=
  {| f_estado := indefinido;
     f_areaId := None;
     f_urgente := urgente_indefinido;
     f_fechaDesde := None;
     f_fechaHasta := None;
     f_pagina := 1;
     f_limite := limite |}.

(** [new Date] on three day stamps, by their time values; invalid on
    anything else. *)
Definition Date_ejemplo (c : Campo) : option Z :=
  match c with
  | texto s =>
      if (s =? "2024-01-01")%string then Some 1704067200000%Z
      else if (s =? "2024-07-04")%string then Some 1720051200000%Z
      else if (s =? "2024-07-05")%string then Some 1720137600000%Z
      else None
  | _ => None
  end.

(** The world with request 1 as a draft of 1000, and the tables that
    history leaves of it. *)
Definition mundo_1 : Mundo := sin_fallos (bd_1 BORRADOR 1000) 2.

Definition bd_historia_1 : BD :=
  bd (atender_todas UMBRALES_POR_DEFECTO numeros_exactos historia_1 mundo_1).

End Ejemplos2.

Import Ejemplos2.

(* ================================================================== *)
(** * Properties of the stage path *)
(* ================================================================== *)

Lemma mayor_igual_true (x y : Q) : mayor_igual x y = true <-> (y <= x)%Q.
Proof. unfold mayor_igual. apply Qle_bool_iff. Qed.

Lemma mayor_igual_false (x y : Q) : mayor_igual x y = false <-> (x < y)%Q.
Proof.
  unfold mayor_igual. split; intro H.
  - apply Qnot_le_lt. intro Hle. apply Qle_bool_iff in Hle. congruence.
  - destruct (Qle_bool y x) eqn:E; [|reflexivity].
    apply Qle_bool_iff in E. exfalso. exact (Qlt_not_le _ _ H E).
Qed.

(** The four shapes the path can take, by the two comparisons the code
    makes. *)
Lemma calcularFlujoAprobacion_formas (U : Umbrales) (a : Q) :
  calcularFlujoAprobacion U a =
    match mayor_igual a (JEFE_AREA U), mayor_igual a (GERENCIA U) with
    | false, false => [PENDIENTE_JEFE; APROBADA]
    | true,  false => [PENDIENTE_JEFE; PENDIENTE_GERENCIA; APROBADA]
    | false, true  => [PENDIENTE_JEFE; PENDIENTE_TESORERIA; APROBADA]
    | true,  true  => [PENDIENTE_JEFE; PENDIENTE_GERENCIA; PENDIENTE_TESORERIA; APROBADA]
    end.
Proof.
  unfold calcularFlujoAprobacion.
  destruct (mayor_igual a (JEFE_AREA U)), (mayor_igual a (GERENCIA U)); reflexivity.
Qed.

Ltac por_forma U a :=
  rewrite (calcularFlujoAprobacion_formas U a) in *;
  destruct (mayor_igual a (JEFE_AREA U)) eqn:?, (mayor_igual a (GERENCIA U)) eqn:?.

(** C1. For every amount (non-negative or not) and thresholds in order, the
    path is [PENDIENTE_JEFE; APROBADA] below the area threshold, gains
    PENDIENTE_GERENCIA from the area threshold on and PENDIENTE_TESORERIA
    from the executive threshold on; it is never empty and always ends with
    APROBADA, appended last. *)
Theorem calcularFlujoAprobacion_tramos :
  forall (U : Umbrales) (a : Q),
    (JEFE_AREA U <= GERENCIA U)%Q ->
    ((a < JEFE_AREA U)%Q ->
       calcularFlujoAprobacion U a = [PENDIENTE_JEFE; APROBADA]) /\
    ((JEFE_AREA U <= a)%Q -> (a < GERENCIA U)%Q ->
       calcularFlujoAprobacion U a
       = [PENDIENTE_JEFE; PENDIENTE_GERENCIA; APROBADA]) /\
    ((GERENCIA U <= a)%Q ->
       calcularFlujoAprobacion U a
       = [PENDIENTE_JEFE; PENDIENTE_GERENCIA; PENDIENTE_TESORERIA; APROBADA]) /\
    calcularFlujoAprobacion U a <> [] /\
    (exists previas, calcularFlujoAprobacion U a = previas ++ [APROBADA]).
Proof.
  intros U a Hord. repeat split.
  - intro Ha. por_forma U a; try reflexivity;
      repeat match goal with
             | H : mayor_igual _ _ = true |- _ => apply mayor_igual_true in H
             end; lra.
  - intros H1 H2. apply mayor_igual_true in H1. apply mayor_igual_false in H2.
    rewrite calcularFlujoAprobacion_formas, H1, H2. reflexivity.
  - intro H2.
    assert (H1 : (JEFE_AREA U <= a)%Q) by lra.
    apply mayor_igual_true in H1. apply mayor_igual_true in H2.
    rewrite calcularFlujoAprobacion_formas, H1, H2. reflexivity.
  - por_forma U a; discriminate.
  - unfold calcularFlujoAprobacion. eexists. reflexivity.
Qed.

Lemma calcularFlujoAprobacion_tramos_por_defecto :
  (JEFE_AREA UMBRALES_POR_DEFECTO <= GERENCIA UMBRALES_POR_DEFECTO)%Q /\
  calcularFlujoAprobacion UMBRALES_POR_DEFECTO 4000000 = [PENDIENTE_JEFE; APROBADA] /\
  calcularFlujoAprobacion UMBRALES_POR_DEFECTO 5000000
  = [PENDIENTE_JEFE; PENDIENTE_GERENCIA; APROBADA] /\
  calcularFlujoAprobacion UMBRALES_POR_DEFECTO 20000000
  = [PENDIENTE_JEFE; PENDIENTE_GERENCIA; PENDIENTE_TESORERIA; APROBADA].
Proof.
  assert (Hord : (JEFE_AREA UMBRALES_POR_DEFECTO <= GERENCIA UMBRALES_POR_DEFECTO)%Q)
    by (vm_compute; discriminate).
  split; [exact Hord|].
  split; [|split].
  - apply (proj1 (calcularFlujoAprobacion_tramos UMBRALES_POR_DEFECTO 4000000 Hord)).
    vm_compute. reflexivity.
  - apply (proj1 (proj2 (calcularFlujoAprobacion_tramos UMBRALES_POR_DEFECTO 5000000 Hord)));
      vm_compute; [discriminate | reflexivity].
  - apply (proj1 (proj2 (proj2
             (calcularFlujoAprobacion_tramos UMBRALES_POR_DEFECTO 20000000 Hord)))).
    vm_compute. discriminate.
Defined.

(** A stage that is on the path and is not its last entry is followed by
    the next entry of the path. *)
Lemma siguienteEstado_en_el_flujo (U : Umbrales) (a : Q) :
  siguienteEstado U PENDIENTE_JEFE a
  = Some (if mayor_igual a (JEFE_AREA U) then PENDIENTE_GERENCIA
          else if mayor_igual a (GERENCIA U) then PENDIENTE_TESORERIA
          else APROBADA) /\
  (mayor_igual a (JEFE_AREA U) = true ->
   siguienteEstado U PENDIENTE_GERENCIA a
   = Some (if mayor_igual a (GERENCIA U) then PENDIENTE_TESORERIA else APROBADA)) /\
  (mayor_igual a (GERENCIA U) = true ->
   siguienteEstado U PENDIENTE_TESORERIA a = Some APROBADA) /\
  siguienteEstado U APROBADA a = None.
Proof.
  unfold siguienteEstado.
  repeat split; try intros H; por_forma U a; try discriminate; reflexivity.
Qed.

(** C2. What the code answers for a stage that does not occur on the path
    computed for the amount: not null, as a stage without a successor should
    get, but PENDIENTE_JEFE; [indexOf] gives -1 and the entry at index 0 is
    returned. *)
Theorem siguienteEstado_fuera_del_flujo :
  forall (U : Umbrales) (s : Estado) (a : Q),
    ~ In s (calcularFlujoAprobacion U a) ->
    siguienteEstado U s a = Some PENDIENTE_JEFE.
Proof.
  intros U s a Hno. unfold siguienteEstado.
  por_forma U a; destruct s; simpl in Hno; try reflexivity;
    exfalso; apply Hno; tauto.
Qed.

Lemma siguienteEstado_fuera_del_flujo_ejemplos :
  siguienteEstado UMBRALES_POR_DEFECTO BORRADOR 1000 = Some PENDIENTE_JEFE /\
  siguienteEstado UMBRALES_POR_DEFECTO PENDIENTE_TESORERIA 1000 = Some PENDIENTE_JEFE.
Proof.
  split; apply siguienteEstado_fuera_del_flujo; vm_compute;
    intuition discriminate.
Defined.

(** C6. [puedeAprobar] is the table: PENDIENTE_JEFE for jefe_area, gerente
    and admin; PENDIENTE_GERENCIA for gerente and admin; PENDIENTE_TESORERIA
    for tesorero and admin; at every other stage it is false for every role.
    It is a function of its two arguments only. *)
Theorem puedeAprobar_tabla :
  forall (rol : string) (e : Estado),
    (puedeAprobar rol e = true <->
       (e = PENDIENTE_JEFE /\
          (rol = "jefe_area" \/ rol = "gerente" \/ rol = "admin")%string) \/
       (e = PENDIENTE_GERENCIA /\ (rol = "gerente" \/ rol = "admin")%string) \/
       (e = PENDIENTE_TESORERIA /\ (rol = "tesorero" \/ rol = "admin")%string)) /\
    (In e [BORRADOR; APROBADA; RECHAZADA; ANULADA; EN_PROCESO; COMPLETADA] ->
       puedeAprobar rol e = false).
Proof.
  intros rol e. split.
  - unfold puedeAprobar, includes. split.
    + destruct e; simpl; try discriminate;
        rewrite ?orb_false_r, ?orb_true_iff, !String.eqb_eq; intro H;
        [left | right; left | right; right]; (split; [reflexivity | tauto]).
    + intros [[-> H] | [[-> H] | [-> H]]]; simpl;
        rewrite ?orb_false_r, ?orb_true_iff, !String.eqb_eq; tauto.
  - simpl. intros [<- | [<- | [<- | [<- | [<- | [<- | []]]]]]]; reflexivity.
Qed.

(* ================================================================== *)
(** * The store and the transaction wrapper *)
(* ================================================================== *)

Lemma visible_poner_estado (i : Z) (e : Estado) (u : Z) (s : Solicitud) :
  Repo.visible i (Repo.poner_estado e u s) = Repo.visible i s.
Proof. reflexivity. Qed.

Lemma find_visible_actualizar (i : Z) (e : Estado) (u : Z) (l : list Solicitud) :
  find (Repo.visible i) (Repo.actualizar i e u l)
  = option_map (Repo.poner_estado e u) (find (Repo.visible i) l).
Proof.
  induction l as [|s l IH]; simpl; [reflexivity|].
  destruct (sc_id s =? i)%Z eqn:E.
  - rewrite visible_poner_estado.
    destruct (Repo.visible i s); [reflexivity | exact IH].
  - unfold Repo.visible at 1 3. rewrite E. simpl. exact IH.
Qed.

Lemma query_exito {A : Type} (sql : Async A) (w w' : Mundo) (a : A) :
  query sql w = (inr a, w') ->
  exists w0, bd w0 = bd w /\ siguiente_id w0 = siguiente_id w /\ sql w0 = (inr a, w').
Proof.
  unfold query. destruct (fallos w) as [|[|] plan] eqn:E; intro H.
  - exists w. auto.
  - discriminate.
  - exists (con_fallos w plan). auto.
Qed.

Lemma query_error {A : Type} (sql : Async A) (w w' : Mundo) (e : Excepcion) :
  query sql w = (inl e, w') ->
  bd w' = bd w \/ exists w0, bd w0 = bd w /\ sql w0 = (inl e, w').
Proof.
  unfold query. destruct (fallos w) as [|[|] plan] eqn:E; intro H.
  - right. exists w. auto.
  - left. inversion H. reflexivity.
  - right. exists (con_fallos w plan). auto.
Qed.

Lemma query_error_forma {A : Type} (sql : Async A) (w w' : Mundo) (e : Excepcion) :
  query sql w = (inl e, w') ->
  (exists det, e = ErrorBD det) \/
  exists w0, bd w0 = bd w /\ siguiente_id w0 = siguiente_id w /\ sql w0 = (inl e, w').
Proof.
  unfold query. destruct (fallos w) as [|[|] plan] eqn:E; intro H.
  - right. exists w. auto.
  - left. inversion H. eexists. reflexivity.
  - right. exists (con_fallos w plan). auto.
Qed.

Lemma withTransaction_error_forma {A : Type} (cb : Async A) (w w' : Mundo)
      (e : Excepcion) :
  withTransaction cb w = (inl e, w') ->
  (exists det, e = ErrorBD det) \/
  exists w0 w1, bd w0 = bd w /\ siguiente_id w0 = siguiente_id w /\
                cb w0 = (inl e, w1).
Proof.
  unfold withTransaction, bind.
  destruct (query (ret tt) w) as [[e0|[]] w0] eqn:E0.
  - intro H. inversion H; subst.
    apply query_error_forma in E0. destruct E0 as [E0 | (v & _ & _ & E0)];
      [left; exact E0 | discriminate].
  - apply query_exito in E0. destruct E0 as (v0 & Hb0 & Hq0 & Hv0).
    inversion Hv0; subst.
    destruct (cb w0) as [[e1|a] w1] eqn:E1.
    + intro H. inversion H; subst. right. exists w0, w1. auto.
    + destruct (query (ret tt) w1) as [[e2|[]] w2] eqn:E2; [|discriminate].
      intro H. inversion H; subst.
      apply query_error_forma in E2. destruct E2 as [E2 | (v & _ & _ & E2)];
        [left; exact E2 | discriminate].
Qed.

Lemma obtenerSolicitudCompleta_lee (i : Z) (w w' : Mundo)
      (r : Excepcion + option Repo.SolicitudCompleta) :
  Repo.obtenerSolicitudCompleta i w = (r, w') ->
  bd w' = bd w /\
  forall c, r = inr c ->
    option_map Repo.fila c = find (Repo.visible i) (solicitudes_compra (bd w)).
Proof.
  intro H. destruct r as [e|c].
  - apply query_error in H. destruct H as [H | (w0 & Hb & H)];
      [split; [exact H | discriminate]|].
    cbv beta in H.
    destruct (find (Repo.visible i) (solicitudes_compra (bd w0))); [discriminate|].
    destruct (es_integer i); inversion H; subst.
    split; [exact Hb | discriminate].
  - apply query_exito in H. destruct H as (w0 & Hb & _ & H).
    cbv beta in H. rewrite Hb in H.
    destruct (find (Repo.visible i) (solicitudes_compra (bd w))) as [s|];
      [|destruct (es_integer i)]; inversion H; subst.
    + split; [exact Hb|]. intros c' Hc. inversion Hc; subst. reflexivity.
    + split; [exact Hb|]. intros c' Hc. inversion Hc; subst. reflexivity.
Qed.

Lemma withTransaction_error {A : Type} (cb : Async A) (w w' : Mundo) (e : Excepcion) :
  withTransaction cb w = (inl e, w') -> bd w' = bd w.
Proof.
  unfold withTransaction.
  destruct (bind _ _ w) as [[e0|a] w1]; intro H; inversion H; reflexivity.
Qed.

Lemma withTransaction_exito {A : Type} (cb : Async A) (w w' : Mundo) (a : A) :
  withTransaction cb w = (inr a, w') ->
  exists w0 w1, bd w0 = bd w /\ cb w0 = (inr a, w1) /\ bd w' = bd w1.
Proof.
  unfold withTransaction, bind.
  destruct (query (ret tt) w) as [[e|[]] w0] eqn:E0; [discriminate|].
  destruct (cb w0) as [[e|a0] w1] eqn:E1; [discriminate|].
  destruct (query (ret tt) w1) as [[e|[]] w2] eqn:E2; [discriminate|].
  unfold ret. intro H. inversion H; subst.
  apply query_exito in E0. destruct E0 as (v0 & Hb0 & _ & Hv0).
  inversion Hv0; subst.
  apply query_exito in E2. destruct E2 as (v2 & Hb2 & _ & Hv2).
  inversion Hv2; subst.
  exists w0, w1. rewrite Hb0. auto.
Qed.

Lemma actualizarEstadoSolicitud_exito (i : Z) (e : Estado) (u : Z) (w w' : Mundo)
      (r : option Solicitud) :
  Repo.actualizarEstadoSolicitud i e u w = (inr r, w') ->
  bd w' = Repo.con_solicitudes (bd w) (Repo.actualizar i e u (solicitudes_compra (bd w))).
Proof.
  intro H. apply query_exito in H. destruct H as (w0 & Hb & _ & H).
  inversion H; subst. simpl. rewrite Hb. reflexivity.
Qed.

Lemma registrarAprobacion_exito (d : Repo.DatosAprobacion) (w w' : Mundo) :
  Repo.registrarAprobacion d w = (inr tt, w') ->
  exists nivel a,
    Repo.da_nivel d = Some nivel /\
    Repo.da_accion d = texto a /\
    Repo.accion_admitida a = true /\
    bd w' = Repo.con_aprobaciones (bd w)
              (aprobaciones_compra (bd w) ++
               [ {| ac_solicitud_id := Repo.da_solicitudId d;
                    ac_nivel_aprobacion := nivel;
                    ac_accion := a;
                    ac_comentario := Repo.parametro (Repo.da_comentario d);
                    ac_aprobador_id := Repo.da_usuarioId d;
                    ac_estado_resultante := Repo.da_estadoResultante d |} ]).
Proof.
  intro H. apply query_exito in H. destruct H as (w0 & Hb & _ & H).
  destruct (Repo.da_nivel d) as [nivel|] eqn:En; [|discriminate].
  destruct (Repo.da_accion d) as [| |a] eqn:Ea; simpl in H; try discriminate.
  destruct (Repo.accion_admitida a) eqn:Eadm; [|discriminate].
  inversion H; subst. exists nivel, a. simpl. rewrite Hb. auto.
Qed.

Lemma enviarSolicitud_todo_o_nada (i u : Z) (w w' : Mundo)
      (r : Excepcion + option Solicitud) :
  enviarSolicitud i u w = (r, w') ->
  match r with
  | inl _ => bd w' = bd w
  | inr _ => bd w' = tras_transicion (bd w) i PENDIENTE_JEFE u (evento_envio i u)
  end.
Proof.
  unfold enviarSolicitud, bind.
  destruct (Repo.obtenerSolicitudCompleta i w) as [[e|c] w1] eqn:E1;
    apply obtenerSolicitudCompleta_lee in E1; destruct E1 as [Hb1 _].
  { intro H. inversion H; subst. exact Hb1. }
  destruct c as [c|]; [|intro H; inversion H; subst; exact Hb1].
  destruct (negb (sc_solicitante_id (Repo.fila c) =? u)%Z);
    [intro H; inversion H; subst; exact Hb1|].
  destruct (negb (Estado_eqb (sc_estado (Repo.fila c)) BORRADOR));
    [intro H; inversion H; subst; exact Hb1|].
  intro H. destruct r as [e|r].
  - apply withTransaction_error in H. congruence.
  - apply withTransaction_exito in H. destruct H as (w0 & w2 & Hb0 & Hcb & Hb2).
    destruct (Repo.actualizarEstadoSolicitud i PENDIENTE_JEFE u w0) as [[e|upd] wa] eqn:Ea;
      [discriminate|].
    apply actualizarEstadoSolicitud_exito in Ea.
    match type of Hcb with
    | context [Repo.registrarAprobacion ?d wa] =>
        destruct (Repo.registrarAprobacion d wa) as [[e|[]] wb] eqn:Er; [discriminate|]
    end.
    apply registrarAprobacion_exito in Er.
    destruct Er as (nivel & a & Hn & Ha & _ & Hwb). simpl in Hn, Ha, Hwb.
    inversion Hn; inversion Ha; subst.
    unfold ret in Hcb. inversion Hcb; subst.
    rewrite Hb2, Hwb, Ea, Hb0, Hb1. reflexivity.
Qed.

Lemma aprobable_In (e : Estado) :
  existsb (Estado_eqb e) estadosAprobables = true <-> In e estadosAprobables.
Proof. destruct e; simpl; intuition (discriminate || auto). Qed.

Lemma procesarAprobacion_lectura_spec (d : Decision) (w w' : Mundo)
      (r : Excepcion + Solicitud) :
  procesarAprobacion_lectura d w = (r, w') ->
  bd w' = bd w /\
  forall s, r = inr s ->
    find (Repo.visible (de_solicitudId d)) (solicitudes_compra (bd w)) = Some s /\
    In (sc_estado s) estadosAprobables /\
    puedeAprobar (de_rol d) (sc_estado s) = true.
Proof.
  unfold procesarAprobacion_lectura, bind.
  destruct (Repo.obtenerSolicitudCompleta (de_solicitudId d) w) as [[e|c] w1] eqn:E1;
    apply obtenerSolicitudCompleta_lee in E1; destruct E1 as [Hb1 Hc].
  { intro H. inversion H; subst. split; [exact Hb1 | discriminate]. }
  specialize (Hc c eq_refl).
  destruct c as [c|]; [|intro H; inversion H; subst; split; [exact Hb1 | discriminate]].
  simpl in Hc.
  destruct (existsb (Estado_eqb (sc_estado (Repo.fila c))) estadosAprobables) eqn:Eap;
    simpl; [|intro H; inversion H; subst; split; [exact Hb1 | discriminate]].
  destruct (puedeAprobar (de_rol d) (sc_estado (Repo.fila c))) eqn:Epu;
    simpl; [|intro H; inversion H; subst; split; [exact Hb1 | discriminate]].
  intro H. inversion H; subst. split; [exact Hb1|].
  intros s Hs. inversion Hs; subst.
  split; [symmetry; exact Hc|]. split; [apply aprobable_In; exact Eap | exact Epu].
Qed.

Lemma procesarAprobacion_transaccion_spec (U : Umbrales) (d : Decision) (s : Solicitud)
      (w w' : Mundo) (r : Excepcion + Transicion) :
  procesarAprobacion_transaccion U d s w = (r, w') ->
  match r with
  | inl _ => bd w' = bd w
  | inr t =>
      t = {| solicitudId := de_solicitudId d;
             estadoAnterior := sc_estado s;
             estadoNuevo := estadoNuevo t |} /\
      estado_resultante U d s = Some (estadoNuevo t) /\
      exists nivel a,
        nivelMap (sc_estado s) = Some nivel /\
        de_accion d = texto a /\
        Repo.accion_admitida a = true /\
        bd w' = tras_transicion (bd w) (de_solicitudId d) (estadoNuevo t) (de_usuarioId d)
                  (evento d nivel a (estadoNuevo t))
  end.
Proof.
  unfold procesarAprobacion_transaccion. intro H. destruct r as [e|t].
  - apply withTransaction_error in H. exact H.
  - apply withTransaction_exito in H. destruct H as (w0 & w2 & Hb0 & Hcb & Hb2).
    unfold bind in Hcb.
    assert (Hres : exists e', estado_resultante U d s = Some e' /\
              (if es_rechazar (de_accion d) then ret RECHAZADA
               else match siguienteEstado U (sc_estado s) (sc_monto_total s) with
                    | Some e => ret e
                    | None => throw (ValidationError "No hay siguiente estado en el flujo")
                    end) w0 = (inr e', w0)).
    { unfold estado_resultante.
      destruct (es_rechazar (de_accion d)); [eexists; split; reflexivity|].
      destruct (siguienteEstado U (sc_estado s) (sc_monto_total s));
        [eexists; split; reflexivity | discriminate]. }
    destruct Hres as (e' & He' & Hrun). rewrite Hrun in Hcb.
    destruct (Repo.actualizarEstadoSolicitud (de_solicitudId d) e' (de_usuarioId d) w0)
      as [[e|upd] wa] eqn:Ea; [discriminate|].
    apply actualizarEstadoSolicitud_exito in Ea.
    match type of Hcb with
    | context [Repo.registrarAprobacion ?x wa] =>
        destruct (Repo.registrarAprobacion x wa) as [[e|[]] wb] eqn:Er; [discriminate|]
    end.
    apply registrarAprobacion_exito in Er.
    destruct Er as (nivel & a & Hn & Ha & Hadm & Hwb). simpl in Hn, Ha, Hwb.
    unfold ret in Hcb. inversion Hcb; subst. simpl.
    split; [reflexivity|]. split; [exact He'|].
    exists nivel, a. repeat split; try assumption.
    rewrite Hb2, Hwb, Ea, Hb0. reflexivity.
Qed.

Lemma lectura_sin_fallos (d : Decision) (b : BD) (n : Z) :
  procesarAprobacion_lectura d (sin_fallos b n)
  = (match find (Repo.visible (de_solicitudId d)) (solicitudes_compra b) with
     | None =>
         if es_integer (de_solicitudId d)
         then inl (NotFoundError "Solicitud de compra")
         else inl (ErrorBD "value out of range for type integer")
     | Some s =>
         if negb (existsb (Estado_eqb (sc_estado s)) estadosAprobables)
         then inl (ValidationError
                     ("No se puede procesar una solicitud en estado: "
                        ++ ESTADOS_COMPRA (sc_estado s)))
         else if negb (puedeAprobar (de_rol d) (sc_estado s))
         then inl (ForbiddenError
                     ("El rol '" ++ de_rol d
                        ++ "' no puede aprobar en el nivel actual: "
                        ++ ESTADOS_COMPRA (sc_estado s)))
         else inr s
     end, sin_fallos b n).
Proof.
  unfold procesarAprobacion_lectura, bind, Repo.obtenerSolicitudCompleta, query.
  cbn [sin_fallos bd fallos].
  destruct (find (Repo.visible (de_solicitudId d)) (solicitudes_compra b)) as [s|];
    [|destruct (es_integer (de_solicitudId d)); reflexivity].
  cbn [Repo.fila].
  destruct (negb (existsb (Estado_eqb (sc_estado s)) estadosAprobables)); [reflexivity|].
  destruct (negb (puedeAprobar (de_rol d) (sc_estado s))); reflexivity.
Qed.

Lemma transaccion_sin_fallos (U : Umbrales) (d : Decision) (s : Solicitud)
      (b : BD) (n : Z) (e' : Estado) (nivel : Z) :
  estado_resultante U d s = Some e' ->
  nivelMap (sc_estado s) = Some nivel ->
  procesarAprobacion_transaccion U d s (sin_fallos b n)
  = match de_accion d with
    | texto a =>
        if Repo.accion_admitida a
        then (inr {| solicitudId := de_solicitudId d;
                     estadoAnterior := sc_estado s;
                     estadoNuevo := e' |},
              sin_fallos (tras_transicion b (de_solicitudId d) e' (de_usuarioId d)
                            (evento d nivel a e')) n)
        else (inl (ErrorBD "aprobaciones_compra: CHECK (accion)"), sin_fallos b n)
    | _ => (inl (ErrorBD "aprobaciones_compra: NOT NULL"), sin_fallos b n)
    end.
Proof.
  unfold estado_resultante. intros Hres Hniv.
  unfold procesarAprobacion_transaccion, withTransaction, bind,
    Repo.actualizarEstadoSolicitud, Repo.registrarAprobacion, query.
  cbn [sin_fallos bd fallos]. unfold ret at 1.
  rewrite Hniv.
  assert (Hrun : (if es_rechazar (de_accion d) then ret RECHAZADA
               else match siguienteEstado U (sc_estado s) (sc_monto_total s) with
                    | Some e => ret e
                    | None => throw (ValidationError "No hay siguiente estado en el flujo")
                    end) (sin_fallos b n) = (inr e', sin_fallos b n)).
  { destruct (es_rechazar (de_accion d)); [inversion Hres; reflexivity|].
    destruct (siguienteEstado U (sc_estado s) (sc_monto_total s));
      [inversion Hres; reflexivity | discriminate]. }
  rewrite Hrun. simpl Repo.da_nivel. simpl Repo.da_accion. cbv iota.
  destruct (de_accion d) as [| |a]; try reflexivity.
  simpl Repo.parametro at 1. cbv iota.
  destruct (Repo.accion_admitida a); reflexivity.
Qed.

(* ================================================================== *)
(** * Submission *)
(* ================================================================== *)

Lemma enviarSolicitud_sin_fallos (i u : Z) (b : BD) (n : Z) :
  enviarSolicitud i u (sin_fallos b n)
  = match find (Repo.visible i) (solicitudes_compra b) with
    | None =>
        if es_integer i
        then (inl (NotFoundError "Solicitud de compra"), sin_fallos b n)
        else (inl (ErrorBD "value out of range for type integer"), sin_fallos b n)
    | Some s =>
        if negb (sc_solicitante_id s =? u)%Z
        then (inl (ForbiddenError "Solo el solicitante puede enviar esta solicitud"),
              sin_fallos b n)
        else if negb (Estado_eqb (sc_estado s) BORRADOR)
        then (inl (ValidationError "Solo se pueden enviar solicitudes en estado borrador"),
              sin_fallos b n)
        else (inr (find (fun x => (sc_id x =? i)%Z)
                        (Repo.actualizar i PENDIENTE_JEFE u (solicitudes_compra b))),
              sin_fallos (tras_transicion b i PENDIENTE_JEFE u (evento_envio i u)) n)
    end.
Proof.
  unfold enviarSolicitud, bind, Repo.obtenerSolicitudCompleta, query.
  cbn [sin_fallos bd fallos].
  destruct (find (Repo.visible i) (solicitudes_compra b)) as [s|];
    [|destruct (es_integer i); reflexivity].
  cbn [Repo.fila].
  destruct (negb (sc_solicitante_id s =? u)%Z); [reflexivity|].
  destruct (negb (Estado_eqb (sc_estado s) BORRADOR)); reflexivity.
Qed.

Lemma find_visible_None (i : Z) (l : list Solicitud) :
  (forall s, In s l -> sc_id s = i -> sc_deleted_at s <> None) ->
  find (Repo.visible i) l = None.
Proof.
  intro H. destruct (find (Repo.visible i) l) as [s|] eqn:E; [|reflexivity].
  apply find_some in E. destruct E as [Hin Hv].
  unfold Repo.visible in Hv. apply andb_true_iff in Hv. destruct Hv as [Hid Hdel].
  apply Z.eqb_eq in Hid. specialize (H s Hin Hid).
  destruct (sc_deleted_at s); [discriminate | congruence].
Qed.

Lemma Estado_eqb_eq (a b : Estado) : Estado_eqb a b = true <-> a = b.
Proof.
  unfold Estado_eqb. destruct (Estado_eq_dec a b); split; congruence.
Qed.

(** C4. The preconditions of [enviarSolicitud], in the order of the
    operation's contract, and its effect. For a key of the table's type
    (INTEGER), it throws NotFound when no row with the key is live (there
    is none, or every such row is soft-deleted); for a live request it
    throws Forbidden when the acting user is not the requester, and
    Validation when the requester submits a request that is not a draft.
    When the requester submits a draft, the stage stored for the request is
    PENDIENTE_JEFE, the updating user is stamped, and exactly one event is
    appended, with level 0, action 'envio' and resulting stage
    PENDIENTE_JEFE. In the three failures nothing is written. A key beyond
    INTEGER is the key of no request and is answered by an error of the
    data base. *)
Theorem enviarSolicitud_contrato :
  forall (b : BD) (n i u : Z),
    ((forall s, In s (solicitudes_compra b) -> sc_id s = i -> sc_deleted_at s <> None) ->
       (es_integer i = true ->
          enviarSolicitud i u (sin_fallos b n)
          = (inl (NotFoundError "Solicitud de compra"), sin_fallos b n)) /\
       (es_integer i = false ->
          exists m, enviarSolicitud i u (sin_fallos b n)
                    = (inl (ErrorBD m), sin_fallos b n))) /\
    (forall s,
       find (Repo.visible i) (solicitudes_compra b) = Some s ->
       (sc_solicitante_id s <> u ->
          enviarSolicitud i u (sin_fallos b n)
          = (inl (ForbiddenError "Solo el solicitante puede enviar esta solicitud"),
             sin_fallos b n)) /\
       (sc_solicitante_id s = u -> sc_estado s <> BORRADOR ->
          enviarSolicitud i u (sin_fallos b n)
          = (inl (ValidationError "Solo se pueden enviar solicitudes en estado borrador"),
             sin_fallos b n)) /\
       (sc_solicitante_id s = u -> sc_estado s = BORRADOR ->
          exists updated b',
            enviarSolicitud i u (sin_fallos b n) = (inr updated, sin_fallos b' n) /\
            estado_almacenado i b' = Some PENDIENTE_JEFE /\
            find (Repo.visible i) (solicitudes_compra b')
            = Some (Repo.poner_estado PENDIENTE_JEFE u s) /\
            option_map sc_updated_by (find (Repo.visible i) (solicitudes_compra b'))
            = Some (Some u) /\
            solicitud_compra_items b' = solicitud_compra_items b /\
            aprobaciones_compra b'
            = aprobaciones_compra b ++
              [ {| ac_solicitud_id := i;
                   ac_nivel_aprobacion := 0;
                   ac_accion := "envio";
                   ac_comentario := Some "Solicitud enviada para aprobación"%string;
                   ac_aprobador_id := u;
                   ac_estado_resultante := PENDIENTE_JEFE |} ])).
Proof.
  intros b n i u. split.
  - intro H. split; intro Hr;
      rewrite enviarSolicitud_sin_fallos, (find_visible_None _ _ H), Hr;
      [reflexivity | eexists; reflexivity].
  - intros s Hs. repeat split.
    + intro Hu. rewrite enviarSolicitud_sin_fallos, Hs.
      apply Z.eqb_neq in Hu. rewrite Hu. reflexivity.
    + intros Hu He. rewrite enviarSolicitud_sin_fallos, Hs.
      apply Z.eqb_eq in Hu. rewrite Hu. simpl negb at 1. cbv iota.
      destruct (Estado_eqb (sc_estado s) BORRADOR) eqn:E; [|reflexivity].
      apply Estado_eqb_eq in E. contradiction.
    + intros Hu He. rewrite enviarSolicitud_sin_fallos, Hs.
      apply Z.eqb_eq in Hu. rewrite Hu. simpl negb at 1. cbv iota.
      apply Estado_eqb_eq in He. rewrite He. simpl negb. cbv iota.
      eexists. eexists. split; [reflexivity|].
      unfold estado_almacenado, tras_transicion.
      cbn [solicitudes_compra solicitud_compra_items aprobaciones_compra].
      rewrite find_visible_actualizar, Hs. repeat split.
Qed.

Lemma enviarSolicitud_contrato_ejemplo :
  exists updated b',
    enviarSolicitud 1 7 (sin_fallos (bd_1 BORRADOR 1000) 2)
    = (inr updated, sin_fallos b' 2) /\
    estado_almacenado 1 b' = Some PENDIENTE_JEFE /\
    find (Repo.visible 1) (solicitudes_compra b')
    = Some (Repo.poner_estado PENDIENTE_JEFE 7 (solicitud_1 BORRADOR 1000)) /\
    option_map sc_updated_by (find (Repo.visible 1) (solicitudes_compra b'))
    = Some (Some 7%Z) /\
    solicitud_compra_items b' = [] /\
    aprobaciones_compra b' = [] ++ [evento_envio 1 7].
Proof.
  apply (proj2 (proj2 (proj2 (enviarSolicitud_contrato (bd_1 BORRADOR 1000) 2 1 7)
                               (solicitud_1 BORRADOR 1000) eq_refl)));
    reflexivity.
Defined.

(* ================================================================== *)
(** * Approval and rejection *)
(* ================================================================== *)

Lemma procesarAprobacion_sin_fallos (U : Umbrales) (d : Decision) (b : BD) (n : Z)
      (s : Solicitud) (e' : Estado) (nivel : Z) :
  find (Repo.visible (de_solicitudId d)) (solicitudes_compra b) = Some s ->
  In (sc_estado s) estadosAprobables ->
  puedeAprobar (de_rol d) (sc_estado s) = true ->
  estado_resultante U d s = Some e' ->
  nivelMap (sc_estado s) = Some nivel ->
  procesarAprobacion U d (sin_fallos b n)
  = match de_accion d with
    | texto a =>
        if Repo.accion_admitida a
        then (inr {| solicitudId := de_solicitudId d;
                     estadoAnterior := sc_estado s;
                     estadoNuevo := e' |},
              sin_fallos (tras_transicion b (de_solicitudId d) e' (de_usuarioId d)
                            (evento d nivel a e')) n)
        else (inl (ErrorBD "aprobaciones_compra: CHECK (accion)"), sin_fallos b n)
    | _ => (inl (ErrorBD "aprobaciones_compra: NOT NULL"), sin_fallos b n)
    end.
Proof.
  intros Hs Hin Hrol Hres Hniv.
  unfold procesarAprobacion, bind.
  rewrite lectura_sin_fallos, Hs.
  apply aprobable_In in Hin. rewrite Hin, Hrol. cbn [negb].
  apply transaccion_sin_fallos; assumption.
Qed.

Lemma nivelMap_aprobable (e : Estado) :
  In e estadosAprobables -> exists nivel, nivelMap e = Some nivel.
Proof.
  simpl. intros [<- | [<- | [<- | []]]]; eexists; reflexivity.
Qed.

(** Every stage that can be acted on has a next stage as the code computes
    it, on the path or not. *)
Lemma siguienteEstado_aprobable (U : Umbrales) (e : Estado) (a : Q) :
  In e estadosAprobables -> exists e', siguienteEstado U e a = Some e'.
Proof.
  unfold siguienteEstado.
  simpl. intros [<- | [<- | [<- | []]]]; por_forma U a; eexists; reflexivity.
Qed.

(** C3, as the code has it. A request at PENDIENTE_TESORERIA whose total
    reaches the executive threshold, approved by a role allowed at that
    stage, ends at APROBADA: the stage stored for it is APROBADA, and the
    event of level 3 is appended. *)
Theorem aprobar_en_tesoreria :
  forall (U : Umbrales) (d : Decision) (b : BD) (n : Z) (s : Solicitud),
    find (Repo.visible (de_solicitudId d)) (solicitudes_compra b) = Some s ->
    sc_estado s = PENDIENTE_TESORERIA ->
    puedeAprobar (de_rol d) PENDIENTE_TESORERIA = true ->
    de_accion d = texto "aprobar" ->
    (GERENCIA U <= sc_monto_total s)%Q ->
    exists b',
      procesarAprobacion U d (sin_fallos b n)
      = (inr {| solicitudId := de_solicitudId d;
                estadoAnterior := PENDIENTE_TESORERIA;
                estadoNuevo := APROBADA |},
         sin_fallos b' n) /\
      estado_almacenado (de_solicitudId d) b' = Some APROBADA /\
      find (Repo.visible (de_solicitudId d)) (solicitudes_compra b')
      = Some (Repo.poner_estado APROBADA (de_usuarioId d) s) /\
      aprobaciones_compra b'
      = aprobaciones_compra b ++
        [ {| ac_solicitud_id := de_solicitudId d;
             ac_nivel_aprobacion := 3;
             ac_accion := "aprobar";
             ac_comentario := Repo.parametro (de_comentario d);
             ac_aprobador_id := de_usuarioId d;
             ac_estado_resultante := APROBADA |} ].
Proof.
  intros U d b n s Hs He Hrol Hacc Hmonto.
  assert (Hres : estado_resultante U d s = Some APROBADA).
  { unfold estado_resultante. rewrite Hacc, He. cbn [es_rechazar].
    change ("aprobar" =? "rechazar")%string with false. cbv iota.
    apply siguienteEstado_en_el_flujo. apply mayor_igual_true. exact Hmonto. }
  eexists. split; [|split; [|split]].
  - rewrite (procesarAprobacion_sin_fallos U d b n s APROBADA 3 Hs); try assumption.
    + rewrite Hacc, He.
      change (Repo.accion_admitida "aprobar") with true. cbv iota. reflexivity.
    + rewrite He. simpl. auto.
    + rewrite He. exact Hrol.
    + rewrite He. reflexivity.
  - unfold estado_almacenado, tras_transicion. cbn [solicitudes_compra].
    rewrite find_visible_actualizar, Hs. reflexivity.
  - unfold tras_transicion. cbn [solicitudes_compra].
    rewrite find_visible_actualizar, Hs. reflexivity.
  - reflexivity.
Qed.

(** A request of 1000 at PENDIENTE_TESORERIA, approved by the treasurer under
    the default thresholds: the resulting stage is PENDIENTE_JEFE, not
    APROBADA. *)
Lemma aprobar_en_tesoreria_monto_bajo :
  puedeAprobar "tesorero" PENDIENTE_TESORERIA = true /\
  fst (procesarAprobacion UMBRALES_POR_DEFECTO
         (decision_1 (texto "aprobar") indefinido 9 "tesorero")
         (sin_fallos (bd_1 PENDIENTE_TESORERIA 1000) 2))
  = inr {| solicitudId := 1;
           estadoAnterior := PENDIENTE_TESORERIA;
           estadoNuevo := PENDIENTE_JEFE |} /\
  map sc_estado
      (solicitudes_compra
         (bd (snd (procesarAprobacion UMBRALES_POR_DEFECTO
                     (decision_1 (texto "aprobar") indefinido 9 "tesorero")
                     (sin_fallos (bd_1 PENDIENTE_TESORERIA 1000) 2)))))
  = [PENDIENTE_JEFE].
Proof. repeat split. Qed.

Lemma aprobar_en_tesoreria_30M :
  exists b',
    procesarAprobacion UMBRALES_POR_DEFECTO
      (decision_1 (texto "aprobar") indefinido 9 "tesorero")
      (sin_fallos (bd_1 PENDIENTE_TESORERIA 30000000) 2)
    = (inr {| solicitudId := 1;
              estadoAnterior := PENDIENTE_TESORERIA;
              estadoNuevo := APROBADA |},
       sin_fallos b' 2) /\
    estado_almacenado 1 b' = Some APROBADA /\
    find (Repo.visible 1) (solicitudes_compra b')
    = Some (Repo.poner_estado APROBADA 9 (solicitud_1 PENDIENTE_TESORERIA 30000000)) /\
    aprobaciones_compra b'
    = [] ++ [ {| ac_solicitud_id := 1;
                 ac_nivel_aprobacion := 3;
                 ac_accion := "aprobar";
                 ac_comentario := None;
                 ac_aprobador_id := 9;
                 ac_estado_resultante := APROBADA |} ].
Proof.
  apply (aprobar_en_tesoreria UMBRALES_POR_DEFECTO
           (decision_1 (texto "aprobar") indefinido 9 "tesorero")
           (bd_1 PENDIENTE_TESORERIA 30000000) 2
           (solicitud_1 PENDIENTE_TESORERIA 30000000));
    try reflexivity.
  vm_compute. discriminate.
Defined.

Lemma accionAprobacionSchema_rechazo_sin_comentario (body : CuerpoAprobacion) :
  accion body = texto "rechazar" ->
  (comentario body = indefinido \/ comentario body = nulo \/
   exists c, comentario body = texto c /\ trim c = ""%string) ->
  exists details, accionAprobacionSchema body = inl details.
Proof.
  intros Ha Hc. unfold accionAprobacionSchema, validar_accion, validar_comentario.
  rewrite Ha.
  change ("rechazar" =? "aprobar")%string with false.
  change ("rechazar" =? "rechazar")%string with true.
  cbn [orb].
  destruct Hc as [-> | [-> | (c & -> & Hc)]]; try (eexists; reflexivity).
  rewrite Hc. change ("" =? "")%string with true. cbv iota.
  eexists; reflexivity.
Qed.

(** C5. For a request at one of the three pending stages and a role allowed
    at that stage, [procesarAprobacion] with action 'rechazar' and a
    non-empty comment moves the request to RECHAZADA (the stage stored for
    it is RECHAZADA) and appends exactly one event, of action 'rechazar',
    whose level is 1 at PENDIENTE_JEFE, 2 at PENDIENTE_GERENCIA and 3 at
    PENDIENTE_TESORERIA. A rejection without a comment (absent, null, empty
    or made of white space only, that of Unicode included) is answered with
    a validation error by the route's schema; the operation is not run and
    the world is untouched. A comment that is not blank and of at most 1000
    UTF-16 code units once trimmed passes the schema and reaches the
    operation trimmed. *)
Theorem rechazo_con_y_sin_comentario :
  forall (U : Umbrales),
    (forall (d : Decision) (b : BD) (n : Z) (s : Solicitud) (c : string),
       find (Repo.visible (de_solicitudId d)) (solicitudes_compra b) = Some s ->
       In (sc_estado s) [PENDIENTE_JEFE; PENDIENTE_GERENCIA; PENDIENTE_TESORERIA] ->
       puedeAprobar (de_rol d) (sc_estado s) = true ->
       de_accion d = texto "rechazar" ->
       de_comentario d = texto c ->
       c <> ""%string ->
       exists b' nivel,
         procesarAprobacion U d (sin_fallos b n)
         = (inr {| solicitudId := de_solicitudId d;
                   estadoAnterior := sc_estado s;
                   estadoNuevo := RECHAZADA |},
            sin_fallos b' n) /\
         estado_almacenado (de_solicitudId d) b' = Some RECHAZADA /\
         find (Repo.visible (de_solicitudId d)) (solicitudes_compra b')
         = Some (Repo.poner_estado RECHAZADA (de_usuarioId d) s) /\
         aprobaciones_compra b'
         = aprobaciones_compra b ++
           [ {| ac_solicitud_id := de_solicitudId d;
                ac_nivel_aprobacion := nivel;
                ac_accion := "rechazar";
                ac_comentario := Some c;
                ac_aprobador_id := de_usuarioId d;
                ac_estado_resultante := RECHAZADA |} ] /\
         ((sc_estado s = PENDIENTE_JEFE /\ nivel = 1%Z) \/
          (sc_estado s = PENDIENTE_GERENCIA /\ nivel = 2%Z) \/
          (sc_estado s = PENDIENTE_TESORERIA /\ nivel = 3%Z))) /\
    (forall (i : Z) (user : Usuario) (body : CuerpoAprobacion) (w : Mundo),
       accion body = texto "rechazar" ->
       (comentario body = indefinido \/ comentario body = nulo \/
        exists c, comentario body = texto c /\ trim c = ""%string) ->
       exists m, patch_aprobacion U i user body w = (inl (ValidationError m), w)) /\
    (forall (i : Z) (user : Usuario) (body : CuerpoAprobacion) (w : Mundo) (c : string),
       accion body = texto "rechazar" ->
       comentario body = texto c ->
       trim c <> ""%string ->
       (longitud (trim c) <= 1000)%nat ->
       patch_aprobacion U i user body w
       = procesarAprobacion U
           {| de_solicitudId := i;
              de_accion := texto "rechazar";
              de_comentario := texto (trim c);
              de_usuarioId := sub user;
              de_rol := rol user |} w).
Proof.
  intro U. split; [|split].
  - intros d b n s c Hs Hin Hrol Hacc Hcom Hc.
    assert (Hres : estado_resultante U d s = Some RECHAZADA).
    { unfold estado_resultante. rewrite Hacc. reflexivity. }
    assert (Hniv : exists nivel, nivelMap (sc_estado s) = Some nivel /\
              ((sc_estado s = PENDIENTE_JEFE /\ nivel = 1%Z) \/
               (sc_estado s = PENDIENTE_GERENCIA /\ nivel = 2%Z) \/
               (sc_estado s = PENDIENTE_TESORERIA /\ nivel = 3%Z))).
    { simpl in Hin. destruct Hin as [H | [H | [H | []]]]; rewrite <- H;
        eexists; (split; [reflexivity | auto]). }
    destruct Hniv as (nivel & Hniv & Htabla).
    eexists. exists nivel. split; [|split; [|split; [|split]]].
    + rewrite (procesarAprobacion_sin_fallos U d b n s RECHAZADA nivel Hs);
        try assumption.
      rewrite Hacc. change (Repo.accion_admitida "rechazar") with true.
      cbv iota. reflexivity.
    + unfold estado_almacenado, tras_transicion. cbn [solicitudes_compra].
      rewrite find_visible_actualizar, Hs. reflexivity.
    + unfold tras_transicion. cbn [solicitudes_compra].
      rewrite find_visible_actualizar, Hs. reflexivity.
    + unfold tras_transicion, evento. cbn [aprobaciones_compra].
      rewrite Hcom. reflexivity.
    + exact Htabla.
  - intros i user body w Ha Hc.
    destruct (accionAprobacionSchema_rechazo_sin_comentario body Ha Hc) as [ds Hds].
    unfold patch_aprobacion, validate. rewrite Hds.
    eexists. reflexivity.
  - intros i user body w c Ha Hc Hne Hlen.
    unfold patch_aprobacion, validate, accionAprobacionSchema,
      validar_accion, validar_comentario.
    rewrite Ha, Hc.
    change ("rechazar" =? "aprobar")%string with false.
    change ("rechazar" =? "rechazar")%string with true.
    cbn [orb].
    apply String.eqb_neq in Hne. rewrite Hne.
    apply Nat.leb_le in Hlen. rewrite Hlen.
    reflexivity.
Qed.

Lemma rechazo_con_y_sin_comentario_ejemplo :
  (exists b' nivel,
     procesarAprobacion UMBRALES_POR_DEFECTO
       (decision_1 (texto "rechazar") (texto "presupuesto excedido") 9 "gerente")
       (sin_fallos (bd_1 PENDIENTE_GERENCIA 10000000) 2)
     = (inr {| solicitudId := 1;
               estadoAnterior := PENDIENTE_GERENCIA;
               estadoNuevo := RECHAZADA |},
        sin_fallos b' 2) /\
     estado_almacenado 1 b' = Some RECHAZADA /\
     find (Repo.visible 1) (solicitudes_compra b')
     = Some (Repo.poner_estado RECHAZADA 9 (solicitud_1 PENDIENTE_GERENCIA 10000000)) /\
     aprobaciones_compra b'
     = [] ++ [ {| ac_solicitud_id := 1;
                  ac_nivel_aprobacion := nivel;
                  ac_accion := "rechazar";
                  ac_comentario := Some "presupuesto excedido"%string;
                  ac_aprobador_id := 9;
                  ac_estado_resultante := RECHAZADA |} ] /\
     ((PENDIENTE_GERENCIA = PENDIENTE_JEFE /\ nivel = 1%Z) \/
      (PENDIENTE_GERENCIA = PENDIENTE_GERENCIA /\ nivel = 2%Z) \/
      (PENDIENTE_GERENCIA = PENDIENTE_TESORERIA /\ nivel = 3%Z))) /\
  (exists m,
     patch_aprobacion UMBRALES_POR_DEFECTO 1 {| sub := 9; rol := "gerente" |}
       {| accion := texto "rechazar"; comentario := texto "   " |}
       (sin_fallos (bd_1 PENDIENTE_GERENCIA 10000000) 2)
     = (inl (ValidationError m), sin_fallos (bd_1 PENDIENTE_GERENCIA 10000000) 2)).
Proof.
  split.
  - apply (proj1 (rechazo_con_y_sin_comentario UMBRALES_POR_DEFECTO)
             (decision_1 (texto "rechazar") (texto "presupuesto excedido") 9 "gerente")
             (bd_1 PENDIENTE_GERENCIA 10000000) 2%Z
             (solicitud_1 PENDIENTE_GERENCIA 10000000) "presupuesto excedido"%string);
      try reflexivity.
    + simpl. auto.
    + discriminate.
  - apply (proj1 (proj2 (rechazo_con_y_sin_comentario UMBRALES_POR_DEFECTO))
             1%Z {| sub := 9; rol := "gerente" |}
             {| accion := texto "rechazar"; comentario := texto "   " |}
             (sin_fallos (bd_1 PENDIENTE_GERENCIA 10000000) 2));
      [reflexivity|].
    right. right. exists "   "%string. split; reflexivity.
Defined.

(** C10, as the code has it. [procesarAprobacion] checks neither the action
    nor the comment. With a live request at a pending stage and an allowed
    role: a rejection succeeds whatever the comment, absent and empty
    included, and the stage stored for the request is RECHAZADA; the two
    other tags the ledger admits, 'aprobar' and 'envio', are both processed
    as an approval that advances the stage (the stage stored is the one
    [siguienteEstado] gives), and the event carries the tag as given; any
    other string takes the approval branch too, but the ledger's CHECK
    refuses the event, and a missing tag is refused as NULL: the operation
    throws the storage error and the tables are as before. *)
Theorem procesarAprobacion_no_valida :
  forall (U : Umbrales) (d : Decision) (b : BD) (n : Z) (s : Solicitud) (nivel : Z),
    find (Repo.visible (de_solicitudId d)) (solicitudes_compra b) = Some s ->
    In (sc_estado s) estadosAprobables ->
    puedeAprobar (de_rol d) (sc_estado s) = true ->
    nivelMap (sc_estado s) = Some nivel ->
    (de_accion d = texto "rechazar" ->
       exists b',
         procesarAprobacion U d (sin_fallos b n)
         = (inr {| solicitudId := de_solicitudId d;
                   estadoAnterior := sc_estado s;
                   estadoNuevo := RECHAZADA |},
            sin_fallos b' n) /\
         estado_almacenado (de_solicitudId d) b' = Some RECHAZADA /\
         b' = tras_transicion b (de_solicitudId d) RECHAZADA (de_usuarioId d)
                {| ac_solicitud_id := de_solicitudId d;
                   ac_nivel_aprobacion := nivel;
                   ac_accion := "rechazar";
                   ac_comentario := Repo.parametro (de_comentario d);
                   ac_aprobador_id := de_usuarioId d;
                   ac_estado_resultante := RECHAZADA |}) /\
    (forall a, de_accion d = texto a -> a = "aprobar"%string \/ a = "envio"%string ->
       exists e' b',
         siguienteEstado U (sc_estado s) (sc_monto_total s) = Some e' /\
         procesarAprobacion U d (sin_fallos b n)
         = (inr {| solicitudId := de_solicitudId d;
                   estadoAnterior := sc_estado s;
                   estadoNuevo := e' |},
            sin_fallos b' n) /\
         estado_almacenado (de_solicitudId d) b' = Some e' /\
         b' = tras_transicion b (de_solicitudId d) e' (de_usuarioId d)
                {| ac_solicitud_id := de_solicitudId d;
                   ac_nivel_aprobacion := nivel;
                   ac_accion := a;
                   ac_comentario := Repo.parametro (de_comentario d);
                   ac_aprobador_id := de_usuarioId d;
                   ac_estado_resultante := e' |}) /\
    (forall a, de_accion d = texto a ->
       a <> "rechazar"%string -> a <> "aprobar"%string -> a <> "envio"%string ->
       procesarAprobacion U d (sin_fallos b n)
       = (inl (ErrorBD "aprobaciones_compra: CHECK (accion)"), sin_fallos b n)) /\
    (de_accion d = indefinido \/ de_accion d = nulo ->
       procesarAprobacion U d (sin_fallos b n)
       = (inl (ErrorBD "aprobaciones_compra: NOT NULL"), sin_fallos b n)).
Proof.
  intros U d b n s nivel Hs Hin Hrol Hniv.
  destruct (siguienteEstado_aprobable U (sc_estado s) (sc_monto_total s) Hin)
    as [sig Hsig].
  assert (Halm : forall e' ev,
            estado_almacenado (de_solicitudId d)
              (tras_transicion b (de_solicitudId d) e' (de_usuarioId d) ev) = Some e').
  { intros e' ev. unfold estado_almacenado, tras_transicion. cbn [solicitudes_compra].
    rewrite find_visible_actualizar, Hs. reflexivity. }
  split; [|split; [|split]].
  - intro Hacc. eexists. split; [|split; [|reflexivity]].
    + rewrite (procesarAprobacion_sin_fallos U d b n s RECHAZADA nivel Hs);
        try assumption.
      * rewrite Hacc. reflexivity.
      * unfold estado_resultante. rewrite Hacc. reflexivity.
    + apply Halm.
  - intros a Hacc Ha. exists sig. eexists. split; [exact Hsig|].
    split; [|split; [|reflexivity]].
    + rewrite (procesarAprobacion_sin_fallos U d b n s sig nivel Hs);
        try assumption.
      * rewrite Hacc. destruct Ha as [-> | ->]; reflexivity.
      * unfold estado_resultante. rewrite Hacc.
        destruct Ha as [-> | ->]; exact Hsig.
    + apply Halm.
  - intros a Hacc H1 H2 H3.
    rewrite (procesarAprobacion_sin_fallos U d b n s sig nivel Hs);
      try assumption.
    + rewrite Hacc.
      apply String.eqb_neq in H1, H2, H3.
      unfold Repo.accion_admitida. rewrite H1, H2, H3. reflexivity.
    + unfold estado_resultante. rewrite Hacc. cbn [es_rechazar].
      apply String.eqb_neq in H1. rewrite H1. exact Hsig.
  - intros Hacc.
    rewrite (procesarAprobacion_sin_fallos U d b n s sig nivel Hs);
      try assumption.
    + destruct Hacc as [-> | ->]; reflexivity.
    + unfold estado_resultante. destruct Hacc as [-> | ->]; exact Hsig.
Qed.

(** An unknown tag, given by an allowed role on a pending request: the
    operation throws and neither the stage nor the ledger has changed. *)
Lemma accion_desconocida_no_avanza :
  puedeAprobar "jefe_area" PENDIENTE_JEFE = true /\
  procesarAprobacion UMBRALES_POR_DEFECTO
    (decision_1 (texto "visto_bueno") indefinido 9 "jefe_area")
    (sin_fallos (bd_1 PENDIENTE_JEFE 1000) 2)
  = (inl (ErrorBD "aprobaciones_compra: CHECK (accion)"),
     sin_fallos (bd_1 PENDIENTE_JEFE 1000) 2).
Proof. split; reflexivity. Qed.

Lemma procesarAprobacion_no_valida_ejemplo :
  exists b',
    procesarAprobacion UMBRALES_POR_DEFECTO
      (decision_1 (texto "rechazar") (texto "") 9 "jefe_area")
      (sin_fallos (bd_1 PENDIENTE_JEFE 1000) 2)
    = (inr {| solicitudId := 1;
              estadoAnterior := PENDIENTE_JEFE;
              estadoNuevo := RECHAZADA |},
       sin_fallos b' 2) /\
    estado_almacenado 1 b' = Some RECHAZADA /\
    b' = tras_transicion (bd_1 PENDIENTE_JEFE 1000) 1 RECHAZADA 9
           {| ac_solicitud_id := 1;
              ac_nivel_aprobacion := 1;
              ac_accion := "rechazar";
              ac_comentario := Some ""%string;
              ac_aprobador_id := 9;
              ac_estado_resultante := RECHAZADA |}.
Proof.
  apply (proj1 (procesarAprobacion_no_valida UMBRALES_POR_DEFECTO
                  (decision_1 (texto "rechazar") (texto "") 9 "jefe_area")
                  (bd_1 PENDIENTE_JEFE 1000) 2 (solicitud_1 PENDIENTE_JEFE 1000) 1
                  eq_refl (or_introl eq_refl) eq_refl eq_refl)).
  reflexivity.
Defined.

(* ================================================================== *)
(** * Atomicity and calls in flight *)
(* ================================================================== *)

Lemma procesarAprobacion_todo_o_nada (U : Umbrales) (d : Decision) (w w' : Mundo)
      (r : Excepcion + Transicion) :
  procesarAprobacion U d w = (r, w') ->
  match r with
  | inl _ => bd w' = bd w
  | inr t =>
      exists nivel a,
        de_accion d = texto a /\
        bd w' = tras_transicion (bd w) (de_solicitudId d) (estadoNuevo t) (de_usuarioId d)
                  (evento d nivel a (estadoNuevo t))
  end.
Proof.
  unfold procesarAprobacion, bind.
  destruct (procesarAprobacion_lectura d w) as [[e|s] w1] eqn:E1;
    apply procesarAprobacion_lectura_spec in E1; destruct E1 as [Hb1 _].
  { intro H. inversion H; subst. exact Hb1. }
  intro H. apply procesarAprobacion_transaccion_spec in H.
  destruct r as [e|t].
  - congruence.
  - destruct H as (_ & _ & nivel & a & _ & Ha & _ & Hb).
    exists nivel, a. split; [exact Ha|]. rewrite Hb, Hb1. reflexivity.
Qed.

(** C8. Whatever the plan of storage faults, a call of [enviarSolicitud] or
    [procesarAprobacion] that throws, for any reason, leaves the three tables
    as they were; a call that returns has both moved the request and appended
    one event. No outcome has one of the two writes without the other. *)
Theorem transicion_todo_o_nada :
  forall (U : Umbrales) (w w' : Mundo),
    (forall (i u : Z) (r : Excepcion + option Solicitud),
       enviarSolicitud i u w = (r, w') ->
       match r with
       | inl _ => bd w' = bd w
       | inr _ =>
           solicitudes_compra (bd w')
           = Repo.actualizar i PENDIENTE_JEFE u (solicitudes_compra (bd w)) /\
           aprobaciones_compra (bd w')
           = aprobaciones_compra (bd w) ++ [evento_envio i u] /\
           solicitud_compra_items (bd w') = solicitud_compra_items (bd w)
       end) /\
    (forall (d : Decision) (r : Excepcion + Transicion),
       procesarAprobacion U d w = (r, w') ->
       match r with
       | inl _ => bd w' = bd w
       | inr t =>
           solicitudes_compra (bd w')
           = Repo.actualizar (de_solicitudId d) (estadoNuevo t) (de_usuarioId d)
               (solicitudes_compra (bd w)) /\
           (exists ev,
              aprobaciones_compra (bd w') = aprobaciones_compra (bd w) ++ [ev] /\
              ac_solicitud_id ev = de_solicitudId d /\
              ac_estado_resultante ev = estadoNuevo t) /\
           solicitud_compra_items (bd w') = solicitud_compra_items (bd w)
       end).
Proof.
  intros U w w'. split.
  - intros i u r H. apply enviarSolicitud_todo_o_nada in H.
    destruct r as [e|upd]; [exact H|].
    rewrite H. repeat split.
  - intros d r H. apply procesarAprobacion_todo_o_nada in H.
    destruct r as [e|t]; [exact H|].
    destruct H as (nivel & a & _ & H). rewrite H.
    split; [reflexivity|]. split; [|reflexivity].
    eexists. repeat split.
Qed.

(** The statement that writes the event is refused after the UPDATE has
    been accepted: the call throws and the tables are those of before. *)
Lemma transicion_todo_o_nada_ejemplo :
  enviarSolicitud 1 7
    {| bd := bd_1 BORRADOR 1000; siguiente_id := 2;
       fallos := [false; false; false; true] |}
  = (inl (ErrorBD "la base de datos rechaza la consulta"),
     {| bd := bd_1 BORRADOR 1000; siguiente_id := 2; fallos := [] |}) /\
  bd {| bd := bd_1 BORRADOR 1000; siguiente_id := 2; fallos := [] |}
  = bd {| bd := bd_1 BORRADOR 1000; siguiente_id := 2;
          fallos := [false; false; false; true] |}.
Proof.
  split; [reflexivity|].
  apply (proj1 (transicion_todo_o_nada UMBRALES_POR_DEFECTO
                  {| bd := bd_1 BORRADOR 1000; siguiente_id := 2;
                     fallos := [false; false; false; true] |}
                  {| bd := bd_1 BORRADOR 1000; siguiente_id := 2; fallos := [] |})
               1%Z 7%Z (inl (ErrorBD "la base de datos rechaza la consulta"))).
  reflexivity.
Defined.

(** C9, as the code has it. Two approvals of the same request at
    PENDIENTE_JEFE, whose total reaches the area threshold, by roles allowed
    at that stage. Nothing ties the stage that was read to the stage that is
    written: when both calls have read before either writes, both return the
    transition to PENDIENTE_GERENCIA and the ledger gains two events. When
    the second call starts after the first has finished, it is judged at
    PENDIENTE_GERENCIA: it throws Forbidden when its role is not allowed
    there, and otherwise it advances the request once more and the ledger
    gains a second event; it never throws a validation error. *)
Theorem dos_aprobaciones_en_vuelo :
  forall (U : Umbrales) (d1 d2 : Decision) (b : BD) (n : Z) (s : Solicitud),
    de_solicitudId d2 = de_solicitudId d1 ->
    find (Repo.visible (de_solicitudId d1)) (solicitudes_compra b) = Some s ->
    sc_estado s = PENDIENTE_JEFE ->
    (JEFE_AREA U <= sc_monto_total s)%Q ->
    puedeAprobar (de_rol d1) PENDIENTE_JEFE = true ->
    puedeAprobar (de_rol d2) PENDIENTE_JEFE = true ->
    de_accion d1 = texto "aprobar" ->
    de_accion d2 = texto "aprobar" ->
    (exists b',
       lecturas_antes U d1 d2 (sin_fallos b n)
       = (inr {| solicitudId := de_solicitudId d1;
                 estadoAnterior := PENDIENTE_JEFE;
                 estadoNuevo := PENDIENTE_GERENCIA |},
          inr {| solicitudId := de_solicitudId d2;
                 estadoAnterior := PENDIENTE_JEFE;
                 estadoNuevo := PENDIENTE_GERENCIA |},
          sin_fallos b' n) /\
       aprobaciones_compra b'
       = aprobaciones_compra b ++
         [evento d1 1 "aprobar" PENDIENTE_GERENCIA;
          evento d2 1 "aprobar" PENDIENTE_GERENCIA]) /\
    (exists r2 b',
       una_tras_otra U d1 d2 (sin_fallos b n)
       = (inr {| solicitudId := de_solicitudId d1;
                 estadoAnterior := PENDIENTE_JEFE;
                 estadoNuevo := PENDIENTE_GERENCIA |},
          r2, sin_fallos b' n) /\
       (forall m, r2 <> inl (ValidationError m)) /\
       (puedeAprobar (de_rol d2) PENDIENTE_GERENCIA = false ->
          (exists m, r2 = inl (ForbiddenError m)) /\
          aprobaciones_compra b'
          = aprobaciones_compra b ++ [evento d1 1 "aprobar" PENDIENTE_GERENCIA]) /\
       (puedeAprobar (de_rol d2) PENDIENTE_GERENCIA = true ->
          exists e2,
            r2 = inr {| solicitudId := de_solicitudId d2;
                        estadoAnterior := PENDIENTE_GERENCIA;
                        estadoNuevo := e2 |} /\
            aprobaciones_compra b'
            = aprobaciones_compra b ++
              [evento d1 1 "aprobar" PENDIENTE_GERENCIA;
               evento d2 2 "aprobar" e2])).
Proof.
  intros U d1 d2 b n s Hid Hs He Hmonto Hrol1 Hrol2 Hacc1 Hacc2.
  apply mayor_igual_true in Hmonto.
  assert (Hsig : siguienteEstado U PENDIENTE_JEFE (sc_monto_total s)
                 = Some PENDIENTE_GERENCIA).
  { rewrite (proj1 (siguienteEstado_en_el_flujo U (sc_monto_total s))), Hmonto.
    reflexivity. }
  assert (Hres1 : estado_resultante U d1 s = Some PENDIENTE_GERENCIA).
  { unfold estado_resultante. rewrite Hacc1, He. exact Hsig. }
  assert (Hres2 : estado_resultante U d2 s = Some PENDIENTE_GERENCIA).
  { unfold estado_resultante. rewrite Hacc2, He. exact Hsig. }
  assert (Hniv : nivelMap (sc_estado s) = Some 1%Z) by (rewrite He; reflexivity).
  assert (Hl1 : procesarAprobacion_lectura d1 (sin_fallos b n) = (inr s, sin_fallos b n)).
  { rewrite lectura_sin_fallos, Hs, He, Hrol1. reflexivity. }
  assert (Hl2 : procesarAprobacion_lectura d2 (sin_fallos b n) = (inr s, sin_fallos b n)).
  { rewrite lectura_sin_fallos, Hid, Hs, He, Hrol2. reflexivity. }
  assert (Ht1 : forall b0,
            procesarAprobacion_transaccion U d1 s (sin_fallos b0 n)
            = (inr {| solicitudId := de_solicitudId d1;
                      estadoAnterior := PENDIENTE_JEFE;
                      estadoNuevo := PENDIENTE_GERENCIA |},
               sin_fallos (tras_transicion b0 (de_solicitudId d1) PENDIENTE_GERENCIA
                             (de_usuarioId d1)
                             (evento d1 1 "aprobar" PENDIENTE_GERENCIA)) n)).
  { intro b0.
    rewrite (transaccion_sin_fallos U d1 s b0 n PENDIENTE_GERENCIA 1 Hres1 Hniv).
    rewrite Hacc1, He. reflexivity. }
  split.
  - eexists. split.
    + unfold lecturas_antes. rewrite Hl1, Hl2. cbn [continuar].
      rewrite Ht1.
      rewrite (transaccion_sin_fallos U d2 s _ n PENDIENTE_GERENCIA 1 Hres2 Hniv).
      rewrite Hacc2, He. reflexivity.
    + unfold tras_transicion. cbn [aprobaciones_compra].
      rewrite <- app_assoc. reflexivity.
  - unfold una_tras_otra.
    assert (Hp1 : procesarAprobacion U d1 (sin_fallos b n)
                  = (inr {| solicitudId := de_solicitudId d1;
                            estadoAnterior := PENDIENTE_JEFE;
                            estadoNuevo := PENDIENTE_GERENCIA |},
                     sin_fallos (tras_transicion b (de_solicitudId d1) PENDIENTE_GERENCIA
                                   (de_usuarioId d1)
                                   (evento d1 1 "aprobar" PENDIENTE_GERENCIA)) n)).
    { unfold procesarAprobacion, bind. rewrite Hl1. apply Ht1. }
    rewrite Hp1.
    set (b1 := tras_transicion b (de_solicitudId d1) PENDIENTE_GERENCIA
                 (de_usuarioId d1) (evento d1 1 "aprobar" PENDIENTE_GERENCIA)).
    set (s1 := Repo.poner_estado PENDIENTE_GERENCIA (de_usuarioId d1) s).
    assert (Hs1 : find (Repo.visible (de_solicitudId d2)) (solicitudes_compra b1)
                  = Some s1).
    { unfold b1, tras_transicion. cbn [solicitudes_compra].
      rewrite Hid, find_visible_actualizar, Hs. reflexivity. }
    destruct (puedeAprobar (de_rol d2) PENDIENTE_GERENCIA) eqn:Hg.
    + assert (Hres : exists e2, estado_resultante U d2 s1 = Some e2).
      { unfold estado_resultante. rewrite Hacc2. cbn [es_rechazar].
        change ("aprobar" =? "rechazar")%string with false. cbv iota.
        apply siguienteEstado_aprobable. simpl. auto. }
      destruct Hres as [e2 Hres].
      rewrite (procesarAprobacion_sin_fallos U d2 b1 n s1 e2 2 Hs1);
        try assumption; try (simpl; auto; fail).
      rewrite Hacc2. change (Repo.accion_admitida "aprobar") with true. cbv iota.
      eexists. eexists. split; [reflexivity|].
      split; [intros m Hm; discriminate|].
      split; [intro Hf; discriminate|].
      intros _. exists e2. split; [reflexivity|].
      unfold b1, tras_transicion. cbn [aprobaciones_compra].
      rewrite <- app_assoc. reflexivity.
    + unfold procesarAprobacion at 1, bind.
      rewrite lectura_sin_fallos, Hs1.
      change (sc_estado s1) with PENDIENTE_GERENCIA. rewrite Hg.
      cbn [negb existsb estadosAprobables Estado_eqb orb].
      eexists. eexists. split; [reflexivity|].
      split; [intros m Hm; discriminate|].
      split; [|intro Hf; discriminate].
      intros _. split; [eexists; reflexivity|]. reflexivity.
Qed.

(** Two approvals of request 1 (10 000 000, at PENDIENTE_JEFE) under the
    default thresholds. With both reads first, both calls return the
    transition to PENDIENTE_GERENCIA and the ledger holds two new events,
    one per approver. One after the other, by two area leads, the second is
    refused as Forbidden, not as a validation error. *)
Lemma doble_aprobacion :
  lecturas_antes UMBRALES_POR_DEFECTO
    (decision_1 (texto "aprobar") indefinido 9 "jefe_area")
    (decision_1 (texto "aprobar") indefinido 10 "gerente")
    (sin_fallos (bd_1 PENDIENTE_JEFE 10000000) 2)
  = (inr {| solicitudId := 1;
            estadoAnterior := PENDIENTE_JEFE;
            estadoNuevo := PENDIENTE_GERENCIA |},
     inr {| solicitudId := 1;
            estadoAnterior := PENDIENTE_JEFE;
            estadoNuevo := PENDIENTE_GERENCIA |},
     sin_fallos
       {| solicitudes_compra :=
            [Repo.poner_estado PENDIENTE_GERENCIA 10
               (solicitud_1 PENDIENTE_JEFE 10000000)];
          solicitud_compra_items := [];
          aprobaciones_compra :=
            [evento (decision_1 (texto "aprobar") indefinido 9 "jefe_area")
                    1 "aprobar" PENDIENTE_GERENCIA;
             evento (decision_1 (texto "aprobar") indefinido 10 "gerente")
                    1 "aprobar" PENDIENTE_GERENCIA] |} 2) /\
  snd (fst (una_tras_otra UMBRALES_POR_DEFECTO
              (decision_1 (texto "aprobar") indefinido 9 "jefe_area")
              (decision_1 (texto "aprobar") indefinido 10 "jefe_area")
              (sin_fallos (bd_1 PENDIENTE_JEFE 10000000) 2)))
  = inl (ForbiddenError
           "El rol 'jefe_area' no puede aprobar en el nivel actual: pendiente_gerencia").
Proof. split; reflexivity. Qed.

Lemma dos_aprobaciones_en_vuelo_ejemplo :
  (exists b',
     lecturas_antes UMBRALES_POR_DEFECTO
       (decision_1 (texto "aprobar") indefinido 9 "admin")
       (decision_1 (texto "aprobar") indefinido 10 "admin")
       (sin_fallos (bd_1 PENDIENTE_JEFE 10000000) 2)
     = (inr {| solicitudId := 1;
               estadoAnterior := PENDIENTE_JEFE;
               estadoNuevo := PENDIENTE_GERENCIA |},
        inr {| solicitudId := 1;
               estadoAnterior := PENDIENTE_JEFE;
               estadoNuevo := PENDIENTE_GERENCIA |},
        sin_fallos b' 2) /\
     aprobaciones_compra b'
     = [] ++
       [evento (decision_1 (texto "aprobar") indefinido 9 "admin")
               1 "aprobar" PENDIENTE_GERENCIA;
        evento (decision_1 (texto "aprobar") indefinido 10 "admin")
               1 "aprobar" PENDIENTE_GERENCIA]).
Proof.
  apply (proj1 (dos_aprobaciones_en_vuelo UMBRALES_POR_DEFECTO
                  (decision_1 (texto "aprobar") indefinido 9 "admin")
                  (decision_1 (texto "aprobar") indefinido 10 "admin")
                  (bd_1 PENDIENTE_JEFE 10000000) 2
                  (solicitud_1 PENDIENTE_JEFE 10000000)
                  eq_refl eq_refl eq_refl
                  ltac:(vm_compute; discriminate)
                  eq_refl eq_refl eq_refl eq_refl)).
Defined.

(* ================================================================== *)
(** * Creation *)
(* ================================================================== *)

Lemma crearItemsSolicitud_rechaza (i : Z) (its : list Repo.DatosItem) (w w' : Mundo)
      (r : Excepcion + list Item) :
  Repo.crearItemsSolicitud i its w = (r, w') -> exists det, r = inl (ErrorBD det).
Proof.
  unfold Repo.crearItemsSolicitud, query.
  destruct (fallos w) as [|[|] plan]; destruct its; intro H; inversion H;
    eexists; reflexivity.
Qed.

Lemma crearSolicitud_fila_error (N : Numeros) (datos : Repo.DatosSolicitud) (u : Z)
      (monto : Q) (w w' : Mundo) (e : Excepcion) :
  Repo.crearSolicitud N datos u monto w = (inl e, w') -> exists det, e = ErrorBD det.
Proof.
  intro H. apply query_error_forma in H.
  destruct H as [H | (w0 & _ & _ & H)]; [exact H|].
  cbv beta zeta in H.
  destruct (numeric_16_2 N monto) as [m|]; [|inversion H; eexists; reflexivity].
  destruct (mayor_igual m 0); inversion H. eexists; reflexivity.
Qed.

(** The callback of [crearSolicitud] never returns. *)
Lemma crearSolicitud_callback (N : Numeros) (datos : Repo.DatosSolicitud) (u : Z)
      (w w' : Mundo) (r : Excepcion + SolicitudCreada) :
  bind (Repo.crearSolicitud N datos u (montoTotal N (Repo.items datos)))
       (fun solicitud =>
          bind (Repo.crearItemsSolicitud (sc_id solicitud) (Repo.items datos))
               (fun items => ret {| solicitud := solicitud; items_creados := items |}))
       w = (r, w') ->
  exists det, r = inl (ErrorBD det).
Proof.
  unfold bind.
  destruct (Repo.crearSolicitud N datos u (montoTotal N (Repo.items datos)) w)
    as [[e|sol] wa] eqn:Ea.
  - intro H. inversion H; subst.
    destruct (crearSolicitud_fila_error _ _ _ _ _ _ _ Ea) as [det ->].
    eexists; reflexivity.
  - destruct (Repo.crearItemsSolicitud (sc_id sol) (Repo.items datos) wa)
      as [ri wb] eqn:Eb.
    destruct (crearItemsSolicitud_rechaza _ _ _ _ _ Eb) as [det ->].
    intro H. inversion H. eexists; reflexivity.
Qed.

Lemma crearSolicitud_siempre_error (N : Numeros) (datos : Repo.DatosSolicitud)
      (u : Z) (w : Mundo) :
  exists det,
    fst (crearSolicitud N datos u w) = inl (ErrorBD det) /\
    bd (snd (crearSolicitud N datos u w)) = bd w.
Proof.
  destruct (crearSolicitud N datos u w) as [[e|res] w'] eqn:E; cbn [fst snd].
  - unfold crearSolicitud in E.
    pose proof (withTransaction_error _ _ _ _ E) as Hbd.
    apply withTransaction_error_forma in E.
    destruct E as [[det ->] | (w0 & w1 & _ & _ & Hcb)];
      [eexists; split; [reflexivity | exact Hbd]|].
    destruct (crearSolicitud_callback _ _ _ _ _ _ Hcb) as [det Hdet].
    inversion Hdet; subst. eexists; split; [reflexivity | exact Hbd].
  - unfold crearSolicitud in E. apply withTransaction_exito in E.
    destruct E as (w0 & w1 & _ & Hcb & _).
    destruct (crearSolicitud_callback _ _ _ _ _ _ Hcb) as [det Hdet].
    discriminate Hdet.
Qed.

(** C7, as the code has it. [crearSolicitud] creates no request. Whatever
    the body, the arithmetic of the engine and the plan of storage faults,
    the call throws an error of the data base and the three tables are as
    before: the INSERT into [solicitud_compra_items] gives a value for
    [subtotal], which the table generates, so the row of the request, when
    it had been inserted, is rolled back. For a body with at least one item
    and a total that the column admits and that is not negative, where the
    store refuses nothing else, the error is the refusal of that value,
    and the serial key has advanced. No stored total is ever derived from
    the items of a body. *)
Theorem crearSolicitud_no_crea :
  forall (N : Numeros) (datos : Repo.DatosSolicitud) (u : Z),
    (forall w,
       exists det,
         fst (crearSolicitud N datos u w) = inl (ErrorBD det) /\
         bd (snd (crearSolicitud N datos u w)) = bd w) /\
    (forall b n monto,
       Repo.items datos <> [] ->
       numeric_16_2 N (montoTotal N (Repo.items datos)) = Some monto ->
       (0 <= monto)%Q ->
       crearSolicitud N datos u (sin_fallos b n)
       = (inl (ErrorBD "solicitud_compra_items: subtotal es una columna generada"),
          sin_fallos b (n + 1))).
Proof.
  intros N datos u. split.
  - intro w. apply crearSolicitud_siempre_error.
  - intros b n monto Hne Hnum Hpos.
    unfold crearSolicitud, withTransaction, bind, Repo.crearSolicitud,
      Repo.crearItemsSolicitud, query, ret.
    cbn [sin_fallos fallos bd siguiente_id con_bd].
    rewrite Hnum. apply mayor_igual_true in Hpos. rewrite Hpos.
    cbn [fallos bd siguiente_id con_bd sc_id].
    destruct (Repo.items datos); [congruence | reflexivity].
Qed.

Lemma crearSolicitud_no_crea_ejemplo :
  crearSolicitud numeros_exactos datos_2_items 7 (sin_fallos (bd_1 BORRADOR 1000) 2)
  = (inl (ErrorBD "solicitud_compra_items: subtotal es una columna generada"),
     sin_fallos (bd_1 BORRADOR 1000) (2 + 1)).
Proof.
  apply (proj2 (crearSolicitud_no_crea numeros_exactos datos_2_items 7)
               (bd_1 BORRADOR 1000) 2%Z
               (montoTotal numeros_exactos (Repo.items datos_2_items))).
  - discriminate.
  - reflexivity.
  - vm_compute. discriminate.
Defined.

(* ================================================================== *)
(** * Scenarios *)
(* ================================================================== *)

(** A role outside the table of the stage is refused whatever the action. *)
Lemma rol_no_autorizado (U : Umbrales) (d : Decision) (b : BD) (n : Z) (s : Solicitud) :
  find (Repo.visible (de_solicitudId d)) (solicitudes_compra b) = Some s ->
  In (sc_estado s) estadosAprobables ->
  puedeAprobar (de_rol d) (sc_estado s) = false ->
  exists m, procesarAprobacion U d (sin_fallos b n) = (inl (ForbiddenError m), sin_fallos b n).
Proof.
  intros Hs Hin Hrol. unfold procesarAprobacion, bind.
  rewrite lectura_sin_fallos, Hs.
  apply aprobable_In in Hin. rewrite Hin, Hrol. cbn [negb].
  eexists. reflexivity.
Qed.

(** A total of 4 000 000: one approval by the area lead completes the
    chain, and the ledger holds the submission and the approval. *)
Example escenario_A :
  let w1 := snd (enviarSolicitud 1 7 (sin_fallos (bd_1 BORRADOR 4000000) 2)) in
  let w2 := snd (procesarAprobacion UMBRALES_POR_DEFECTO
                   (decision_1 (texto "aprobar") indefinido 9 "jefe_area") w1) in
  calcularFlujoAprobacion UMBRALES_POR_DEFECTO 4000000 = [PENDIENTE_JEFE; APROBADA] /\
  map sc_estado (solicitudes_compra (bd w1)) = [PENDIENTE_JEFE] /\
  map sc_estado (solicitudes_compra (bd w2)) = [APROBADA] /\
  map ac_accion (aprobaciones_compra (bd w2)) = ["envio"; "aprobar"]%string.
Proof. repeat split; reflexivity. Qed.

(** A total of 25 000 000: three approvals in a row, and a manager refused
    at the treasury stage. *)
Example escenario_B :
  let U := UMBRALES_POR_DEFECTO in
  let w1 := snd (procesarAprobacion U
                   (decision_1 (texto "aprobar") indefinido 9 "jefe_area")
                   (sin_fallos (bd_1 PENDIENTE_JEFE 25000000) 2)) in
  let w2 := snd (procesarAprobacion U
                   (decision_1 (texto "aprobar") indefinido 10 "gerente") w1) in
  let w3 := snd (procesarAprobacion U
                   (decision_1 (texto "aprobar") indefinido 11 "tesorero") w2) in
  map sc_estado (solicitudes_compra (bd w1)) = [PENDIENTE_GERENCIA] /\
  map sc_estado (solicitudes_compra (bd w2)) = [PENDIENTE_TESORERIA] /\
  map sc_estado (solicitudes_compra (bd w3)) = [APROBADA] /\
  map ac_nivel_aprobacion (aprobaciones_compra (bd w3)) = [1; 2; 3]%Z /\
  fst (procesarAprobacion U (decision_1 (texto "aprobar") indefinido 10 "gerente") w2)
  = inl (ForbiddenError
           "El rol 'gerente' no puede aprobar en el nivel actual: pendiente_tesoreria").
Proof. repeat split; reflexivity. Qed.

(** A rejection at the executive stage, after which the request cannot be
    acted on. *)
Example escenario_C :
  let U := UMBRALES_POR_DEFECTO in
  let w1 := snd (procesarAprobacion U
                   (decision_1 (texto "rechazar") (texto "budget exceeded") 10 "gerente")
                   (sin_fallos (bd_1 PENDIENTE_GERENCIA 10000000) 2)) in
  map sc_estado (solicitudes_compra (bd w1)) = [RECHAZADA] /\
  fst (procesarAprobacion U (decision_1 (texto "aprobar") indefinido 10 "gerente") w1)
  = inl (ValidationError "No se puede procesar una solicitud en estado: rechazada").
Proof. repeat split; reflexivity. Qed.

(* ================================================================== *)
(** * More on the stage path *)
(* ================================================================== *)

(** X1. [siguienteEstado] walks the path: for a stage at position [i] of the
    path computed for the amount, it returns the entry at position [i + 1],
    and null when [i] is the last position. *)
Theorem siguienteEstado_recorre_el_flujo :
  forall (U : Umbrales) (a : Q) (i : nat) (s : Estado),
    nth_error (calcularFlujoAprobacion U a) i = Some s ->
    siguienteEstado U s a = nth_error (calcularFlujoAprobacion U a) (S i).
Proof.
  intros U a i s H. unfold siguienteEstado.
  por_forma U a;
    (destruct i as [|[|[|[|i]]]]; simpl in H; try discriminate;
     try (injection H as <-; reflexivity);
     destruct i; discriminate).
Qed.

Lemma siguienteEstado_recorre_el_flujo_25M :
  siguienteEstado UMBRALES_POR_DEFECTO PENDIENTE_GERENCIA 25000000
  = Some PENDIENTE_TESORERIA /\
  siguienteEstado UMBRALES_POR_DEFECTO APROBADA 25000000 = None.
Proof.
  split.
  - apply (siguienteEstado_recorre_el_flujo UMBRALES_POR_DEFECTO 25000000 1
             PENDIENTE_GERENCIA eq_refl).
  - apply (siguienteEstado_recorre_el_flujo UMBRALES_POR_DEFECTO 25000000 3
             APROBADA eq_refl).
Defined.

(** X2. Whatever the two thresholds, a larger amount never needs fewer
    stages: the path of the smaller amount is the path of the larger one
    with some stages left out. *)
Theorem calcularFlujoAprobacion_crece_con_el_monto :
  forall (U : Umbrales) (a b : Q),
    (a <= b)%Q ->
    sublista (calcularFlujoAprobacion U a) (calcularFlujoAprobacion U b).
Proof.
  intros U a b Hab.
  rewrite (calcularFlujoAprobacion_formas U a), (calcularFlujoAprobacion_formas U b).
  destruct (mayor_igual a (JEFE_AREA U)) eqn:Ea1, (mayor_igual a (GERENCIA U)) eqn:Ea2,
           (mayor_igual b (JEFE_AREA U)) eqn:Eb1, (mayor_igual b (GERENCIA U)) eqn:Eb2;
    try (repeat constructor; fail);
    exfalso;
    repeat match goal with
           | H : mayor_igual _ _ = true |- _ => apply mayor_igual_true in H
           | H : mayor_igual _ _ = false |- _ => apply mayor_igual_false in H
           end; lra.
Qed.

Lemma calcularFlujoAprobacion_crece_con_el_monto_ejemplo :
  sublista [PENDIENTE_JEFE; APROBADA]
           [PENDIENTE_JEFE; PENDIENTE_GERENCIA; PENDIENTE_TESORERIA; APROBADA].
Proof.
  apply (calcularFlujoAprobacion_crece_con_el_monto UMBRALES_POR_DEFECTO
           4000000 25000000).
  vm_compute. discriminate.
Defined.

(* ================================================================== *)
(** * More on approval *)
(* ================================================================== *)

(** X3. The guards of [procesarAprobacion], in their order and whatever the
    action and the comment: when no live row has the key, NotFound for a key
    of the table's type (INTEGER) and an error of the data base for a key
    beyond it; otherwise Validation, naming the stage, when the stage is
    none of the three pending ones; otherwise Forbidden when the role is not
    allowed at the stage. In each case nothing is written. *)
Theorem procesarAprobacion_guardas :
  forall (U : Umbrales) (d : Decision) (b : BD) (n : Z),
    (find (Repo.visible (de_solicitudId d)) (solicitudes_compra b) = None ->
       (es_integer (de_solicitudId d) = true ->
          procesarAprobacion U d (sin_fallos b n)
          = (inl (NotFoundError "Solicitud de compra"), sin_fallos b n)) /\
       (es_integer (de_solicitudId d) = false ->
          exists m, procesarAprobacion U d (sin_fallos b n)
                    = (inl (ErrorBD m), sin_fallos b n))) /\
    (forall s,
       find (Repo.visible (de_solicitudId d)) (solicitudes_compra b) = Some s ->
       (In (sc_estado s)
           [BORRADOR; APROBADA; RECHAZADA; ANULADA; EN_PROCESO; COMPLETADA] ->
          procesarAprobacion U d (sin_fallos b n)
          = (inl (ValidationError
                    ("No se puede procesar una solicitud en estado: "
                       ++ ESTADOS_COMPRA (sc_estado s))),
             sin_fallos b n)) /\
       (In (sc_estado s) estadosAprobables ->
        puedeAprobar (de_rol d) (sc_estado s) = false ->
          procesarAprobacion U d (sin_fallos b n)
          = (inl (ForbiddenError
                    ("El rol '" ++ de_rol d
                       ++ "' no puede aprobar en el nivel actual: "
                       ++ ESTADOS_COMPRA (sc_estado s))),
             sin_fallos b n))).
Proof.
  intros U d b n. split; [|intros s Hs; split].
  - intro H. split; intro Hr; unfold procesarAprobacion, bind;
      rewrite lectura_sin_fallos, H, Hr; [reflexivity | eexists; reflexivity].
  - intro Hin. unfold procesarAprobacion, bind.
    rewrite lectura_sin_fallos, Hs.
    simpl in Hin.
    destruct Hin as [<- | [<- | [<- | [<- | [<- | [<- | []]]]]]]; reflexivity.
  - intros Hin Hrol. unfold procesarAprobacion, bind.
    rewrite lectura_sin_fallos, Hs.
    apply aprobable_In in Hin. rewrite Hin, Hrol. reflexivity.
Qed.

(** X4. An approval at a pending stage that is on the path computed for the
    stored total moves the request to the entry that follows it on the
    path: the stage stored for the request is that entry, so that no stage
    of the path is skipped and none is gone back to. The event carries the
    level of the stage that was left. *)
Theorem aprobar_sigue_el_flujo :
  forall (U : Umbrales) (d : Decision) (b : BD) (n : Z) (s : Solicitud) (i : nat),
    find (Repo.visible (de_solicitudId d)) (solicitudes_compra b) = Some s ->
    In (sc_estado s) estadosAprobables ->
    nth_error (calcularFlujoAprobacion U (sc_monto_total s)) i = Some (sc_estado s) ->
    puedeAprobar (de_rol d) (sc_estado s) = true ->
    de_accion d = texto "aprobar" ->
    exists e' nivel b',
      nth_error (calcularFlujoAprobacion U (sc_monto_total s)) (S i) = Some e' /\
      nivelMap (sc_estado s) = Some nivel /\
      procesarAprobacion U d (sin_fallos b n)
      = (inr {| solicitudId := de_solicitudId d;
                estadoAnterior := sc_estado s;
                estadoNuevo := e' |},
         sin_fallos b' n) /\
      estado_almacenado (de_solicitudId d) b' = Some e' /\
      b' = tras_transicion b (de_solicitudId d) e' (de_usuarioId d)
             {| ac_solicitud_id := de_solicitudId d;
                ac_nivel_aprobacion := nivel;
                ac_accion := "aprobar";
                ac_comentario := Repo.parametro (de_comentario d);
                ac_aprobador_id := de_usuarioId d;
                ac_estado_resultante := e' |}.
Proof.
  intros U d b n s i Hs Hin Hi Hrol Hacc.
  destruct (nivelMap_aprobable _ Hin) as [nivel Hniv].
  assert (Hsig : exists e',
            nth_error (calcularFlujoAprobacion U (sc_monto_total s)) (S i) = Some e' /\
            siguienteEstado U (sc_estado s) (sc_monto_total s) = Some e').
  { unfold siguienteEstado. simpl in Hin.
    por_forma U (sc_monto_total s);
      (destruct i as [|[|[|[|i]]]]; simpl in Hi; try discriminate;
       try (injection Hi as Hi; rewrite <- Hi in *; simpl;
            first [ eexists; split; reflexivity
                  | exfalso; destruct Hin as [H | [H | [H | []]]]; discriminate ]);
       destruct i; discriminate). }
  destruct Hsig as (e' & Hnth & Hsig).
  exists e', nivel. eexists. split; [exact Hnth|]. split; [exact Hniv|].
  split; [|split; [|reflexivity]].
  - rewrite (procesarAprobacion_sin_fallos U d b n s e' nivel Hs Hin Hrol); [|
      unfold estado_resultante; rewrite Hacc; exact Hsig | exact Hniv].
    rewrite Hacc. reflexivity.
  - unfold estado_almacenado, tras_transicion. cbn [solicitudes_compra].
    rewrite find_visible_actualizar, Hs. reflexivity.
Qed.

Lemma aprobar_sigue_el_flujo_ejemplo :
  exists e' nivel b',
    nth_error (calcularFlujoAprobacion UMBRALES_POR_DEFECTO 25000000) 2 = Some e' /\
    nivelMap PENDIENTE_GERENCIA = Some nivel /\
    procesarAprobacion UMBRALES_POR_DEFECTO
      (decision_1 (texto "aprobar") indefinido 10 "gerente")
      (sin_fallos (bd_1 PENDIENTE_GERENCIA 25000000) 2)
    = (inr {| solicitudId := 1;
              estadoAnterior := PENDIENTE_GERENCIA;
              estadoNuevo := e' |},
       sin_fallos b' 2) /\
    estado_almacenado 1 b' = Some e' /\
    b' = tras_transicion (bd_1 PENDIENTE_GERENCIA 25000000) 1 e' 10
           {| ac_solicitud_id := 1;
              ac_nivel_aprobacion := nivel;
              ac_accion := "aprobar";
              ac_comentario := None;
              ac_aprobador_id := 10;
              ac_estado_resultante := e' |}.
Proof.
  apply (aprobar_sigue_el_flujo UMBRALES_POR_DEFECTO
           (decision_1 (texto "aprobar") indefinido 10 "gerente")
           (bd_1 PENDIENTE_GERENCIA 25000000) 2
           (solicitud_1 PENDIENTE_GERENCIA 25000000) 1 eq_refl);
    try reflexivity.
  simpl. auto.
Defined.

(* ================================================================== *)
(** * What a call can throw and what it leaves of the sequence *)
(* ================================================================== *)

Lemma no_retrocede_ret {A : Type} (a : A) : no_retrocede (ret a).
Proof. intros w r w' H. inversion H. lia. Qed.

Lemma no_retrocede_throw {A : Type} (e : Excepcion) : no_retrocede (@throw A e).
Proof. intros w r w' H. inversion H. lia. Qed.

Lemma no_retrocede_bind {A B : Type} (m : Async A) (k : A -> Async B) :
  no_retrocede m -> (forall a, no_retrocede (k a)) -> no_retrocede (bind m k).
Proof.
  intros Hm Hk w r w'. unfold bind.
  destruct (m w) as [[e|a] w1] eqn:E; intro H.
  - inversion H; subst. exact (Hm _ _ _ E).
  - specialize (Hm _ _ _ E). specialize (Hk a _ _ _ H). lia.
Qed.

Lemma no_retrocede_query {A : Type} (sql : Async A) :
  no_retrocede sql -> no_retrocede (query sql).
Proof.
  intros Hs w r w'. unfold query.
  destruct (fallos w) as [|[|] plan]; intro H.
  - exact (Hs _ _ _ H).
  - inversion H. simpl. lia.
  - specialize (Hs _ _ _ H). simpl in Hs. exact Hs.
Qed.

Lemma no_retrocede_withTransaction {A : Type} (cb : Async A) :
  no_retrocede cb -> no_retrocede (withTransaction cb).
Proof.
  intros Hcb w r w'. unfold withTransaction.
  match goal with
  | |- context [bind ?m ?k w] =>
      assert (Hm : no_retrocede (bind m k));
        [| destruct (bind m k w) as [[e|a] w1] eqn:E ]
  end.
  - apply no_retrocede_bind; [apply no_retrocede_query, no_retrocede_ret|].
    intros _. apply no_retrocede_bind; [exact Hcb|].
    intro a. apply no_retrocede_bind; [apply no_retrocede_query, no_retrocede_ret|].
    intros _. apply no_retrocede_ret.
  - intro H. inversion H; subst. specialize (Hm _ _ _ E). simpl. exact Hm.
  - intro H. inversion H; subst. exact (Hm _ _ _ E).
Qed.

Lemma no_retrocede_obtenerSolicitudCompleta (i : Z) :
  no_retrocede (Repo.obtenerSolicitudCompleta i).
Proof.
  apply no_retrocede_query. intros w r w'.
  destruct (find _ _); [|destruct (es_integer i)]; intro H; inversion H; lia.
Qed.

Lemma no_retrocede_actualizarEstadoSolicitud (i : Z) (e : Estado) (u : Z) :
  no_retrocede (Repo.actualizarEstadoSolicitud i e u).
Proof.
  apply no_retrocede_query. intros w r w' H. inversion H. simpl. lia.
Qed.

Lemma no_retrocede_registrarAprobacion (d : Repo.DatosAprobacion) :
  no_retrocede (Repo.registrarAprobacion d).
Proof.
  apply no_retrocede_query. intros w r w'.
  destruct (Repo.da_nivel d), (Repo.parametro (Repo.da_accion d)) as [a|];
    try (intro H; inversion H; lia).
  destruct (Repo.accion_admitida a); intro H; inversion H; simpl; lia.
Qed.

Lemma no_retrocede_enviarSolicitud (i u : Z) : no_retrocede (enviarSolicitud i u).
Proof.
  unfold enviarSolicitud.
  apply no_retrocede_bind; [apply no_retrocede_obtenerSolicitudCompleta|].
  intros [c|]; [|apply no_retrocede_throw].
  destruct (negb _); [apply no_retrocede_throw|].
  destruct (negb _); [apply no_retrocede_throw|].
  apply no_retrocede_withTransaction.
  apply no_retrocede_bind; [apply no_retrocede_actualizarEstadoSolicitud|].
  intro upd. apply no_retrocede_bind; [apply no_retrocede_registrarAprobacion|].
  intros _. apply no_retrocede_ret.
Qed.

Lemma no_retrocede_procesarAprobacion (U : Umbrales) (d : Decision) :
  no_retrocede (procesarAprobacion U d).
Proof.
  unfold procesarAprobacion, procesarAprobacion_lectura, procesarAprobacion_transaccion.
  apply no_retrocede_bind.
  - apply no_retrocede_bind; [apply no_retrocede_obtenerSolicitudCompleta|].
    intros [c|]; [|apply no_retrocede_throw].
    destruct (negb _); [apply no_retrocede_throw|].
    destruct (negb _); [apply no_retrocede_throw | apply no_retrocede_ret].
  - intro s. apply no_retrocede_withTransaction.
    apply no_retrocede_bind.
    + destruct (es_rechazar _); [apply no_retrocede_ret|].
      destruct (siguienteEstado _ _ _);
        [apply no_retrocede_ret | apply no_retrocede_throw].
    + intro e'. apply no_retrocede_bind;
        [apply no_retrocede_actualizarEstadoSolicitud|].
      intros _. apply no_retrocede_bind; [apply no_retrocede_registrarAprobacion|].
      intros _. apply no_retrocede_ret.
Qed.

Lemma no_retrocede_crearSolicitud (N : Numeros) (datos : Repo.DatosSolicitud) (u : Z) :
  no_retrocede (crearSolicitud N datos u).
Proof.
  unfold crearSolicitud. apply no_retrocede_withTransaction.
  apply no_retrocede_bind.
  - apply no_retrocede_query. intros w r w'. cbv zeta.
    destruct (numeric_16_2 N _) as [m|]; [|intro H; inversion H; simpl; lia].
    destruct (mayor_igual m 0); intro H; inversion H; simpl; lia.
  - intro sol. apply no_retrocede_bind; [|intros its; apply no_retrocede_ret].
    apply no_retrocede_query. intros w r w'.
    destruct (Repo.items datos); intro H; inversion H; lia.
Qed.

Lemma lectura_errores (d : Decision) (w w' : Mundo) (e : Excepcion) :
  procesarAprobacion_lectura d w = (inl e, w') -> error_de_aprobacion e = true.
Proof.
  unfold procesarAprobacion_lectura, bind.
  destruct (Repo.obtenerSolicitudCompleta (de_solicitudId d) w) as [[e0|c] w1] eqn:E.
  - intro H. inversion H; subst.
    apply query_error_forma in E. destruct E as [[det ->] | (v & _ & _ & E)];
      [reflexivity|].
    cbv beta in E. destruct (find _ _); [discriminate|].
    destruct (es_integer (de_solicitudId d)); inversion E. reflexivity.
  - destruct c as [c|]; [|intro H; inversion H; reflexivity].
    destruct (existsb (Estado_eqb (sc_estado (Repo.fila c))) estadosAprobables) eqn:Eap;
      cbn [negb].
    + destruct (negb _); intro H; inversion H; reflexivity.
    + intro H. inversion H; subst.
      destruct (sc_estado (Repo.fila c)); try discriminate; reflexivity.
Qed.

Lemma transaccion_errores (U : Umbrales) (d : Decision) (s : Solicitud)
      (w w' : Mundo) (e : Excepcion) :
  In (sc_estado s) estadosAprobables ->
  procesarAprobacion_transaccion U d s w = (inl e, w') ->
  exists det, e = ErrorBD det.
Proof.
  intros Hin H. unfold procesarAprobacion_transaccion in H.
  apply withTransaction_error_forma in H.
  destruct H as [H | (w0 & w1 & _ & _ & H)]; [exact H|].
  unfold bind in H.
  destruct (siguienteEstado_aprobable U (sc_estado s) (sc_monto_total s) Hin)
    as [sig Hsig].
  rewrite Hsig in H.
  assert (Hrun : exists e',
            (if es_rechazar (de_accion d) then ret RECHAZADA else ret sig) w0
            = (inr e', w0)).
  { destruct (es_rechazar (de_accion d)); eexists; reflexivity. }
  destruct Hrun as [e' Hrun]. rewrite Hrun in H.
  destruct (Repo.actualizarEstadoSolicitud (de_solicitudId d) e' (de_usuarioId d) w0)
    as [[e1|upd] wa] eqn:Ea.
  - inversion H; subst.
    apply query_error_forma in Ea. destruct Ea as [Ea | (v & _ & _ & Ea)];
      [exact Ea | discriminate].
  - match type of H with
    | context [Repo.registrarAprobacion ?x wa] =>
        destruct (Repo.registrarAprobacion x wa) as [[e2|[]] wb] eqn:Er
    end; [|discriminate].
    inversion H; subst.
    apply query_error_forma in Er. destruct Er as [Er | (v & _ & _ & Er)];
      [exact Er|].
    cbn [Repo.da_nivel Repo.da_accion] in Er.
    destruct (nivelMap (sc_estado s)), (Repo.parametro (de_accion d)) as [a|];
      try (inversion Er; eexists; reflexivity).
    destruct (Repo.accion_admitida a); inversion Er. eexists; reflexivity.
Qed.

(** X5. Whatever the plan of storage faults, [procesarAprobacion] throws
    only the NotFound of the request, the Validation that names a stage
    which is not pending, a Forbidden, or an error of the data base. The
    error 'No hay siguiente estado en el flujo' of its transaction is not
    among them: there is no world in which it is thrown. *)
Theorem errores_de_procesarAprobacion :
  forall (U : Umbrales) (d : Decision) (w : Mundo),
    match fst (procesarAprobacion U d w) with
    | inl e => error_de_aprobacion e = true
    | inr _ => True
    end /\
    error_de_aprobacion (ValidationError "No hay siguiente estado en el flujo") = false.
Proof.
  intros U d w. split; [|reflexivity].
  destruct (procesarAprobacion U d w) as [[e|t] w'] eqn:E; [|exact I].
  cbn [fst]. unfold procesarAprobacion, bind in E.
  destruct (procesarAprobacion_lectura d w) as [[e1|s] w1] eqn:E1.
  - inversion E; subst. exact (lectura_errores _ _ _ _ E1).
  - apply procesarAprobacion_lectura_spec in E1.
    destruct E1 as [_ E1]. destruct (E1 s eq_refl) as (_ & Hin & _).
    destruct (transaccion_errores U d s w1 w' e Hin E) as [det ->]. reflexivity.
Qed.

(* ================================================================== *)
(** * One call at a time *)
(* ================================================================== *)

Lemma find_visible_Some (i : Z) (l : list Solicitud) (s : Solicitud) :
  find (Repo.visible i) l = Some s ->
  In s l /\ sc_id s = i /\ sc_deleted_at s = None.
Proof.
  intro H. apply find_some in H. destruct H as [Hin Hv].
  unfold Repo.visible in Hv. apply andb_true_iff in Hv. destruct Hv as [Hid Hdel].
  apply Z.eqb_eq in Hid. repeat split; try assumption.
  destruct (sc_deleted_at s); [discriminate | reflexivity].
Qed.

Lemma map_sc_id_actualizar (i : Z) (e : Estado) (u : Z) (l : list Solicitud) :
  map sc_id (Repo.actualizar i e u l) = map sc_id l.
Proof.
  unfold Repo.actualizar. rewrite map_map. apply map_ext.
  intro s. destruct (sc_id s =? i)%Z; reflexivity.
Qed.

Lemma In_actualizar (i : Z) (e : Estado) (u : Z) (l : list Solicitud) (s' : Solicitud) :
  In s' (Repo.actualizar i e u l) ->
  exists s, In s l /\
            s' = if (sc_id s =? i)%Z then Repo.poner_estado e u s else s.
Proof.
  unfold Repo.actualizar. intro H. apply in_map_iff in H.
  destruct H as (s & Hs & Hin). exists s. split; [exact Hin | symmetry; exact Hs].
Qed.

Lemma NoDup_sc_id (l : list Solicitud) (s s' : Solicitud) :
  NoDup (map sc_id l) -> In s l -> In s' l -> sc_id s = sc_id s' -> s = s'.
Proof.
  induction l as [|x l IH]; intros Hnd Hs Hs' Heq; [destruct Hs|].
  simpl in Hnd. inversion Hnd as [|? ? Hnotin Hnd']; subst.
  destruct Hs as [-> | Hs], Hs' as [-> | Hs'].
  - reflexivity.
  - exfalso. apply Hnotin. rewrite Heq. apply in_map. exact Hs'.
  - exfalso. apply Hnotin. rewrite <- Heq. apply in_map. exact Hs.
  - apply IH; assumption.
Qed.

Lemma enviarSolicitud_paso (i u : Z) (w : Mundo) :
  paso w (snd (enviarSolicitud i u w)).
Proof.
  destruct (enviarSolicitud i u w) as [r w'] eqn:E. cbn [snd].
  pose proof (enviarSolicitud_todo_o_nada _ _ _ _ _ E) as Hbd.
  unfold enviarSolicitud, bind in E.
  destruct (Repo.obtenerSolicitudCompleta i w) as [[e|c] w1] eqn:E1;
    apply obtenerSolicitudCompleta_lee in E1; destruct E1 as [Hb1 Hc].
  { inversion E; subst. apply paso_nada. exact Hb1. }
  specialize (Hc c eq_refl).
  destruct c as [c|]; [|inversion E; subst; apply paso_nada; exact Hb1].
  cbn [option_map] in Hc.
  destruct (negb (sc_solicitante_id (Repo.fila c) =? u)%Z);
    [inversion E; subst; apply paso_nada; exact Hb1|].
  destruct (negb (Estado_eqb (sc_estado (Repo.fila c)) BORRADOR)) eqn:Eb;
    [inversion E; subst; apply paso_nada; exact Hb1|].
  destruct r as [e|upd]; [apply paso_nada; exact Hbd|].
  apply negb_false_iff, Estado_eqb_eq in Eb.
  apply (paso_transicion w w' i PENDIENTE_JEFE u (evento_envio i u) (Repo.fila c));
    try reflexivity.
  - symmetry. exact Hc.
  - rewrite Eb. reflexivity.
  - exact Hbd.
Qed.

Lemma aprobable_no_final (e : Estado) :
  In e estadosAprobables -> estado_final e = false.
Proof. simpl. intros [<- | [<- | [<- | []]]]; reflexivity. Qed.

Lemma procesarAprobacion_paso (U : Umbrales) (d : Decision) (w : Mundo) :
  paso w (snd (procesarAprobacion U d w)).
Proof.
  destruct (procesarAprobacion U d w) as [r w'] eqn:E. cbn [snd].
  unfold procesarAprobacion, bind in E.
  destruct (procesarAprobacion_lectura d w) as [[e|s] w1] eqn:E1;
    apply procesarAprobacion_lectura_spec in E1; destruct E1 as [Hb1 Hs].
  { inversion E; subst. apply paso_nada. exact Hb1. }
  destruct (Hs s eq_refl) as (Hfind & Hin & _).
  apply procesarAprobacion_transaccion_spec in E.
  destruct r as [e|t]; [apply paso_nada; congruence|].
  destruct E as (_ & _ & nivel & a & _ & _ & _ & Hbd).
  apply (paso_transicion w w' (de_solicitudId d) (estadoNuevo t) (de_usuarioId d)
           (evento d nivel a (estadoNuevo t)) s);
    try reflexivity.
  - exact Hfind.
  - apply aprobable_no_final. exact Hin.
  - rewrite Hbd, Hb1. reflexivity.
Qed.

Lemma crearSolicitud_paso (N : Numeros) (datos : Repo.DatosSolicitud) (u : Z)
      (w : Mundo) :
  paso w (snd (crearSolicitud N datos u w)).
Proof.
  apply paso_nada.
  destruct (crearSolicitud_siempre_error N datos u w) as [det [_ H]].
  exact H.
Qed.

Lemma atender_paso (U : Umbrales) (N : Numeros) (c : Llamada) (w : Mundo) :
  (siguiente_id w <= siguiente_id (atender U N c w))%Z /\ paso w (atender U N c w).
Proof.
  destruct c as [datos u | i u | d]; cbn [atender]; split.
  - destruct (crearSolicitud N datos u w) as [r w'] eqn:E.
    exact (no_retrocede_crearSolicitud N datos u _ _ _ E).
  - apply crearSolicitud_paso.
  - destruct (enviarSolicitud i u w) as [r w'] eqn:E.
    exact (no_retrocede_enviarSolicitud i u _ _ _ E).
  - apply enviarSolicitud_paso.
  - destruct (procesarAprobacion U d w) as [r w'] eqn:E.
    exact (no_retrocede_procesarAprobacion U d _ _ _ E).
  - apply procesarAprobacion_paso.
Qed.

Lemma atender_todas_induccion (U : Umbrales) (N : Numeros) (P : Mundo -> Prop) :
  (forall c w, P w -> P (atender U N c w)) ->
  forall cs w, P w -> P (atender_todas U N cs w).
Proof.
  intros Hstep cs. unfold atender_todas.
  induction cs as [|c cs IH]; intros w Hw; simpl; [exact Hw|].
  apply IH. apply Hstep. exact Hw.
Qed.

(* ================================================================== *)
(** * What every history of calls keeps *)
(* ================================================================== *)

Lemma ultimo_evento_al_final (i : Z) (libro : list Aprobacion) (ev : Aprobacion) :
  ultimo_evento i (libro ++ [ev]) =
    if (ac_solicitud_id ev =? i)%Z then Some ev else ultimo_evento i libro.
Proof.
  unfold ultimo_evento. rewrite rev_app_distr. reflexivity.
Qed.

Lemma claves_paso (w w' : Mundo) :
  claves_integras w -> (siguiente_id w <= siguiente_id w')%Z -> paso w w' ->
  claves_integras w'.
Proof.
  intros (Hnd & Hseq & Hit & Hev) Hle
         [Hbd | i e' u ev s Hfind _ Hid _ Hbd].
  - unfold claves_integras. rewrite Hbd. repeat split; try assumption.
    intros s Hs. specialize (Hseq s Hs). lia.
  - unfold claves_integras. rewrite Hbd.
    cbn [tras_transicion solicitudes_compra solicitud_compra_items aprobaciones_compra].
    rewrite map_sc_id_actualizar. repeat split; try assumption.
    + intros s' Hs'. apply In_actualizar in Hs'. destruct Hs' as (s0 & Hs0 & ->).
      specialize (Hseq s0 Hs0).
      destruct (sc_id s0 =? i)%Z; cbn [Repo.poner_estado sc_id]; lia.
    + intros ev' Hin. apply in_app_or in Hin. destruct Hin as [Hin | [<- | []]].
      * apply Hev. exact Hin.
      * apply find_visible_Some in Hfind. destruct Hfind as (Hin & His & _).
        rewrite Hid, <- His. apply in_map. exact Hin.
Qed.

Lemma libro_paso (w w' : Mundo) :
  claves_integras w -> libro_al_dia (bd w) -> paso w w' -> libro_al_dia (bd w').
Proof.
  intros (_ & Hseq & _ & Hev) Hlibro
         [Hbd | i e' u ev s _ _ Hid Hres Hbd].
  - rewrite Hbd. exact Hlibro.
  - rewrite Hbd. intros s' Hs'.
    cbn [tras_transicion solicitudes_compra aprobaciones_compra] in *.
    rewrite ultimo_evento_al_final, Hid.
    apply In_actualizar in Hs'. destruct Hs' as (s0 & Hs0 & ->).
    destruct (sc_id s0 =? i)%Z eqn:E.
    + cbn [Repo.poner_estado sc_id sc_estado].
      rewrite (proj2 (Z.eqb_eq _ _) (eq_sym (proj1 (Z.eqb_eq _ _) E))).
      symmetry. exact Hres.
    + rewrite Z.eqb_sym, E. apply Hlibro. exact Hs0.
Qed.

Lemma final_paso (w w' : Mundo) (s : Solicitud) :
  claves_integras w -> paso w w' ->
  In s (solicitudes_compra (bd w)) -> estado_final (sc_estado s) = true ->
  In s (solicitudes_compra (bd w')).
Proof.
  intros (Hnd & _)
         [Hbd | i e' u ev s0 Hfind Hnofinal _ _ Hbd] Hin Hfinal.
  - rewrite Hbd. exact Hin.
  - rewrite Hbd. cbn [tras_transicion solicitudes_compra].
    unfold Repo.actualizar. apply in_map_iff. exists s. split; [|exact Hin].
    destruct (sc_id s =? i)%Z eqn:E; [|reflexivity].
    apply Z.eqb_eq in E. apply find_visible_Some in Hfind.
    destruct Hfind as (Hin0 & Hid0 & _).
    assert (s = s0) by (apply (NoDup_sc_id _ _ _ Hnd Hin Hin0); congruence).
    subst s0. congruence.
Qed.

(** The part of a request no operation rewrites. *)
Lemma crece_paso (w w' : Mundo) :
  paso w w' ->
  (exists nuevas,
     map sc_id (solicitudes_compra (bd w')) =
     map sc_id (solicitudes_compra (bd w)) ++ nuevas) /\
  (exists nuevos,
     solicitud_compra_items (bd w') = solicitud_compra_items (bd w) ++ nuevos) /\
  (exists nuevos,
     aprobaciones_compra (bd w') = aprobaciones_compra (bd w) ++ nuevos).
Proof.
  intros [Hbd | i e' u ev s _ _ _ _ Hbd].
  - rewrite Hbd. repeat split; exists []; rewrite app_nil_r; reflexivity.
  - rewrite Hbd.
    cbn [tras_transicion solicitudes_compra solicitud_compra_items aprobaciones_compra].
    rewrite map_sc_id_actualizar.
    repeat split; [exists [] | exists [] | exists [ev]];
      rewrite ?app_nil_r; reflexivity.
Qed.

Lemma claves_integras_inicial (plan : list bool) :
  claves_integras (mundo_inicial plan).
Proof.
  unfold claves_integras, mundo_inicial. cbn.
  repeat split; try (intros ? []). constructor.
Qed.

Lemma claves_integras_mundo_1 (e : Estado) (m : Q) :
  claves_integras (sin_fallos (bd_1 e m) 2).
Proof.
  unfold claves_integras. cbn. repeat split.
  - repeat constructor. intros [].
  - intros s [<- | []]. reflexivity.
  - intros r [].
  - intros ev [].
Qed.

Lemma atender_todas_claves (U : Umbrales) (N : Numeros) (cs : list Llamada)
      (w : Mundo) :
  claves_integras w -> claves_integras (atender_todas U N cs w).
Proof.
  apply atender_todas_induccion. intros c w0 H.
  destruct (atender_paso U N c w0) as [Hle Hp].
  exact (claves_paso _ _ H Hle Hp).
Qed.

(** X6. Keys and references are kept by every history of calls (create,
    submit, decide, in any order, with any arguments, failing or not, under
    any plan of storage faults and whatever the arithmetic of the engine):
    the keys of the requests stay distinct and behind the sequence, and
    every item and every ledger event refers to a stored request. *)
Theorem historia_claves_integras :
  forall (U : Umbrales) (N : Numeros) (cs : list Llamada) (w : Mundo),
    claves_integras w ->
    claves_integras (atender_todas U N cs w) /\
    (siguiente_id w <= siguiente_id (atender_todas U N cs w))%Z.
Proof.
  intros U N cs w H. split; [apply atender_todas_claves; exact H|].
  clear H. revert w. unfold atender_todas.
  induction cs as [|c cs IH]; intro w; simpl; [lia|].
  specialize (IH (atender U N c w)).
  destruct (atender_paso U N c w) as [Hle _]. lia.
Qed.

Lemma historia_claves_integras_ejemplo :
  claves_integras (atender_todas UMBRALES_POR_DEFECTO numeros_exactos historia_1 mundo_1) /\
  (siguiente_id mundo_1
   <= siguiente_id (atender_todas UMBRALES_POR_DEFECTO numeros_exactos historia_1 mundo_1))%Z.
Proof.
  apply (historia_claves_integras UMBRALES_POR_DEFECTO numeros_exactos historia_1 mundo_1).
  apply claves_integras_mundo_1.
Defined.

(** X7. The ledger tells the stage, after every history of calls: if a
    world with sound keys has every request at the resulting stage of its
    last ledger event (draft when it has none), so has the world after any
    list of calls, whatever the arithmetic of the engine. *)
Theorem historia_libro_al_dia :
  forall (U : Umbrales) (N : Numeros) (cs : list Llamada) (w : Mundo),
    claves_integras w -> libro_al_dia (bd w) ->
    libro_al_dia (bd (atender_todas U N cs w)).
Proof.
  intros U N cs w Hc Hl.
  enough (claves_integras (atender_todas U N cs w) /\
          libro_al_dia (bd (atender_todas U N cs w))) as [_ H] by exact H.
  apply (atender_todas_induccion U N
           (fun w => claves_integras w /\ libro_al_dia (bd w))); [|split; assumption].
  intros c w0 [Hc0 Hl0]. destruct (atender_paso U N c w0) as [Hle Hp]. split.
  - exact (claves_paso _ _ Hc0 Hle Hp).
  - exact (libro_paso _ _ Hc0 Hl0 Hp).
Qed.

Lemma historia_libro_al_dia_ejemplo :
  libro_al_dia (bd (atender_todas UMBRALES_POR_DEFECTO numeros_exactos historia_1 mundo_1)) /\
  map sc_estado
      (solicitudes_compra
         (bd (atender_todas UMBRALES_POR_DEFECTO numeros_exactos historia_1 mundo_1)))
  = [APROBADA].
Proof.
  split; [|reflexivity].
  apply (historia_libro_al_dia UMBRALES_POR_DEFECTO numeros_exactos historia_1 mundo_1).
  - apply claves_integras_mundo_1.
  - intros s [<- | []]. reflexivity.
Defined.

(** X9. Final stages are final: in a world with sound keys, a request at
    stage aprobada, rechazada, anulada, en_proceso or completada is the very
    same row after any list of calls, whatever the arithmetic of the engine;
    no call changes its stage or its updated_by. *)
Theorem historia_estado_final :
  forall (U : Umbrales) (N : Numeros) (cs : list Llamada) (w : Mundo) (s : Solicitud),
    claves_integras w ->
    In s (solicitudes_compra (bd w)) ->
    estado_final (sc_estado s) = true ->
    In s (solicitudes_compra (bd (atender_todas U N cs w))).
Proof.
  intros U N cs w s Hc Hin Hfin.
  enough (claves_integras (atender_todas U N cs w) /\
          In s (solicitudes_compra (bd (atender_todas U N cs w)))) as [_ H] by exact H.
  apply (atender_todas_induccion U N
           (fun w => claves_integras w /\ In s (solicitudes_compra (bd w))));
    [|split; assumption].
  intros c w0 [Hc0 Hin0]. destruct (atender_paso U N c w0) as [Hle Hp]. split.
  - exact (claves_paso _ _ Hc0 Hle Hp).
  - exact (final_paso _ _ _ Hc0 Hp Hin0 Hfin).
Qed.

Lemma historia_estado_final_ejemplo :
  In (solicitud_1 RECHAZADA 1000)
     (solicitudes_compra
        (bd (atender_todas UMBRALES_POR_DEFECTO numeros_exactos historia_1
               (sin_fallos (bd_1 RECHAZADA 1000) 2)))) /\
  siguiente_id (atender_todas UMBRALES_POR_DEFECTO numeros_exactos historia_1
                  (sin_fallos (bd_1 RECHAZADA 1000) 2)) = 3%Z.
Proof.
  split; [|reflexivity].
  apply (historia_estado_final UMBRALES_POR_DEFECTO numeros_exactos historia_1
           (sin_fallos (bd_1 RECHAZADA 1000) 2) (solicitud_1 RECHAZADA 1000)).
  - apply claves_integras_mundo_1.
  - left. reflexivity.
  - reflexivity.
Defined.

(** X10. Nothing is ever removed: after any list of calls, from any world
    and whatever the arithmetic of the engine, the keys of the stored
    requests, the items and the ledger are those of before followed by new
    ones; in particular no event of the ledger is rewritten or deleted. *)
Theorem historia_solo_crece :
  forall (U : Umbrales) (N : Numeros) (cs : list Llamada) (w : Mundo),
    (exists nuevas,
       map sc_id (solicitudes_compra (bd (atender_todas U N cs w))) =
       map sc_id (solicitudes_compra (bd w)) ++ nuevas) /\
    (exists nuevos,
       solicitud_compra_items (bd (atender_todas U N cs w)) =
       solicitud_compra_items (bd w) ++ nuevos) /\
    (exists nuevos,
       aprobaciones_compra (bd (atender_todas U N cs w)) =
       aprobaciones_compra (bd w) ++ nuevos).
Proof.
  intros U N cs. unfold atender_todas.
  induction cs as [|c cs IH]; intro w; simpl.
  - repeat split; exists []; rewrite app_nil_r; reflexivity.
  - destruct (IH (atender U N c w)) as ((a1 & H1) & (a2 & H2) & (a3 & H3)).
    destruct (atender_paso U N c w) as [_ Hp].
    destruct (crece_paso _ _ Hp) as ((b1 & G1) & (b2 & G2) & (b3 & G3)).
    rewrite H1, H2, H3, G1, G2, G3, <- !app_assoc.
    repeat split; eexists; reflexivity.
Qed.

(* ================================================================== *)
(** * A refused creation, and a request from submission to approval *)
(* ================================================================== *)



Lemma etapas_tras_transicion (i : Z) (b : BD) (e : Estado) (u : Z) (ev : Aprobacion) :
  ac_solicitud_id ev = i ->
  etapas_registradas i (tras_transicion b i e u ev)
  = etapas_registradas i b ++ [ac_estado_resultante ev].
Proof.
  intro H. unfold etapas_registradas.
  cbn [tras_transicion aprobaciones_compra].
  rewrite filter_app, map_app. cbn [filter]. rewrite H, Z.eqb_refl. reflexivity.
Qed.

Lemma admin_puedeAprobar (e : Estado) :
  In e estadosAprobables -> puedeAprobar "admin" e = true.
Proof. simpl. intros [<- | [<- | [<- | []]]]; reflexivity. Qed.

(** One approval by an administrator, where the store refuses nothing. *)
Lemma aprobar_admin_paso (U : Umbrales) (N : Numeros) (d : Decision) (b : BD) (m : Z)
      (s : Solicitud) (e' : Estado) :
  find (Repo.visible (de_solicitudId d)) (solicitudes_compra b) = Some s ->
  In (sc_estado s) estadosAprobables ->
  de_rol d = "admin"%string ->
  de_accion d = texto "aprobar" ->
  siguienteEstado U (sc_estado s) (sc_monto_total s) = Some e' ->
  exists b',
    atender U N (ProcesarAprobacion d) (sin_fallos b m) = sin_fallos b' m /\
    find (Repo.visible (de_solicitudId d)) (solicitudes_compra b')
    = Some (Repo.poner_estado e' (de_usuarioId d) s) /\
    etapas_registradas (de_solicitudId d) b'
    = etapas_registradas (de_solicitudId d) b ++ [e'] /\
    solicitud_compra_items b' = solicitud_compra_items b.
Proof.
  intros Hs Hin Hrol Hacc Hsig.
  destruct (nivelMap_aprobable _ Hin) as [nivel Hnivel].
  exists (tras_transicion b (de_solicitudId d) e' (de_usuarioId d)
            (evento d nivel "aprobar" e')).
  split; [|split; [|split]].
  - cbn [atender].
    rewrite (procesarAprobacion_sin_fallos U d b m s e' nivel Hs Hin); try assumption.
    + rewrite Hacc. change (Repo.accion_admitida "aprobar") with true. reflexivity.
    + rewrite Hrol. apply admin_puedeAprobar. exact Hin.
    + unfold estado_resultante. rewrite Hacc. exact Hsig.
  - cbn [tras_transicion solicitudes_compra].
    rewrite find_visible_actualizar, Hs. reflexivity.
  - apply etapas_tras_transicion. reflexivity.
  - reflexivity.
Qed.

Ltac un_paso_admin U N d Hs Hrol Hacc Hin Hsig :=
  match goal with
  | |- context [atender U N (ProcesarAprobacion d) (sin_fallos ?b ?m)] =>
      let b' := fresh "b" in
      let Hw := fresh "Hw" in
      let Hf := fresh "Hf" in
      let He := fresh "He" in
      let Hi := fresh "Hi" in
      destruct (aprobar_admin_paso U N d b m _ _ Hs Hin Hrol Hacc Hsig)
        as (b' & Hw & Hf & He & Hi);
      rewrite Hw; clear Hw
  end.

Lemma aprobaciones_hasta_el_final (U : Umbrales) (N : Numeros) (d : Decision)
      (b : BD) (m : Z) (s : Solicitud) :
  find (Repo.visible (de_solicitudId d)) (solicitudes_compra b) = Some s ->
  sc_estado s = PENDIENTE_JEFE ->
  de_rol d = "admin"%string ->
  de_accion d = texto "aprobar" ->
  exists b',
    atender_todas U N
      (repeat (ProcesarAprobacion d)
              (List.length (calcularFlujoAprobacion U (sc_monto_total s)) - 1))
      (sin_fallos b m) = sin_fallos b' m /\
    find (Repo.visible (de_solicitudId d)) (solicitudes_compra b')
    = Some (Repo.poner_estado APROBADA (de_usuarioId d) s) /\
    etapas_registradas (de_solicitudId d) b'
    = etapas_registradas (de_solicitudId d) b
        ++ tl (calcularFlujoAprobacion U (sc_monto_total s)) /\
    solicitud_compra_items b' = solicitud_compra_items b.
Proof.
  intros Hs Hest Hrol Hacc.
  destruct (siguienteEstado_en_el_flujo U (sc_monto_total s)) as (Hj & Hg & Ht & _).
  rewrite <- Hest in Hj.
  assert (Hin : In (sc_estado s) estadosAprobables) by (rewrite Hest; simpl; tauto).
  assert (Hgin : In PENDIENTE_GERENCIA estadosAprobables) by (simpl; tauto).
  assert (Htin : In PENDIENTE_TESORERIA estadosAprobables) by (simpl; tauto).
  unfold atender_todas.
  rewrite (calcularFlujoAprobacion_formas U (sc_monto_total s)).
  destruct (mayor_igual (sc_monto_total s) (JEFE_AREA U)) eqn:E1,
           (mayor_igual (sc_monto_total s) (GERENCIA U)) eqn:E2;
    cbn [List.length Nat.sub repeat fold_left tl].
  - (* four stages *)
    specialize (Hg eq_refl). specialize (Ht eq_refl).
    un_paso_admin U N d Hs Hrol Hacc Hin Hj.
    un_paso_admin U N d Hf Hrol Hacc Hgin Hg.
    un_paso_admin U N d Hf0 Hrol Hacc Htin Ht.
    exists b2. split; [reflexivity|]. split; [exact Hf1|]. split.
    + rewrite He1, He0, He, <- !app_assoc. reflexivity.
    + congruence.
  - (* area lead and executive *)
    specialize (Hg eq_refl).
    un_paso_admin U N d Hs Hrol Hacc Hin Hj.
    un_paso_admin U N d Hf Hrol Hacc Hgin Hg.
    exists b1. split; [reflexivity|]. split; [exact Hf0|]. split.
    + rewrite He0, He, <- !app_assoc. reflexivity.
    + congruence.
  - (* thresholds out of order: area lead and treasury *)
    specialize (Ht eq_refl).
    un_paso_admin U N d Hs Hrol Hacc Hin Hj.
    un_paso_admin U N d Hf Hrol Hacc Htin Ht.
    exists b1. split; [reflexivity|]. split; [exact Hf0|]. split.
    + rewrite He0, He, <- !app_assoc. reflexivity.
    + congruence.
  - (* area lead only *)
    un_paso_admin U N d Hs Hrol Hacc Hin Hj.
    exists b0. split; [reflexivity|]. split; [exact Hf|]. split.
    + rewrite He. reflexivity.
    + congruence.
Qed.

(** X12. From submission to approval. Where the store refuses nothing, a
    live draft submitted by its author and then approved by an
    administrator once per step of the path of its total ends approved:
    the stored row is the same request at stage aprobada, its items are
    untouched, and the resulting stages the ledger has gained for it, in
    order, are exactly the path computed for its total. *)
Theorem ciclo_completo :
  forall (U : Umbrales) (N : Numeros) (b : BD) (n : Z) (s : Solicitud) (u : Z)
         (d : Decision),
    find (Repo.visible (de_solicitudId d)) (solicitudes_compra b) = Some s ->
    sc_estado s = BORRADOR ->
    sc_solicitante_id s = u ->
    de_rol d = "admin"%string ->
    de_accion d = texto "aprobar" ->
    exists b',
      atender_todas U N (ciclo U (sc_monto_total s) (de_solicitudId d) u d)
                    (sin_fallos b n)
      = sin_fallos b' n /\
      find (Repo.visible (de_solicitudId d)) (solicitudes_compra b')
      = Some (Repo.poner_estado APROBADA (de_usuarioId d) s) /\
      solicitud_compra_items b' = solicitud_compra_items b /\
      etapas_registradas (de_solicitudId d) b'
      = etapas_registradas (de_solicitudId d) b
          ++ calcularFlujoAprobacion U (sc_monto_total s).
Proof.
  intros U N b n s u d Hs Hest Hu Hrol Hacc.
  unfold ciclo, atender_todas. cbn [fold_left atender].
  (* the submission *)
  rewrite enviarSolicitud_sin_fallos, Hs, Hu, Z.eqb_refl, Hest.
  change (Estado_eqb BORRADOR BORRADOR) with true. cbn [negb snd].
  (* the approvals *)
  match goal with
  | |- context [fold_left _ _ (sin_fallos ?b2 _)] => set (b2' := b2)
  end.
  assert (Hs2 : find (Repo.visible (de_solicitudId d)) (solicitudes_compra b2')
                = Some (Repo.poner_estado PENDIENTE_JEFE u s)).
  { unfold b2'. cbn [tras_transicion solicitudes_compra].
    rewrite find_visible_actualizar, Hs. reflexivity. }
  destruct (aprobaciones_hasta_el_final U N d b2' n _ Hs2 eq_refl Hrol Hacc)
    as (b' & Hw & Hf & He & Hi).
  cbn [Repo.poner_estado sc_monto_total] in Hw, He.
  exists b'. split; [exact Hw|]. split; [exact Hf|]. split.
  - rewrite Hi. reflexivity.
  - rewrite He. unfold b2'. rewrite etapas_tras_transicion by reflexivity.
    rewrite <- app_assoc. f_equal.
    rewrite (calcularFlujoAprobacion_formas U (sc_monto_total s)).
    destruct (mayor_igual _ (JEFE_AREA U)), (mayor_igual _ (GERENCIA U)); reflexivity.
Qed.

Lemma ciclo_completo_ejemplo :
  exists b',
    atender_todas UMBRALES_POR_DEFECTO numeros_exactos
      (ciclo UMBRALES_POR_DEFECTO (sc_monto_total (solicitud_1 BORRADOR 25000000))
             (de_solicitudId (decision_1 (texto "aprobar") indefinido 9 "admin")) 7
             (decision_1 (texto "aprobar") indefinido 9 "admin"))
      (sin_fallos (bd_1 BORRADOR 25000000) 2)
    = sin_fallos b' 2 /\
    find (Repo.visible (de_solicitudId (decision_1 (texto "aprobar") indefinido 9 "admin")))
         (solicitudes_compra b')
    = Some (Repo.poner_estado APROBADA
              (de_usuarioId (decision_1 (texto "aprobar") indefinido 9 "admin"))
              (solicitud_1 BORRADOR 25000000)) /\
    solicitud_compra_items b' = solicitud_compra_items (bd_1 BORRADOR 25000000) /\
    etapas_registradas
      (de_solicitudId (decision_1 (texto "aprobar") indefinido 9 "admin")) b'
    = etapas_registradas
        (de_solicitudId (decision_1 (texto "aprobar") indefinido 9 "admin"))
        (bd_1 BORRADOR 25000000)
        ++ calcularFlujoAprobacion UMBRALES_POR_DEFECTO
             (sc_monto_total (solicitud_1 BORRADOR 25000000)).
Proof.
  apply (ciclo_completo UMBRALES_POR_DEFECTO numeros_exactos (bd_1 BORRADOR 25000000) 2%Z
           (solicitud_1 BORRADOR 25000000) 7%Z
           (decision_1 (texto "aprobar") indefinido 9 "admin"));
    reflexivity.
Defined.

(* ================================================================== *)
(** * Reading back *)
(* ================================================================== *)

Lemma obtenerSolicitudConHistorial_sin_fallos (i : Z) (b : BD) (n : Z) :
  obtenerSolicitudConHistorial i (sin_fallos b n)
  = (if es_integer i
     then match find (Repo.visible i) (solicitudes_compra b) with
          | None => inl (NotFoundError "Solicitud de compra")
          | Some s =>
              inr {| completa :=
                       {| Repo.fila := s;
                          Repo.sc_items :=
                            Repo.agregado
                              (filter (fun r => (sci_solicitud_id r =? sc_id s)%Z)
                                      (solicitud_compra_items b)) |};
                     historial_aprobaciones :=
                       filter (fun ev => (ac_solicitud_id ev =? i)%Z)
                              (aprobaciones_compra b) |}
          end
     else inl (ErrorBD "value out of range for type integer"),
     sin_fallos b n).
Proof.
  unfold obtenerSolicitudConHistorial, bind, Promise_all2,
    Repo.obtenerSolicitudCompleta, obtenerHistorialAprobaciones, query.
  cbn [sin_fallos fallos bd fst snd].
  destruct (find (Repo.visible i) (solicitudes_compra b)), (es_integer i);
    reflexivity.
Qed.

Lemma ultimo_evento_etapas (i : Z) (b : BD) :
  match ultimo_evento i (aprobaciones_compra b) with
  | Some ev => ac_estado_resultante ev
  | None => BORRADOR
  end = last (etapas_registradas i b) BORRADOR.
Proof.
  unfold etapas_registradas.
  induction (aprobaciones_compra b) as [|ev l IH] using rev_ind; [reflexivity|].
  rewrite ultimo_evento_al_final, filter_app, map_app. cbn [filter].
  destruct (ac_solicitud_id ev =? i)%Z.
  - cbn [map]. rewrite last_last. reflexivity.
  - cbn [map]. rewrite app_nil_r. exact IH.
Qed.

(** X13. Reading a request back, where the store refuses nothing and the
    ledger tells the stage (as it does after every history of calls).
    Nothing is written. For a key outside the range of INTEGER both
    statements are refused and [obtenerSolicitudConHistorial] throws the
    error of the data base. For a key within the range it throws NotFound
    exactly when no live row has the key; otherwise it returns that row,
    as items what JSON_AGG gives over the LEFT JOIN (the items of the
    request in stored order, or one element with every field null when it
    has none), as history the events of the ledger about it in the order
    they were written, and the stage of the row is the resulting stage of
    the last event of the history (draft when the history is empty). *)
Theorem obtenerSolicitudConHistorial_al_dia :
  forall (b : BD) (n i : Z),
    libro_al_dia b ->
    snd (obtenerSolicitudConHistorial i (sin_fallos b n)) = sin_fallos b n /\
    (es_integer i = false ->
     fst (obtenerSolicitudConHistorial i (sin_fallos b n))
     = inl (ErrorBD "value out of range for type integer")) /\
    (es_integer i = true ->
     match fst (obtenerSolicitudConHistorial i (sin_fallos b n)) with
     | inl e =>
         e = NotFoundError "Solicitud de compra" /\
         find (Repo.visible i) (solicitudes_compra b) = None
     | inr r =>
         find (Repo.visible i) (solicitudes_compra b)
         = Some (Repo.fila (completa r)) /\
         Repo.sc_items (completa r) = Repo.agregado (items_de i b) /\
         (items_de i b = [] -> Repo.sc_items (completa r) = [Repo.item_nulo]) /\
         historial_aprobaciones r
         = filter (fun ev => (ac_solicitud_id ev =? i)%Z) (aprobaciones_compra b) /\
         sc_estado (Repo.fila (completa r))
         = last (map ac_estado_resultante (historial_aprobaciones r)) BORRADOR
     end).
Proof.
  intros b n i Hlibro. rewrite obtenerSolicitudConHistorial_sin_fallos.
  cbn [fst snd]. split; [reflexivity|]. split; intro Hi; rewrite Hi; [reflexivity|].
  destruct (find (Repo.visible i) (solicitudes_compra b)) as [s|] eqn:E.
  - cbn [completa historial_aprobaciones Repo.fila Repo.sc_items].
    apply find_visible_Some in E. destruct E as (Hin & Hid & _).
    split; [reflexivity|]. split; [rewrite Hid; reflexivity|].
    split; [intro Hvacia; rewrite Hid; unfold items_de in Hvacia;
            rewrite Hvacia; reflexivity|].
    split; [reflexivity|].
    rewrite (Hlibro s Hin), Hid. apply ultimo_evento_etapas.
  - split; reflexivity.
Qed.

Lemma obtenerSolicitudConHistorial_al_dia_ejemplo :
  libro_al_dia bd_historia_1 /\
  es_integer 1 = true /\
  exists r,
    obtenerSolicitudConHistorial 1 (sin_fallos bd_historia_1 3)
    = (inr r, sin_fallos bd_historia_1 3) /\
    Repo.sc_items (completa r) = [Repo.item_nulo] /\
    sc_estado (Repo.fila (completa r)) = APROBADA /\
    map ac_estado_resultante (historial_aprobaciones r)
    = [PENDIENTE_JEFE; APROBADA].
Proof.
  assert (H : libro_al_dia bd_historia_1) by (intros s [<- | []]; reflexivity).
  split; [exact H|]. split; [reflexivity|].
  destruct (obtenerSolicitudConHistorial_al_dia bd_historia_1 3%Z 1%Z H)
    as (Hsnd & _ & Hdentro).
  specialize (Hdentro eq_refl).
  destruct (obtenerSolicitudConHistorial 1 (sin_fallos bd_historia_1 3))
    as [[e|r] w'] eqn:E; cbn [fst snd] in Hsnd, Hdentro.
  - destruct Hdentro as [_ Hnone]. discriminate Hnone.
  - destruct Hdentro as (Hfila & _ & Hnulo & Hhist & Hest).
    exists r. rewrite Hsnd. split; [reflexivity|].
    split; [apply Hnulo; reflexivity|].
    rewrite Hest, Hhist. split; reflexivity.
Defined.

(* ------------------------------------------------------------------ *)
(** ** Listings *)
(* ------------------------------------------------------------------ *)

Lemma insertar_Permutation (ca : Solicitud -> Z) (x : Solicitud) (l : list Solicitud) :
  Permutation (insertar ca x l) (x :: l).
Proof.
  induction l as [|y l IH]; simpl; [reflexivity|].
  destruct (comparar ca x y <=? 0)%Z; [reflexivity|].
  rewrite IH. apply perm_swap.
Qed.

Lemma ordenar_Permutation (ca : Solicitud -> Z) (l : list Solicitud) :
  Permutation (ordenar ca l) l.
Proof.
  induction l as [|x l IH]; simpl; [reflexivity|].
  rewrite insertar_Permutation. apply perm_skip. exact IH.
Qed.

Lemma ordenar_length (ca : Solicitud -> Z) (l : list Solicitud) :
  List.length (ordenar ca l) = List.length l.
Proof. apply Permutation_length, ordenar_Permutation. Qed.

Lemma ordenar_In (ca : Solicitud -> Z) (l : list Solicitud) (s : Solicitud) :
  In s (ordenar ca l) <-> In s l.
Proof.
  split; apply Permutation_in;
    [apply ordenar_Permutation | symmetry; apply ordenar_Permutation].
Qed.

Lemma va_antes_total (ca : Solicitud -> Z) (a b : Solicitud) :
  (0 < comparar ca a b)%Z -> va_antes ca b a.
Proof.
  unfold va_antes, comparar.
  destruct (sc_urgente a), (sc_urgente b); cbn; lia.
Qed.

Lemma va_antes_trans (ca : Solicitud -> Z) (a b c : Solicitud) :
  va_antes ca a b -> va_antes ca b c -> va_antes ca a c.
Proof.
  unfold va_antes, comparar.
  destruct (sc_urgente a), (sc_urgente b), (sc_urgente c); cbn; lia.
Qed.

Lemma insertar_ordenada (ca : Solicitud -> Z) (x : Solicitud) (l : list Solicitud) :
  StronglySorted (va_antes ca) l -> StronglySorted (va_antes ca) (insertar ca x l).
Proof.
  induction l as [|y l IH]; intro H; simpl.
  - repeat constructor.
  - inversion H as [|? ? Hl Hy]; subst.
    destruct (comparar ca x y <=? 0)%Z eqn:E.
    + apply Z.leb_le in E. constructor; [exact H|].
      constructor; [exact E|].
      rewrite Forall_forall in *. intros z Hz.
      exact (va_antes_trans ca x y z E (Hy z Hz)).
    + apply Z.leb_gt in E. constructor; [apply IH; exact Hl|].
      rewrite Forall_forall in *. intros z Hz.
      apply (Permutation_in _ (insertar_Permutation ca x l)) in Hz.
      destruct Hz as [<- | Hz]; [apply va_antes_total; exact E | exact (Hy z Hz)].
Qed.

Lemma ordenar_ordenada (ca : Solicitud -> Z) (l : list Solicitud) :
  StronglySorted (va_antes ca) (ordenar ca l).
Proof.
  induction l as [|x l IH]; simpl; [constructor|].
  apply insertar_ordenada. exact IH.
Qed.

Lemma ordenada_skipn {A : Type} (R : A -> A -> Prop) (k : nat) (l : list A) :
  StronglySorted R l -> StronglySorted R (skipn k l).
Proof.
  revert l. induction k as [|k IH]; intros l H; [exact H|].
  destruct l as [|x l]; [constructor|].
  inversion H; subst. simpl. apply IH. assumption.
Qed.

Lemma ordenada_firstn {A : Type} (R : A -> A -> Prop) (k : nat) (l : list A) :
  StronglySorted R l -> StronglySorted R (firstn k l).
Proof.
  revert l. induction k as [|k IH]; intros l H; [constructor|].
  destruct l as [|x l]; [constructor|].
  inversion H as [|? ? Hl Hx]; subst. simpl. constructor; [apply IH; exact Hl|].
  rewrite Forall_forall in *. intros z Hz. apply Hx.
  rewrite <- (firstn_skipn k l). apply in_or_app. left. exact Hz.
Qed.

Lemma In_firstn {A : Type} (k : nat) (l : list A) (x : A) :
  In x (firstn k l) -> In x l.
Proof.
  intro H. rewrite <- (firstn_skipn k l). apply in_or_app. left. exact H.
Qed.

Lemma In_skipn {A : Type} (k : nat) (l : list A) (x : A) :
  In x (skipn k l) -> In x l.
Proof.
  intro H. rewrite <- (firstn_skipn k l). apply in_or_app. right. exact H.
Qed.

Lemma listarSolicitudes_sin_fallos (ca : Solicitud -> Z) (f : Filtros) (b : BD) (n : Z) :
  listarSolicitudes ca f (sin_fallos b n)
  = (if negb (area_admitida (f_areaId f))
     then inl (ErrorBD "value out of range for type integer")
     else if negb (es_bigint (f_limite f))
             || negb (es_bigint ((f_pagina f - 1) * f_limite f))
     then inl (ErrorBD "value out of range for type bigint")
     else if (f_limite f <? 0)%Z then inl (ErrorBD "LIMIT must not be negative")
     else if ((f_pagina f - 1) * f_limite f <? 0)%Z
     then inl (ErrorBD "OFFSET must not be negative")
     else inr {| data := firstn (Z.to_nat (f_limite f))
                           (skipn (Z.to_nat ((f_pagina f - 1) * f_limite f))
                                  (listado ca f b));
                 total := Z.of_nat (List.length (listado ca f b));
                 pagina := f_pagina f;
                 paginas := techo (Z.of_nat (List.length (listado ca f b)))
                                  (f_limite f) |},
     sin_fallos b n).
Proof.
  unfold listarSolicitudes, bind, Promise_all2, consulta_pagina, consulta_cuenta,
    query, ret, listado.
  cbn [sin_fallos fallos bd]. rewrite ordenar_length.
  destruct (area_admitida (f_areaId f)); cbn [negb]; [|reflexivity].
  destruct (negb (es_bigint (f_limite f))
            || negb (es_bigint ((f_pagina f - 1) * f_limite f))); [reflexivity|].
  destruct (f_limite f <? 0)%Z; [reflexivity|].
  destruct ((f_pagina f - 1) * f_limite f <? 0)%Z; reflexivity.
Qed.

Lemma seguro_es_bigint (x : Z) : seguro x -> es_bigint x = true.
Proof.
  unfold seguro, max_seguro, es_bigint. intro H.
  apply andb_true_iff. split; apply Z.leb_le; lia.
Qed.

(** X14. One page of a listing, where the store refuses nothing else.
    Nothing is written. [listarSolicitudes] throws an error of the data
    base when the area given is beyond INTEGER, when [limite] is beyond
    BIGINT, and when [limite] is negative. For an area the column admits
    and a page, a [limite] and an offset the engine holds exactly, it
    throws exactly when LIMIT or OFFSET is negative; otherwise the rows of
    the page are live rows of the table that satisfy every filter given,
    there are at most [limite] of them, they are in the order urgent first,
    newest first, and [total] counts the rows of the whole listing,
    whatever the page. *)
Theorem listarSolicitudes_pagina :
  forall (ca : Solicitud -> Z) (f : Filtros) (b : BD) (n : Z),
    snd (listarSolicitudes ca f (sin_fallos b n)) = sin_fallos b n /\
    (area_admitida (f_areaId f) = false \/ es_bigint (f_limite f) = false \/
     (f_limite f < 0)%Z ->
     exists m, fst (listarSolicitudes ca f (sin_fallos b n)) = inl (ErrorBD m)) /\
    (area_admitida (f_areaId f) = true ->
     seguro (f_pagina f) -> seguro (f_limite f) ->
     seguro ((f_pagina f - 1) * f_limite f) ->
     match fst (listarSolicitudes ca f (sin_fallos b n)) with
     | inl e =>
         (f_limite f < 0 \/ (f_pagina f - 1) * f_limite f < 0)%Z /\
         exists m, e = ErrorBD m
     | inr p =>
         (0 <= f_limite f)%Z /\ (0 <= (f_pagina f - 1) * f_limite f)%Z /\
         (forall s, In s (data p) ->
            In s (solicitudes_compra b) /\ sc_deleted_at s = None /\
            where_ ca f s = true) /\
         (Z.of_nat (List.length (data p)) <= f_limite f)%Z /\
         StronglySorted (va_antes ca) (data p) /\
         total p = Z.of_nat (List.length (filter (where_ ca f) (solicitudes_compra b))) /\
         pagina p = f_pagina f
     end).
Proof.
  intros ca f b n. rewrite listarSolicitudes_sin_fallos. cbn [fst snd].
  split; [reflexivity|]. split.
  { intros [Ha | [Hl | Hl]].
    - rewrite Ha. eexists; reflexivity.
    - rewrite Hl. cbn [negb orb].
      destruct (negb (area_admitida (f_areaId f))); eexists; reflexivity.
    - apply Z.ltb_lt in Hl. rewrite Hl.
      destruct (negb (area_admitida (f_areaId f))); [eexists; reflexivity|].
      destruct (negb (es_bigint (f_limite f))
                || negb (es_bigint ((f_pagina f - 1) * f_limite f)));
        eexists; reflexivity. }
  intros Ha _ Hsl Hso. rewrite Ha.
  rewrite (seguro_es_bigint _ Hsl), (seguro_es_bigint _ Hso). cbn [negb orb].
  destruct (f_limite f <? 0)%Z eqn:El.
  { apply Z.ltb_lt in El. split; [left; exact El | eexists; reflexivity]. }
  destruct ((f_pagina f - 1) * f_limite f <? 0)%Z eqn:Eo.
  { apply Z.ltb_lt in Eo. split; [right; exact Eo | eexists; reflexivity]. }
  apply Z.ltb_ge in El. apply Z.ltb_ge in Eo.
  cbn [data total pagina].
  split; [exact El|]. split; [exact Eo|]. split; [|split; [|split; [|split]]].
  - intros s Hs. apply In_firstn, In_skipn in Hs. unfold listado in Hs.
    apply ordenar_In, filter_In in Hs. destruct Hs as [Hin Hw].
    split; [exact Hin|]. split; [|exact Hw].
    unfold where_ in Hw. destruct (sc_deleted_at s); [discriminate | reflexivity].
  - pose proof (firstn_le_length (Z.to_nat (f_limite f))
                  (skipn (Z.to_nat ((f_pagina f - 1) * f_limite f)) (listado ca f b))).
    lia.
  - apply ordenada_firstn, ordenada_skipn. unfold listado. apply ordenar_ordenada.
  - unfold listado. rewrite ordenar_length. reflexivity.
  - reflexivity.
Qed.

Lemma listarSolicitudes_pagina_ejemplo :
  area_admitida (f_areaId (filtros_todas 3)) = true /\
  seguro (f_pagina (filtros_todas 3)) /\
  seguro (f_limite (filtros_todas 3)) /\
  exists p,
    listarSolicitudes creado_en (filtros_todas 3) (sin_fallos bd_4 5)
    = (inr p, sin_fallos bd_4 5) /\
    List.length (data p) = 3%nat /\
    total p = 4%Z /\
    StronglySorted (va_antes creado_en) (data p).
Proof.
  assert (Hs1 : seguro (f_pagina (filtros_todas 3))) by (vm_compute; split; discriminate).
  assert (Hs2 : seguro (f_limite (filtros_todas 3))) by (vm_compute; split; discriminate).
  assert (Hs3 : seguro ((f_pagina (filtros_todas 3) - 1) * f_limite (filtros_todas 3)))
    by (vm_compute; split; discriminate).
  split; [reflexivity|]. split; [exact Hs1|]. split; [exact Hs2|].
  destruct (listarSolicitudes_pagina creado_en (filtros_todas 3) bd_4 5%Z)
    as (Hsnd & _ & Hpag).
  specialize (Hpag eq_refl Hs1 Hs2 Hs3).
  destruct (listarSolicitudes creado_en (filtros_todas 3) (sin_fallos bd_4 5))
    as [[e|p] w'] eqn:E; cbn [fst snd] in Hsnd, Hpag.
  - exfalso. destruct Hpag as [[H | H] _]; vm_compute in H; discriminate H.
  - destruct Hpag as (_ & _ & _ & _ & Hord & Htot & _).
    exists p. rewrite Hsnd. split; [reflexivity|].
    split; [|split; [rewrite Htot; reflexivity | exact Hord]].
    vm_compute in E. inversion E. reflexivity.
Defined.

Lemma trozos {A : Type} (m N : nat) (l : list A) :
  (List.length l <= N * m)%nat ->
  List.concat (map (fun k => firstn m (skipn (k * m) l)) (seq 0 N)) = l.
Proof.
  revert l. induction N as [|N IH]; intros l H.
  - destruct l; [reflexivity | simpl in H; lia].
  - cbn [seq]. rewrite <- seq_shift. cbn [map List.concat]. rewrite map_map.
    change (0 * m)%nat with 0%nat. cbn [skipn].
    transitivity (firstn m l ++ skipn m l); [|apply firstn_skipn].
    f_equal.
    assert (Hlen : (List.length (skipn m l) <= N * m)%nat)
      by (rewrite length_skipn; lia).
    rewrite <- (IH (skipn m l) Hlen).
    f_equal. apply map_ext. intro k. rewrite skipn_skipn.
    f_equal. f_equal. lia.
Qed.

Lemma comparar_opuesto (ca : Solicitud -> Z) (a b : Solicitud) :
  comparar ca b a = (- comparar ca a b)%Z.
Proof.
  unfold comparar. destruct (sc_urgente a), (sc_urgente b); cbn; lia.
Qed.

(** Where no two rows tie, there is one way to put them in order. *)
Lemma ordenada_unica (ca : Solicitud -> Z) (l1 l2 : list Solicitud) :
  sin_empates ca l1 ->
  Permutation l1 l2 ->
  StronglySorted (va_antes ca) l1 -> StronglySorted (va_antes ca) l2 ->
  l1 = l2.
Proof.
  revert l2. induction l1 as [|x l1 IH]; intros l2 Hanti Hperm S1 S2.
  - apply Permutation_nil in Hperm. symmetry. exact Hperm.
  - destruct l2 as [|y l2];
      [apply Permutation_sym, Permutation_nil in Hperm; discriminate|].
    inversion S1 as [|? ? S1' F1]; subst. inversion S2 as [|? ? S2' F2]; subst.
    rewrite Forall_forall in F1, F2.
    assert (Hy : In y (x :: l1))
      by (apply (Permutation_in _ (Permutation_sym Hperm)); left; reflexivity).
    assert (Hx : In x (y :: l2))
      by (apply (Permutation_in _ Hperm); left; reflexivity).
    assert (Hxy : x = y).
    { destruct Hy as [Hy | Hy]; [exact Hy|].
      destruct Hx as [Hx | Hx]; [symmetry; exact Hx|].
      apply Hanti; [left; reflexivity | right; exact Hy |].
      pose proof (F1 y Hy) as H1. pose proof (F2 x Hx) as H2.
      unfold va_antes in H1, H2. rewrite (comparar_opuesto ca x y) in H2. lia. }
    subst y. f_equal. apply IH.
    + intros a b Ha Hb. apply Hanti; right; assumption.
    + exact (Permutation_cons_inv Hperm).
    + exact S1'.
    + exact S2'.
Qed.

(** X15. The pages of a listing. With a positive [limite] and a number of
    stored rows that the engine both holds exactly, and an area the
    column admits, on tables that do not change, where no two listed rows
    tie in the order and the store refuses nothing, the pages 1 to
    [paginas] returned by [listarSolicitudes], one after the other, are the
    complete listing: every row of the WHERE clause once, in the order of
    ORDER BY, none repeated and none left out; [paginas] is the least
    number of pages that holds [total] rows; and the listing is the only
    arrangement of those rows in that order, so that ORDER BY leaves
    nothing to the data base. *)
Theorem listarSolicitudes_paginas :
  forall (ca : Solicitud -> Z) (f : Filtros) (b : BD) (n : Z),
    (0 < f_limite f)%Z ->
    (f_limite f <= max_seguro)%Z ->
    (Z.of_nat (List.length (solicitudes_compra b)) <= max_seguro)%Z ->
    area_admitida (f_areaId f) = true ->
    sin_empates ca (filter (where_ ca f) (solicitudes_compra b)) ->
    exists P : Z,
      (forall k p,
         fst (listarSolicitudes ca (con_pagina f k) (sin_fallos b n)) = inr p ->
         paginas p = Some P) /\
      ((P - 1) * f_limite f < Z.of_nat (List.length (listado ca f b)) <= P * f_limite f)%Z /\
      List.concat (map (fun k => datos_de_pagina ca f (sin_fallos b n) (Z.of_nat k))
                       (seq 1 (Z.to_nat P)))
      = listado ca f b /\
      (forall l,
         Permutation l (filter (where_ ca f) (solicitudes_compra b)) ->
         StronglySorted (va_antes ca) l ->
         l = listado ca f b).
Proof.
  intros ca f b n Hl Hlmax Hfilas Harea Hsin.
  set (c := Z.of_nat (List.length (listado ca f b))).
  assert (Hcmax : (c <= max_seguro)%Z).
  { unfold c, listado. rewrite ordenar_length.
    pose proof (filter_length_le (where_ ca f) (solicitudes_compra b)). lia. }
  assert (Hlbig : es_bigint (f_limite f) = true)
    by (apply seguro_es_bigint; unfold seguro, max_seguro in *; lia).
  exists (- ((- c) / f_limite f))%Z.
  assert (Hc : (0 <= c)%Z) by (unfold c; lia).
  assert (HP : ((- (- c / f_limite f) - 1) * f_limite f < c
                <= - (- c / f_limite f) * f_limite f)%Z).
  { pose proof (Z.div_mod (- c) (f_limite f) ltac:(lia)) as Hdm.
    pose proof (Z.mod_pos_bound (- c) (f_limite f) Hl) as Hmb. nia. }
  split; [|split; [exact HP|split]].
  - intros k p H. rewrite listarSolicitudes_sin_fallos in H. cbn [fst] in H.
    cbn [con_pagina f_limite f_pagina f_areaId] in H.
    destruct (negb (area_admitida (f_areaId f))); [discriminate|].
    destruct (negb (es_bigint (f_limite f))
              || negb (es_bigint ((k - 1) * f_limite f))); [discriminate|].
    destruct (f_limite f <? 0)%Z; [discriminate|].
    destruct ((k - 1) * f_limite f <? 0)%Z; [discriminate|].
    inversion H; subst p. cbn [paginas]. unfold techo.
    replace (f_limite f =? 0)%Z with false by (symmetry; apply Z.eqb_neq; lia).
    reflexivity.
  - set (P := (- (- c / f_limite f))%Z) in *.
    assert (HP0 : (0 <= P)%Z) by nia.
    rewrite <- seq_shift, map_map.
    rewrite <- (trozos (Z.to_nat (f_limite f)) (Z.to_nat P) (listado ca f b)) at 1.
    + f_equal. apply map_ext_in. intros k Hk. apply in_seq in Hk.
      unfold datos_de_pagina. rewrite listarSolicitudes_sin_fallos. cbn [fst].
      cbn [con_pagina f_limite f_pagina f_areaId].
      rewrite Harea, Hlbig.
      rewrite (seguro_es_bigint ((Z.of_nat (S k) - 1) * f_limite f))
        by (unfold seguro, max_seguro in *; fold c in HP; nia).
      cbn [negb orb].
      replace (f_limite f <? 0)%Z with false by (symmetry; apply Z.ltb_ge; lia).
      replace ((Z.of_nat (S k) - 1) * f_limite f <? 0)%Z with false
        by (symmetry; apply Z.ltb_ge; nia).
      cbn [data]. f_equal. f_equal. nia.
    + fold c in HP. nia.
  - intros l Hperm Hsorted. symmetry. apply (ordenada_unica ca).
    + intros x y Hx Hy. unfold listado in Hx, Hy.
      apply ordenar_In in Hx. apply ordenar_In in Hy. exact (Hsin x y Hx Hy).
    + unfold listado. rewrite ordenar_Permutation. symmetry. exact Hperm.
    + apply ordenar_ordenada.
    + exact Hsorted.
Qed.

Lemma listarSolicitudes_paginas_ejemplo :
  exists P : Z,
    (forall k p,
       fst (listarSolicitudes creado_en (con_pagina (filtros_todas 3) k)
              (sin_fallos bd_4 5)) = inr p ->
       paginas p = Some P) /\
    ((P - 1) * f_limite (filtros_todas 3)
     < Z.of_nat (List.length (listado creado_en (filtros_todas 3) bd_4))
     <= P * f_limite (filtros_todas 3))%Z /\
    List.concat (map (fun k => datos_de_pagina creado_en (filtros_todas 3)
                                 (sin_fallos bd_4 5) (Z.of_nat k))
                     (seq 1 (Z.to_nat P)))
    = listado creado_en (filtros_todas 3) bd_4 /\
    (forall l,
       Permutation l (filter (where_ creado_en (filtros_todas 3))
                             (solicitudes_compra bd_4)) ->
       StronglySorted (va_antes creado_en) l ->
       l = listado creado_en (filtros_todas 3) bd_4).
Proof.
  apply (listarSolicitudes_paginas creado_en (filtros_todas 3) bd_4 5%Z).
  - reflexivity.
  - vm_compute. discriminate.
  - vm_compute. discriminate.
  - reflexivity.
  - intros x y Hx Hy.
    cbn in Hx, Hy.
    destruct Hx as [<- | [<- | [<- | [<- | []]]]];
      destruct Hy as [<- | [<- | [<- | [<- | []]]]];
      intro H; first [reflexivity | discriminate H].
Defined.

(* ------------------------------------------------------------------ *)
(** ** What is pending for a role *)
(* ------------------------------------------------------------------ *)

Lemma where_filtro_de_estado (ca : Solicitud -> Z) (e : Estado) (s : Solicitud) :
  where_ ca (filtro_de_estado e) s = true <->
  sc_deleted_at s = None /\ sc_estado s = e.
Proof.
  unfold where_, filtro_de_estado, condicion_estado.
  cbn [f_estado f_areaId f_urgente f_fechaDesde f_fechaHasta condicion_area
       condicion_urgente condicion_desde condicion_hasta].
  rewrite !andb_true_r.
  destruct (sc_deleted_at s) as [t|].
  - split; [discriminate | intros [H _]; discriminate H].
  - destruct e, (sc_estado s); cbn; split;
      try reflexivity; try discriminate; try (intros [_ H]; discriminate H);
      intros _; split; reflexivity.
Qed.

Lemma Promise_all_listados (ca : Solicitud -> Z) (l : list Estado) (b : BD) (n : Z) :
  exists rs,
    Promise_all (map (fun e => listarSolicitudes ca (filtro_de_estado e)) l)
                (sin_fallos b n)
    = (inr rs, sin_fallos b n) /\
    map data rs
    = map (fun e => firstn 100 (listado ca (filtro_de_estado e) b)) l.
Proof.
  induction l as [|e l (rs & Hrs & Hdata)].
  - exists []. split; reflexivity.
  - cbn [map Promise_all]. unfold Promise_all2.
    rewrite listarSolicitudes_sin_fallos.
    cbn [filtro_de_estado f_limite f_pagina].
    change (area_admitida (f_areaId (filtro_de_estado e))) with true.
    change (es_bigint 100) with true. change (es_bigint ((1 - 1) * 100)) with true.
    change (100 <? 0)%Z with false. change ((1 - 1) * 100 <? 0)%Z with false.
    cbn [negb orb]. cbv iota. rewrite Hrs.
    eexists. split; [reflexivity|].
    cbn [map data]. rewrite Hdata.
    change (Z.to_nat ((1 - 1) * 100)) with 0%nat.
    change (Z.to_nat 100) with 100%nat.
    reflexivity.
Qed.

Lemma listar_pendientes_sin_fallos (ca : Solicitud -> Z) (l : list Estado)
      (b : BD) (n : Z) :
  listar_pendientes ca l (sin_fallos b n)
  = (inr {| pe_data :=
              ordenar ca
                (flat_map (fun e => firstn 100 (listado ca (filtro_de_estado e) b)) l);
            pe_total :=
              Z.of_nat
                (List.length
                   (ordenar ca
                      (flat_map
                         (fun e => firstn 100 (listado ca (filtro_de_estado e) b))
                         l))) |},
     sin_fallos b n).
Proof.
  unfold listar_pendientes, bind.
  destruct (Promise_all_listados ca l b n) as (rs & -> & Hdata).
  unfold ret. rewrite !flat_map_concat_map, Hdata. reflexivity.
Qed.

(** The stages [obtenerFlujoPendiente] lists for a role are those at which
    [puedeAprobar] admits the role. *)
Lemma estadosPorRol_puedeAprobar (rol_ : string) :
  In rol_ roles_con_pendientes ->
  exists l,
    estadosPorRol rol_ = propia l /\ l <> [] /\
    forall e, In e l <-> puedeAprobar rol_ e = true.
Proof.
  intros [<- | [<- | [<- | [<- | []]]]].
  - exists [PENDIENTE_JEFE]. split; [reflexivity|]. split; [discriminate|].
    intro e. destruct e; cbn; intuition discriminate.
  - exists [PENDIENTE_JEFE; PENDIENTE_GERENCIA].
    split; [reflexivity|]. split; [discriminate|].
    intro e. destruct e; cbn; intuition discriminate.
  - exists [PENDIENTE_TESORERIA]. split; [reflexivity|]. split; [discriminate|].
    intro e. destruct e; cbn; intuition discriminate.
  - exists [PENDIENTE_JEFE; PENDIENTE_GERENCIA; PENDIENTE_TESORERIA].
    split; [reflexivity|]. split; [discriminate|].
    intro e. destruct e; cbn; intuition discriminate.
Qed.

(** X16. What is pending for a role is what the role may decide. For the
    roles jefe_area, gerente, tesorero and admin, where the store refuses
    nothing, [obtenerFlujoPendiente] returns rows that are live rows of the
    table at a stage where [puedeAprobar] admits the role, urgent first and
    newest first, with [total] their number; and a live request the role
    may decide is among them whenever its stage holds at most 100 live
    requests. Nothing is written. *)
Theorem obtenerFlujoPendiente_puedeAprobar :
  forall (ca : Solicitud -> Z) (rol_ : string) (b : BD) (n : Z),
    In rol_ roles_con_pendientes ->
    exists p,
      obtenerFlujoPendiente ca rol_ (sin_fallos b n) = (inr (inr p), sin_fallos b n) /\
      pe_total p = Z.of_nat (List.length (pe_data p)) /\
      StronglySorted (va_antes ca) (pe_data p) /\
      (forall s, In s (pe_data p) ->
         In s (solicitudes_compra b) /\ sc_deleted_at s = None /\
         puedeAprobar rol_ (sc_estado s) = true) /\
      (forall s,
         In s (solicitudes_compra b) -> sc_deleted_at s = None ->
         puedeAprobar rol_ (sc_estado s) = true ->
         (List.length (listado ca (filtro_de_estado (sc_estado s)) b) <= 100)%nat ->
         In s (pe_data p)).
Proof.
  intros ca rol_ b n Hrol.
  destruct (estadosPorRol_puedeAprobar rol_ Hrol) as (l & Hl & Hne & Hpuede).
  eexists. split; [|split; [|split; [|split]]].
  - unfold obtenerFlujoPendiente. rewrite Hl.
    destruct l as [|e l]; [congruence|].
    unfold bind. rewrite listar_pendientes_sin_fallos. reflexivity.
  - reflexivity.
  - apply ordenar_ordenada.
  - cbn [pe_data]. intros s Hs. apply ordenar_In, in_flat_map in Hs.
    destruct Hs as (e & He & Hs). apply In_firstn in Hs.
    unfold listado in Hs. apply ordenar_In, filter_In in Hs.
    destruct Hs as [Hin Hw]. apply where_filtro_de_estado in Hw.
    destruct Hw as [Hdel Hest]. split; [exact Hin|]. split; [exact Hdel|].
    rewrite Hest. apply Hpuede. exact He.
  - cbn [pe_data]. intros s Hin Hdel Hp Hcap.
    apply ordenar_In, in_flat_map. exists (sc_estado s).
    split; [apply Hpuede; exact Hp|].
    rewrite firstn_all2 by exact Hcap.
    unfold listado. apply ordenar_In, filter_In. split; [exact Hin|].
    apply where_filtro_de_estado. split; [exact Hdel | reflexivity].
Qed.

Lemma obtenerFlujoPendiente_puedeAprobar_ejemplo :
  exists p,
    obtenerFlujoPendiente creado_en "gerente" (sin_fallos bd_4 5)
    = (inr (inr p), sin_fallos bd_4 5) /\
    pe_total p = Z.of_nat (List.length (pe_data p)) /\
    StronglySorted (va_antes creado_en) (pe_data p) /\
    (forall s, In s (pe_data p) ->
       In s (solicitudes_compra bd_4) /\ sc_deleted_at s = None /\
       puedeAprobar "gerente" (sc_estado s) = true) /\
    (forall s,
       In s (solicitudes_compra bd_4) -> sc_deleted_at s = None ->
       puedeAprobar "gerente" (sc_estado s) = true ->
       (List.length (listado creado_en (filtro_de_estado (sc_estado s)) bd_4) <= 100)%nat ->
       In s (pe_data p)).
Proof.
  apply (obtenerFlujoPendiente_puedeAprobar creado_en "gerente" bd_4 5%Z).
  right. left. reflexivity.
Defined.

(** X17. Roles that are not keys of [estadosPorRol]. Whatever the world,
    [obtenerFlujoPendiente] makes no query for such a role and leaves the
    world as it is. It answers the empty listing, except for the names an
    object literal inherits with a value that has neither length 0 nor
    [map] (constructor, hasOwnProperty, __proto__ and the like), for which
    it ends in the TypeError 'estados.map is not a function'; for the
    inherited functions of length 0 (toString, valueOf, toLocaleString) it
    answers the empty listing. No such role may approve at any stage. *)
Theorem obtenerFlujoPendiente_otros_roles :
  forall (ca : Solicitud -> Z) (rol_ : string) (w : Mundo),
    (In rol_ roles_con_pendientes \/
     (obtenerFlujoPendiente ca rol_ w
      = (inr (if existsb (String.eqb rol_) nombres_sin_map
              then inl "estados.map is not a function"%string
              else inr {| pe_data := []; pe_total := 0 |}), w) /\
      forall e, puedeAprobar rol_ e = false)).
Proof.
  intros ca rol_ w.
  unfold obtenerFlujoPendiente, estadosPorRol, roles_con_pendientes, nombres_sin_map.
  cbn [existsb In].
  destruct (String.eqb_spec rol_ "jefe_area"); [left; subst; auto 10|].
  destruct (String.eqb_spec rol_ "gerente"); [left; subst; auto 10|].
  destruct (String.eqb_spec rol_ "tesorero"); [left; subst; auto 10|].
  destruct (String.eqb_spec rol_ "admin"); [left; subst; auto 10|].
  right. split.
  - destruct (String.eqb_spec rol_ "toString"); [subst; reflexivity|].
    destruct (String.eqb_spec rol_ "valueOf"); [subst; reflexivity|].
    destruct (String.eqb_spec rol_ "toLocaleString"); [subst; reflexivity|].
    destruct (String.eqb_spec rol_ "constructor"); [subst; reflexivity|].
    destruct (String.eqb_spec rol_ "hasOwnProperty"); [subst; reflexivity|].
    destruct (String.eqb_spec rol_ "isPrototypeOf"); [subst; reflexivity|].
    destruct (String.eqb_spec rol_ "propertyIsEnumerable"); [subst; reflexivity|].
    destruct (String.eqb_spec rol_ "__lookupGetter__"); [subst; reflexivity|].
    destruct (String.eqb_spec rol_ "__lookupSetter__"); [subst; reflexivity|].
    destruct (String.eqb_spec rol_ "__defineGetter__"); [subst; reflexivity|].
    destruct (String.eqb_spec rol_ "__defineSetter__"); [subst; reflexivity|].
    destruct (String.eqb_spec rol_ "__proto__"); [subst; reflexivity|].
    reflexivity.
  - intro e. unfold puedeAprobar, includes.
    destruct e; cbn [ROLES_POR_ESTADO existsb]; try reflexivity;
      repeat match goal with
             | H : rol_ <> ?x |- context [String.eqb rol_ ?x] =>
                 rewrite (proj2 (String.eqb_neq rol_ x) H)
             end; reflexivity.
Qed.

(* ------------------------------------------------------------------ *)
(** ** Reads do not write *)
(* ------------------------------------------------------------------ *)

Lemma solo_lee_ret {A : Type} (a : A) : solo_lee (ret a).
Proof. intro w. split; reflexivity. Qed.

Lemma solo_lee_throw {A : Type} (e : Excepcion) : solo_lee (@throw A e).
Proof. intro w. split; reflexivity. Qed.

Lemma solo_lee_bind {A B : Type} (m : Async A) (k : A -> Async B) :
  solo_lee m -> (forall a, solo_lee (k a)) -> solo_lee (bind m k).
Proof.
  intros Hm Hk w. unfold bind. specialize (Hm w).
  destruct (m w) as [[e|a] w1]; cbn [snd] in *; [exact Hm|].
  destruct (Hk a w1) as [H1 H2]. destruct Hm as [G1 G2].
  split; congruence.
Qed.

Lemma solo_lee_query {A : Type} (sql : Async A) :
  solo_lee sql -> solo_lee (query sql).
Proof.
  intros H w. unfold query.
  destruct (fallos w) as [|[|] plan]; [apply H | split; reflexivity |].
  destruct (H (con_fallos w plan)) as [H1 H2]. split; assumption.
Qed.

Lemma solo_lee_Promise_all2 {A B : Type} (a : Async A) (b : Async B) :
  solo_lee a -> solo_lee b -> solo_lee (Promise_all2 a b).
Proof.
  intros Ha Hb w. unfold Promise_all2. specialize (Ha w).
  destruct (a w) as [ra w1]. specialize (Hb w1).
  destruct (b w1) as [rb w2]. cbn [snd] in *.
  destruct Ha, Hb.
  destruct ra, rb; cbn [snd]; split; congruence.
Qed.

Lemma solo_lee_Promise_all {A : Type} (l : list (Async A)) :
  Forall solo_lee l -> solo_lee (Promise_all l).
Proof.
  induction l as [|a l IH]; intro H; [apply solo_lee_ret|].
  inversion H as [|? ? Ha Hl]; subst. intro w. cbn [Promise_all].
  pose proof (solo_lee_Promise_all2 a (Promise_all l) Ha (IH Hl) w) as G.
  destruct (Promise_all2 a (Promise_all l) w) as [[e|[x xs]] w']; exact G.
Qed.

Lemma solo_lee_listarSolicitudes (ca : Solicitud -> Z) (f : Filtros) :
  solo_lee (listarSolicitudes ca f).
Proof.
  unfold listarSolicitudes. apply solo_lee_bind; [|intro; apply solo_lee_ret].
  apply solo_lee_Promise_all2; apply solo_lee_query; intro w.
  - cbv zeta.
    repeat match goal with
           | |- context [if ?c then _ else _] => destruct c
           end; split; reflexivity.
  - destruct (negb (area_admitida (f_areaId f))); split; reflexivity.
Qed.

(** X18. Reads do not write, whatever the plan of storage faults and
    whether they return or throw: after [obtenerSolicitudConHistorial],
    [listarSolicitudes] and [obtenerFlujoPendiente] the three tables and the
    sequence of keys are as before. *)
Theorem lecturas_no_escriben :
  forall (ca : Solicitud -> Z) (i : Z) (f : Filtros) (rol_ : string),
    solo_lee (obtenerSolicitudConHistorial i) /\
    solo_lee (listarSolicitudes ca f) /\
    solo_lee (obtenerFlujoPendiente ca rol_).
Proof.
  intros ca i f rol_. split; [|split].
  - unfold obtenerSolicitudConHistorial. apply solo_lee_bind.
    + apply solo_lee_Promise_all2; apply solo_lee_query; intro w.
      * destruct (find _ _); [|destruct (es_integer i)]; split; reflexivity.
      * destruct (es_integer i); split; reflexivity.
    + intros [[c|] h]; [apply solo_lee_ret | apply solo_lee_throw].
  - apply solo_lee_listarSolicitudes.
  - unfold obtenerFlujoPendiente.
    destruct (estadosPorRol rol_) as [l| k | |]; try apply solo_lee_ret.
    + destruct l as [|e l]; [apply solo_lee_ret|].
      apply solo_lee_bind; [|intro; apply solo_lee_ret].
      unfold listar_pendientes.
      apply solo_lee_bind; [|intro; apply solo_lee_ret].
      apply solo_lee_Promise_all. apply Forall_forall.
      intros m Hm. apply in_map_iff in Hm. destruct Hm as (e' & <- & _).
      apply solo_lee_listarSolicitudes.
    + destruct (k =? 0)%Z; apply solo_lee_ret.
Qed.

(* ================================================================== *)
(** * The schema of a decision, and the route *)
(* ================================================================== *)

Lemma quitar_casos (e1 : ascii -> bool) (e2 : ascii -> ascii -> bool)
      (e3 : ascii -> ascii -> ascii -> bool)
      (P : list ascii -> list ascii -> Prop) :
  (forall l, libre e1 e2 e3 l -> P l l) ->
  (forall p l, P l (quitar e1 e2 e3 l) -> P (p ++ l) (quitar e1 e2 e3 l)) ->
  forall l, P l (quitar e1 e2 e3 l).
Proof.
  intros Hlibre Hquita l.
  assert (H : forall n l, (List.length l <= n)%nat -> P l (quitar e1 e2 e3 l)).
  { clear l. induction n as [|n IH]; intros l Hl.
    - destruct l; [apply Hlibre; exact I | simpl in Hl; lia].
    - destruct l as [|a l1]; [apply Hlibre; exact I|].
      cbn [List.length] in Hl. cbn [quitar].
      destruct (e1 a) eqn:E1; [apply (Hquita [a] l1), IH; lia|].
      destruct l1 as [|b l2]; [apply Hlibre; split; [exact E1 | exact I]|].
      cbn [List.length] in Hl.
      destruct (e2 a b) eqn:E2; [apply (Hquita [a; b] l2), IH; lia|].
      destruct l2 as [|c l3];
        [apply Hlibre; split; [exact E1 | split; [exact E2 | exact I]]|].
      cbn [List.length] in Hl.
      destruct (e3 a b c) eqn:E3; [apply (Hquita [a; b; c] l3), IH; lia|].
      apply Hlibre. split; [exact E1 | split; [exact E2 | exact E3]]. }
  exact (H (List.length l) l (le_n _)).
Qed.

Lemma quitar_sufijo (e1 : ascii -> bool) (e2 : ascii -> ascii -> bool)
      (e3 : ascii -> ascii -> ascii -> bool) (l : list ascii) :
  exists p, l = (p ++ quitar e1 e2 e3 l)%list.
Proof.
  apply (quitar_casos e1 e2 e3 (fun l r => exists p, l = (p ++ r)%list)).
  - intros l0 _. exists []. reflexivity.
  - intros p l0 [p' H]. exists (p ++ p')%list.
    rewrite <- app_assoc, <- H. reflexivity.
Qed.

Lemma quitar_libre (e1 : ascii -> bool) (e2 : ascii -> ascii -> bool)
      (e3 : ascii -> ascii -> ascii -> bool) (l : list ascii) :
  libre e1 e2 e3 (quitar e1 e2 e3 l).
Proof.
  apply (quitar_casos e1 e2 e3 (fun _ r => libre e1 e2 e3 r)).
  - intros l0 H. exact H.
  - intros _ l0 H. exact H.
Qed.

Lemma libre_quitar (e1 : ascii -> bool) (e2 : ascii -> ascii -> bool)
      (e3 : ascii -> ascii -> ascii -> bool) (l : list ascii) :
  libre e1 e2 e3 l -> quitar e1 e2 e3 l = l.
Proof.
  destruct l as [|a [|b [|c l]]]; cbn [libre quitar].
  - reflexivity.
  - intros [-> _]. reflexivity.
  - intros [-> [-> _]]. reflexivity.
  - intros [-> [-> ->]]. reflexivity.
Qed.

Lemma libre_prefijo (e1 : ascii -> bool) (e2 : ascii -> ascii -> bool)
      (e3 : ascii -> ascii -> ascii -> bool) (p s : list ascii) :
  libre e1 e2 e3 (p ++ s) -> libre e1 e2 e3 p.
Proof.
  destruct p as [|a [|b [|c p]]]; cbn [libre app].
  - intros _. exact I.
  - intros [H _]. split; [exact H | exact I].
  - intros [H1 [H2 _]]. split; [exact H1 | split; [exact H2 | exact I]].
  - intro H. exact H.
Qed.

(** What [trim] returns neither starts nor ends with white space:
    trimming it again changes nothing. *)
Lemma trim_idem (s : string) : trim (trim s) = trim s.
Proof.
  unfold trim. rewrite list_ascii_of_string_of_list_ascii. f_equal.
  set (m := quitar_delante (list_ascii_of_string s)).
  assert (Hm : libre espacio1 espacio2 espacio3 m) by apply quitar_libre.
  destruct (quitar_sufijo espacio1 (fun a b => espacio2 b a)
              (fun a b c => espacio3 c b a) (rev m)) as [p Hp].
  fold quitar_detras in Hp.
  assert (Hpre : m = (rev (quitar_detras (rev m)) ++ rev p)%list).
  { rewrite <- rev_app_distr, <- Hp, rev_involutive. reflexivity. }
  rewrite Hpre in Hm. apply libre_prefijo in Hm.
  unfold quitar_delante at 1. rewrite (libre_quitar _ _ _ _ Hm).
  rewrite rev_involutive. f_equal.
  unfold quitar_detras at 1. apply libre_quitar. apply quitar_libre.
Qed.

(** White space is the white space of ECMAScript, not of ASCII only, and a
    length is a number of UTF-16 code units, not of bytes. *)
Lemma trim_y_longitud_ejemplos :
  trim (NBSP ++ " Sin presupuesto" ++ LS) = "Sin presupuesto"%string /\
  trim (NBSP ++ LS) = ""%string /\
  longitud (enyes 600) = 600%nat /\
  String.length (enyes 600) = 1200%nat.
Proof. repeat split; vm_compute; reflexivity. Qed.

(** X19. The schema of a decision accepts what it returns and returns it
    unchanged: validating a body twice is validating it once. In
    particular the comment the handler receives is already trimmed (of the
    white space of ECMAScript) and of at most 1000 UTF-16 code units, and
    the action it receives is 'aprobar' or 'rechazar'. *)
Theorem accionAprobacionSchema_idempotente :
  forall (body value : CuerpoAprobacion),
    accionAprobacionSchema body = inr value ->
    accionAprobacionSchema value = inr value /\
    (accion value = texto "aprobar" \/ accion value = texto "rechazar") /\
    (forall c, comentario value = texto c ->
       trim c = c /\ (longitud c <= 1000)%nat).
Proof.
  intros [a c] value H. unfold accionAprobacionSchema in *.
  cbn [accion comentario] in *.
  destruct a as [| |a]; try discriminate H.
  unfold validar_accion in *.
  destruct ((a =? "aprobar")%string || (a =? "rechazar")%string) eqn:Ea;
    [|destruct (a =? "")%string; destruct (validar_comentario (texto a) c);
      discriminate H].
  destruct (validar_comentario (texto a) c) as [ms|c'] eqn:Ec; [discriminate H|].
  inversion H; subst value; clear H. cbn [accion comentario].
  rewrite Ea.
  assert (Hc' : validar_comentario (texto a) c' = inr c' /\
                forall x, c' = texto x -> trim x = x /\ (longitud x <= 1000)%nat).
  { unfold validar_comentario in *.
    destruct (a =? "rechazar")%string.
    - destruct c as [| |x]; try discriminate Ec.
      destruct (trim x =? "")%string eqn:E0; [discriminate Ec|].
      destruct (longitud (trim x) <=? 1000)%nat eqn:E1; [|discriminate Ec].
      inversion Ec; subst c'. rewrite trim_idem, E0, E1.
      split; [reflexivity|]. intros y Hy. inversion Hy.
      split; [apply trim_idem | apply Nat.leb_le; exact E1].
    - destruct c as [| |x].
      + inversion Ec. split; [reflexivity | discriminate].
      + inversion Ec. split; [reflexivity | discriminate].
      + destruct (trim x =? "")%string eqn:E0.
        * inversion Ec; subst c'. rewrite trim_idem, E0.
          split; [reflexivity|]. intros y Hy. inversion Hy.
          split; [apply trim_idem|].
          apply String.eqb_eq in E0. rewrite E0. cbn. lia.
        * destruct (longitud (trim x) <=? 1000)%nat eqn:E1; [|discriminate Ec].
          inversion Ec; subst c'. rewrite trim_idem, E0, E1.
          split; [reflexivity|]. intros y Hy. inversion Hy.
          split; [apply trim_idem | apply Nat.leb_le; exact E1]. }
  destruct Hc' as [Hc1 Hc2]. rewrite Hc1.
  split; [reflexivity|]. split; [|exact Hc2].
  apply orb_true_iff in Ea. destruct Ea as [Ea | Ea];
    apply String.eqb_eq in Ea; subst a; [left | right]; reflexivity.
Qed.

Lemma accionAprobacionSchema_idempotente_ejemplo :
  accionAprobacionSchema
    {| accion := texto "rechazar"; comentario := texto "Sin presupuesto" |}
  = inr {| accion := texto "rechazar"; comentario := texto "Sin presupuesto" |} /\
  (texto "rechazar" = texto "aprobar" \/ texto "rechazar" = texto "rechazar") /\
  (forall c, texto "Sin presupuesto" = texto c ->
     trim c = c /\ (longitud c <= 1000)%nat).
Proof.
  apply (accionAprobacionSchema_idempotente
           {| accion := texto "rechazar";
              comentario := texto (NBSP ++ " Sin presupuesto" ++ LS) |}
           {| accion := texto "rechazar"; comentario := texto "Sin presupuesto" |}).
  reflexivity.
Defined.

Lemma accionAprobacionSchema_valor (body value : CuerpoAprobacion) :
  accionAprobacionSchema body = inr value ->
  (accion value = texto "aprobar" \/
   (accion value = texto "rechazar" /\
    exists m, comentario value = texto m /\ m <> ""%string /\ trim m = m /\
              (longitud m <= 1000)%nat)).
Proof.
  intros H. destruct body as [a c]. unfold accionAprobacionSchema in H.
  cbn [accion comentario] in H.
  destruct a as [| |a]; try discriminate H.
  unfold validar_accion in H.
  destruct ((a =? "aprobar")%string || (a =? "rechazar")%string) eqn:Ea;
    [|destruct (a =? "")%string; destruct (validar_comentario (texto a) c);
      discriminate H].
  destruct (validar_comentario (texto a) c) as [ms|c'] eqn:Ec; [discriminate H|].
  inversion H; subst value; clear H. cbn [accion comentario].
  apply orb_true_iff in Ea. destruct Ea as [Ea | Ea]; apply String.eqb_eq in Ea;
    subst a; [left; reflexivity | right].
  split; [reflexivity|].
  unfold validar_comentario in Ec.
  change ("rechazar" =? "rechazar")%string with true in Ec.
  destruct c as [| |x]; try discriminate Ec.
  destruct (trim x =? "")%string eqn:E0; [discriminate Ec|].
  destruct (longitud (trim x) <=? 1000)%nat eqn:E1; [|discriminate Ec].
  inversion Ec; subst c'. exists (trim x).
  split; [reflexivity|]. split; [|split; [apply trim_idem|]].
  - apply String.eqb_neq. exact E0.
  - apply Nat.leb_le. exact E1.
Qed.

(** X20. Through the route PATCH /:id/aprobacion, for a path parameter
    that is an integer and where the store refuses nothing but what the
    tables forbid, a decision ends in an error of the data base only for a
    key beyond the range of INTEGER: otherwise it is refused by the schema,
    by a guard of the service (NotFound, Validation, Forbidden), or it is
    carried out. When it is refused nothing is written; when it is carried
    out the stored row is at the stage the answer names and the ledger has
    gained one event, by the user of the session, whose action is 'aprobar'
    or 'rechazar', and a 'rechazar' event results in rechazada and carries
    a comment that is trimmed, not empty and of at most 1000 UTF-16 code
    units. *)
Theorem patch_aprobacion_por_la_ruta :
  forall (U : Umbrales) (id_ : Z) (user : Routes.Usuario) (body : CuerpoAprobacion)
         (b : BD) (n : Z),
    match fst (Routes.patch_aprobacion U id_ user body (sin_fallos b n)) with
    | inl e =>
        snd (Routes.patch_aprobacion U id_ user body (sin_fallos b n)) = sin_fallos b n /\
        (forall m, e = ErrorBD m -> es_integer id_ = false)
    | inr t =>
        exists ev b',
          snd (Routes.patch_aprobacion U id_ user body (sin_fallos b n))
          = sin_fallos b' n /\
          estado_almacenado id_ b' = Some (estadoNuevo t) /\
          b' = tras_transicion b id_ (estadoNuevo t) (Routes.sub user) ev /\
          ac_solicitud_id ev = id_ /\
          ac_aprobador_id ev = Routes.sub user /\
          ac_estado_resultante ev = estadoNuevo t /\
          (ac_accion ev = "aprobar"%string \/
           (ac_accion ev = "rechazar"%string /\ estadoNuevo t = RECHAZADA /\
            exists m, ac_comentario ev = Some m /\ m <> ""%string /\ trim m = m /\
                      (longitud m <= 1000)%nat))
    end.
Proof.
  intros U id_ user body b n.
  unfold Routes.patch_aprobacion, validate.
  destruct (accionAprobacionSchema body) as [ms|value] eqn:Es.
  { cbn. split; [reflexivity | discriminate]. }
  apply accionAprobacionSchema_valor in Es.
  unfold Routes.aprobar.
  set (d := {| de_solicitudId := id_;
               de_accion := accion value;
               de_comentario := comentario value;
               de_usuarioId := Routes.sub user;
               de_rol := Routes.rol user |}).
  unfold procesarAprobacion, bind. rewrite lectura_sin_fallos.
  cbn [de_solicitudId d].
  destruct (find (Repo.visible id_) (solicitudes_compra b)) as [s|] eqn:Ef.
  2:{ destruct (es_integer id_) eqn:Ei; cbn;
        (split; [reflexivity | first [discriminate | intros; reflexivity]]). }
  destruct (existsb (Estado_eqb (sc_estado s)) estadosAprobables) eqn:Eap;
    [|cbn; split; [reflexivity | discriminate]].
  cbn [negb].
  destruct (puedeAprobar (de_rol d) (sc_estado s)) eqn:Ep;
    [|cbn; split; [reflexivity | discriminate]].
  cbn [negb]. apply aprobable_In in Eap.
  destruct (nivelMap_aprobable _ Eap) as [nivel Hnivel].
  assert (Halm : forall e' ev,
            estado_almacenado id_ (tras_transicion b id_ e' (Routes.sub user) ev)
            = Some e').
  { intros e' ev. unfold estado_almacenado, tras_transicion. cbn [solicitudes_compra].
    rewrite find_visible_actualizar, Ef. reflexivity. }
  destruct Es as [Ha | (Ha & m & Hm & Hne & Htrim & Hlon)].
  - destruct (siguienteEstado_aprobable U _ (sc_monto_total s) Eap) as [e' He'].
    rewrite (transaccion_sin_fallos U d s b n e' nivel);
      [|unfold estado_resultante; cbn [de_accion d]; rewrite Ha; exact He' | exact Hnivel].
    cbn [de_accion d]. rewrite Ha.
    change (Repo.accion_admitida "aprobar") with true. cbn [fst snd estadoNuevo].
    eexists. eexists. split; [reflexivity|].
    cbn [de_solicitudId de_usuarioId d].
    split; [apply Halm|]. split; [reflexivity|].
    cbn [evento ac_solicitud_id ac_aprobador_id
      ac_estado_resultante ac_accion de_solicitudId de_usuarioId d].
    repeat split. left. reflexivity.
  - rewrite (transaccion_sin_fallos U d s b n RECHAZADA nivel);
      [|unfold estado_resultante; cbn [de_accion d]; rewrite Ha; reflexivity | exact Hnivel].
    cbn [de_accion d]. rewrite Ha.
    change (Repo.accion_admitida "rechazar") with true. cbn [fst snd estadoNuevo].
    eexists. eexists. split; [reflexivity|].
    cbn [de_solicitudId de_usuarioId d].
    split; [apply Halm|]. split; [reflexivity|].
    cbn [evento ac_solicitud_id ac_aprobador_id
      ac_estado_resultante ac_accion ac_comentario de_solicitudId de_usuarioId
      de_comentario d].
    repeat split. right. split; [reflexivity|]. split; [reflexivity|].
    exists m. rewrite Hm. cbn [Repo.parametro]. repeat split; assumption.
Qed.

(* ================================================================== *)
(** * operaciones.service.js: the matrix *)
(* ================================================================== *)

Lemma Math_round_semanas (d : Z) :
  (26 <? Math_round (inject_Z d / inject_Z (7 * 24 * 60 * 60 * 1000)))%Z
  = (16027200000 <=? d)%Z.
Proof.
  unfold Math_round.
  rewrite (Qfloor_comp _ (inject_Z (2 * d + 604800000) / inject_Z 1209600000)).
  - rewrite <- Zdiv_Qdiv.
    destruct (16027200000 <=? d)%Z eqn:E.
    + apply Z.leb_le in E. apply Z.ltb_lt.
      apply (Z.lt_le_trans _ 27); [lia|].
      apply Z.div_le_lower_bound; lia.
    + apply Z.leb_gt in E. apply Z.ltb_ge.
      apply Z.lt_succ_r. apply Z.div_lt_upper_bound; lia.
  - change (inject_Z (7 * 24 * 60 * 60 * 1000)) with (inject_Z 604800000).
    unfold Qeq, Qdiv, Qmult, Qplus, Qinv, inject_Z. cbn [Qnum Qden].
    change (Qnum (1 # 2)) with 1%Z. change (Qden (1 # 2)) with 2%positive.
    rewrite !Pos2Z.inj_mul. lia.
Qed.

(** X21. The range check of [getMatriz]. When both dates are valid, the
    call is refused with the Validation error of the 26 weeks exactly when
    the end is 26 weeks and a half, or more, after the start
    (16027200000 ms, since the number of weeks is rounded to the nearest);
    otherwise, and so also for an end that precedes the start, it is the
    call of the repository with the same arguments. When a date is not
    valid it is refused with the other Validation error. A refusal makes no
    query. *)
Theorem getMatriz_rango :
  forall (Date_ : Campo -> option Z) (Matriz : Type)
         (obtenerMatrizAsignacion : ConsultaMatriz -> Async Matriz)
         (q : ConsultaMatriz),
    (forall inicio fin,
       Date_ (semanaInicio q) = Some inicio -> Date_ (semanaFin q) = Some fin ->
       getMatriz Date_ Matriz obtenerMatrizAsignacion q
       = if (16027200000 <=? fin - inicio)%Z
         then throw (ValidationError "El rango máximo para la matriz es de 26 semanas")
         else obtenerMatrizAsignacion q) /\
    (Date_ (semanaInicio q) = None \/ Date_ (semanaFin q) = None ->
     getMatriz Date_ Matriz obtenerMatrizAsignacion q
     = throw (ValidationError "Fechas inválidas para la matriz")).
Proof.
  intros Date_ Matriz repo q. unfold getMatriz. split.
  - intros inicio fin -> ->. cbv zeta. rewrite Math_round_semanas. reflexivity.
  - intros [-> | H]; [reflexivity|].
    rewrite H. destruct (Date_ (semanaInicio q)); reflexivity.
Qed.

Lemma getMatriz_rango_ejemplo :
  getMatriz Date_ejemplo unit (fun _ => ret tt)
    {| semanaInicio := texto "2024-01-01"; semanaFin := texto "2024-07-04";
       areaId := indefinido |}
  = ret tt /\
  getMatriz Date_ejemplo unit (fun _ => ret tt)
    {| semanaInicio := texto "2024-01-01"; semanaFin := texto "2024-07-05";
       areaId := indefinido |}
  = throw (ValidationError "El rango máximo para la matriz es de 26 semanas") /\
  getMatriz Date_ejemplo unit (fun _ => ret tt)
    {| semanaInicio := texto "2024-07-05"; semanaFin := texto "2024-01-01";
       areaId := indefinido |}
  = ret tt.
Proof.
  split; [|split].
  - exact (proj1 (getMatriz_rango Date_ejemplo unit (fun _ => ret tt)
                    {| semanaInicio := texto "2024-01-01";
                       semanaFin := texto "2024-07-04";
                       areaId := indefinido |})
                 1704067200000%Z 1720051200000%Z eq_refl eq_refl).
  - exact (proj1 (getMatriz_rango Date_ejemplo unit (fun _ => ret tt)
                    {| semanaInicio := texto "2024-01-01";
                       semanaFin := texto "2024-07-05";
                       areaId := indefinido |})
                 1704067200000%Z 1720137600000%Z eq_refl eq_refl).
  - exact (proj1 (getMatriz_rango Date_ejemplo unit (fun _ => ret tt)
                    {| semanaInicio := texto "2024-07-05";
                       semanaFin := texto "2024-01-01";
                       areaId := indefinido |})
                 1720137600000%Z 1704067200000%Z eq_refl eq_refl).
Defined.
